(** * med2image: slice and frame selection of the NIfTI converter

    A shallow embedding of [med2image.py]: the constructor of the base
    class [med2image], the NIfTI subclass [med2image_nii] with its [run]
    method, and the dispatch of the [__main__] block.

    Python objects that the code treats dynamically (the selector fields hold
    an [int] or a [str]) are a small sum type; numpy arrays are a shape with a
    row-major buffer; exceptions are an error result.  The two calls with an
    effect outside the process, [misc.mkdir] and [pylab.imsave], are recorded
    in a trace; logging is left out. *)

From Stdlib Require Import ZArith List String Ascii Bool Arith Lia.
From Stdlib Require Import Decimal DecimalString.
From Stdlib Require DecimalPos DecimalN.
Import ListNotations.

Local Open Scope Z_scope.

(** ** Python values and exceptions *)

Inductive pyexn : Type :=
| AttributeError
| TypeError
| ValueError
| IndexError
| SystemExit (code : Z).

(** The selector fields start as the [int] [-1] and are overwritten with the
    caller's value, a [str] when it comes from the command line. *)
Inductive pyval : Type :=
| PyInt (z : Z)
| PyStr (s : string).

(** ** Strings: the builtins the constructor uses *)

Module PyStr.

Definition lower_ascii (c : ascii) : ascii :=
  let n := nat_of_ascii c in
  if (Nat.leb 65 n && Nat.leb n 90)%bool then ascii_of_nat (n + 32) else c.

(** [str.lower] *)
Fixpoint lower (s : string) : string :=
  match s with
  | EmptyString => EmptyString
  | String c s' => String (lower_ascii c) (lower s')
  end.

(** [len] *)
Definition len (s : string) : Z := Z.of_nat (String.length s).

(** [s.rfind(c)] for a one-character [c]: the highest index, or [-1]. *)
Fixpoint rfind_from (c : ascii) (s : string) (i last : Z) : Z :=
  match s with
  | EmptyString => last
  | String a s' => rfind_from c s' (i + 1) (if Ascii.eqb a c then i else last)
  end.

Definition rfind (c : ascii) (s : string) : Z := rfind_from c s 0 (-1).

(** [s[:i]] and [s[i:]] for [0 <= i <= len s] *)
Definition upto (i : Z) (s : string) : string :=
  String.substring 0 (Z.to_nat i) s.

Definition from (i : Z) (s : string) : string :=
  String.substring (Z.to_nat i) (String.length s - Z.to_nat i) s.

Definition is_space (c : ascii) : bool :=
  let n := nat_of_ascii c in
  (Nat.eqb n 32 || (Nat.leb 9 n && Nat.leb n 13))%bool.

Definition is_digit (c : ascii) : bool :=
  let n := nat_of_ascii c in (Nat.leb 48 n && Nat.leb n 57)%bool.

Fixpoint lstrip (s : string) : string :=
  match s with
  | String c s' => if is_space c then lstrip s' else s
  | EmptyString => EmptyString
  end.

(** digits, then only white space: the value read so far, or [None] *)
Fixpoint digits_then_space (s : string) (acc : Z) : option Z :=
  match s with
  | EmptyString => Some acc
  | String c s' =>
      if is_digit c
      then digits_then_space s' (10 * acc + Z.of_nat (nat_of_ascii c - 48))
      else if is_space c
           then match lstrip s' with EmptyString => Some acc | _ => None end
           else None
  end.

Definition unsigned_literal (s : string) : option Z :=
  match s with
  | String c _ => if is_digit c then digits_then_space s 0 else None
  | EmptyString => None
  end.

(** [int(s)] on a [str], base 10: optional white space, an optional sign,
    one or more decimal digits, optional white space.  Anything else is a
    [ValueError] (white space between the sign and the digits included). *)
Definition to_int (s : string) : pyexn + Z :=
  match lstrip s with
  | String "-"%char s' =>
      match unsigned_literal s' with
      | Some n => inr (- n)
      | None => inl ValueError
      end
  | String "+"%char s' =>
      match unsigned_literal s' with
      | Some n => inr n
      | None => inl ValueError
      end
  | s' =>
      match unsigned_literal s' with
      | Some n => inr n
      | None => inl ValueError
      end
  end.

(** left padding with ["0"] up to width [w] *)
Definition zfill (w : nat) (s : string) : string :=
  (fix pad (k : nat) : string :=
     match k with
     | O => s
     | S k' => String "0"%char (pad k')
     end) (w - String.length s)%nat.

(** the decimal digits of a natural number, no sign, no padding *)
Definition digits (z : Z) : string :=
  NilEmpty.string_of_uint (N.to_uint (Z.to_N z)).

(** ["%03d" % z]: the width counts the sign, the zeros follow it. *)
Definition fmt_03d (z : Z) : string :=
  if z <? 0 then String "-"%char (zfill 2 (digits (- z)))
  else zfill 3 (digits z).

(** [os.path.splitext] (posixpath): the extension starts at the last dot of
    the last path component, unless that component has nothing but dots
    before it. *)
Fixpoint splitext_scan (p : string) (filenameIndex : nat) (steps : nat) : bool :=
  match steps with
  | O => false
  | S steps' =>
      match String.get filenameIndex p with
      | Some "."%char => splitext_scan p (S filenameIndex) steps'
      | _ => true
      end
  end.

Definition splitext (p : string) : string * string :=
  let sepIndex := rfind "/"%char p in
  let dotIndex := rfind "."%char p in
  if (sepIndex <? dotIndex)
     && splitext_scan p (Z.to_nat (sepIndex + 1)) (Z.to_nat (dotIndex - (sepIndex + 1)))
  then (upto dotIndex p, from dotIndex p)
  else (p, EmptyString).

End PyStr.

(** ** Results with a trace of external calls *)

Section Med2Image.

(** The element type of the decoded volume and the value read where an
    index falls outside the buffer (never the case for a well-formed
    array). *)
Variable voxel : Type.
Variable v0 : voxel.

(** *** numpy arrays: a shape and a row-major buffer *)

Record ndarray : Type := mk_ndarray {
  shape : list nat;
  data : list voxel
}.

Definition ndim (a : ndarray) : nat := List.length (shape a).

Definition size_of (s : list nat) : nat := fold_right Nat.mul 1%nat s.

Definition well_formed (a : ndarray) : Prop :=
  List.length (data a) = size_of (shape a).

(** An index [i] into an axis of length [n]: negative values count from the
    end, anything outside [-n, n) is an [IndexError]. *)
Definition normalize_index (i : Z) (n : nat) : pyexn + nat :=
  if (0 <=? i) && (i <? Z.of_nat n) then inr (Z.to_nat i)
  else if (- Z.of_nat n <=? i) && (i <? 0) then inr (Z.to_nat (i + Z.of_nat n))
  else inl IndexError.

Definition tabulate2 (A B : nat) (f : nat -> nat -> voxel) : list voxel :=
  flat_map (fun a => map (f a) (seq 0 B)) (seq 0 A).

Definition tabulate3 (A B C : nat) (f : nat -> nat -> nat -> voxel) : list voxel :=
  flat_map (fun a => tabulate2 B C (f a)) (seq 0 A).

(** [a[:, ..., :, j]] with [k] full slices before the index [j], already
    normalised: axis [k] is dropped. *)
Definition take_axis (k : nat) (j : nat) (a : ndarray) : ndarray :=
  let n := nth k (shape a) 0%nat in
  let pre := size_of (firstn k (shape a)) in
  let post := size_of (skipn (S k) (shape a)) in
  {| shape := firstn k (shape a) ++ skipn (S k) (shape a);
     data := tabulate2 pre post
               (fun p q => nth ((p * n + j) * post + q)%nat (data a) v0) |}.

Definition index_axis (k : nat) (a : ndarray) (i : Z) : pyexn + ndarray :=
  match nth_error (shape a) k with
  | None => inl IndexError
  | Some n =>
      match normalize_index i n with
      | inl e => inl e
      | inr j => inr (take_axis k j a)
      end
  end.

(** [np.rot90(m)], that is [fliplr(m).swapaxes(0, 1)]: entry [(i, j)] of the
    result is entry [(j, C-1-i)] of [m], for [m] of shape [(R, C, ...)]. *)
Definition rot90_array (m : ndarray) : ndarray :=
  match shape m with
  | R :: C :: rest =>
      let post := size_of rest in
      {| shape := C :: R :: rest;
         data := tabulate3 C R post
                   (fun i j q => nth ((j * C + (C - 1 - i)) * post + q)%nat (data m) v0) |}
  | _ => m
  end.

Definition np_rot90 (m : ndarray) : pyexn + ndarray :=
  if (ndim m <? 2)%nat then inl ValueError else inr (rot90_array m).

(** entry [(i, j)] of a 2D array *)
Definition get2 (m : ndarray) (i j : nat) : voxel :=
  nth (i * nth 1 (shape m) 0 + j)%nat (data m) v0.

(** *** External calls and the result monad *)

(** Modelled from the spec: [misc.mkdir], of the module [_common.systemMisc]
    whose code is not among the sources.  The specification has the output
    directory created if absent, with no error when it exists, so the call
    is recorded and always returns. *)
Inductive event : Type :=
| Mkdir (dir : string)
| Imsave (path : string) (img : ndarray).

Definition M (A : Type) : Type := (list event * (pyexn + A))%type.

Definition ret {A : Type} (a : A) : M A := ([], inr a).

Definition raise {A : Type} (e : pyexn) : M A := ([], inl e).

Definition lift {A : Type} (r : pyexn + A) : M A := ([], r).

Definition emit (ev : event) : M unit := ([ev], inr tt).

Definition bind {A B : Type} (m : M A) (k : A -> M B) : M B :=
  match m with
  | (t, inl e) => (t, inl e)
  | (t, inr a) => let (t', r) := k a in (t ++ t', r)
  end.

Notation "x <- m ;; k" := (bind m (fun x => k))
  (at level 61, m at next level, right associativity).

(** [range(a, b)] *)
Definition py_range (a b : Z) : list Z :=
  map (fun k => a + Z.of_nat k) (seq 0 (Z.to_nat (b - a))).

(** [for x in xs: s = body(x, s)], stopping at the first exception *)
Fixpoint for_each {S : Type} (xs : list Z) (body : Z -> S -> M S) (s : S) : M S :=
  match xs with
  | [] => ret s
  | x :: xs' => s' <- body x s ;; for_each xs' body s'
  end.

(** the files written, in order: the [imsave] calls of a trace *)
Fixpoint jobs_of (t : list event) : list (string * ndarray) :=
  match t with
  | [] => []
  | Mkdir _ :: t' => jobs_of t'
  | Imsave path img :: t' => (path, img) :: jobs_of t'
  end.

(** the exception of a result, if any *)
Definition outcome {A : Type} (m : M A) : option pyexn :=
  match snd m with
  | inl e => Some e
  | inr _ => None
  end.

(** *** The classes *)

(** [nib.load(path).get_data()]: the decoder, an external collaborator *)
Variable nib_load_data : string -> pyexn + ndarray.

(** The attributes of a [med2image] object that the constructor and [run]
    read or write (the description, working directory, captured output and
    logger are left out). *)
Record med2image : Type := mk_med2image {
  _str_inputFile : string;
  _str_outputFileStem : string;
  _str_outputFileType : string;
  _str_outputDir : string;
  _sliceToConvert : pyval;
  _frameToConvert : pyval;
  _b_4D : bool;
  _b_3D : bool;
  _Vnp_4DVol : option ndarray;
  _Vnp_3DVol : option ndarray;
  _Mnp_2Dslice : option ndarray;
  _b_showSlices : bool;
  _b_convertMiddleSlice : bool;
  _b_convertMiddleFrame : bool
}.

Definition set_sliceToConvert (v : pyval) (self : med2image) : med2image :=
  mk_med2image (_str_inputFile self) (_str_outputFileStem self)
    (_str_outputFileType self) (_str_outputDir self) v (_frameToConvert self)
    (_b_4D self) (_b_3D self) (_Vnp_4DVol self) (_Vnp_3DVol self)
    (_Mnp_2Dslice self) (_b_showSlices self) (_b_convertMiddleSlice self)
    (_b_convertMiddleFrame self).

Definition set_frameToConvert (v : pyval) (self : med2image) : med2image :=
  mk_med2image (_str_inputFile self) (_str_outputFileStem self)
    (_str_outputFileType self) (_str_outputDir self) (_sliceToConvert self) v
    (_b_4D self) (_b_3D self) (_Vnp_4DVol self) (_Vnp_3DVol self)
    (_Mnp_2Dslice self) (_b_showSlices self) (_b_convertMiddleSlice self)
    (_b_convertMiddleFrame self).

Definition set_outputFileType (t : string) (self : med2image) : med2image :=
  mk_med2image (_str_inputFile self) (_str_outputFileStem self)
    t (_str_outputDir self) (_sliceToConvert self) (_frameToConvert self)
    (_b_4D self) (_b_3D self) (_Vnp_4DVol self) (_Vnp_3DVol self)
    (_Mnp_2Dslice self) (_b_showSlices self) (_b_convertMiddleSlice self)
    (_b_convertMiddleFrame self).

Definition set_convertMiddleSlice (b : bool) (self : med2image) : med2image :=
  mk_med2image (_str_inputFile self) (_str_outputFileStem self)
    (_str_outputFileType self) (_str_outputDir self) (_sliceToConvert self)
    (_frameToConvert self) (_b_4D self) (_b_3D self) (_Vnp_4DVol self)
    (_Vnp_3DVol self) (_Mnp_2Dslice self) (_b_showSlices self) b
    (_b_convertMiddleFrame self).

Definition set_convertMiddleFrame (b : bool) (self : med2image) : med2image :=
  mk_med2image (_str_inputFile self) (_str_outputFileStem self)
    (_str_outputFileType self) (_str_outputDir self) (_sliceToConvert self)
    (_frameToConvert self) (_b_4D self) (_b_3D self) (_Vnp_4DVol self)
    (_Vnp_3DVol self) (_Mnp_2Dslice self) (_b_showSlices self)
    (_b_convertMiddleSlice self) b.

Definition set_4DVol (v : ndarray) (self : med2image) : med2image :=
  mk_med2image (_str_inputFile self) (_str_outputFileStem self)
    (_str_outputFileType self) (_str_outputDir self) (_sliceToConvert self)
    (_frameToConvert self) true (_b_3D self) (Some v)
    (_Vnp_3DVol self) (_Mnp_2Dslice self) (_b_showSlices self)
    (_b_convertMiddleSlice self) (_b_convertMiddleFrame self).

Definition set_3DVol_flag (v : ndarray) (self : med2image) : med2image :=
  mk_med2image (_str_inputFile self) (_str_outputFileStem self)
    (_str_outputFileType self) (_str_outputDir self) (_sliceToConvert self)
    (_frameToConvert self) (_b_4D self) true (_Vnp_4DVol self)
    (Some v) (_Mnp_2Dslice self) (_b_showSlices self)
    (_b_convertMiddleSlice self) (_b_convertMiddleFrame self).

Definition set_3DVol (v : ndarray) (self : med2image) : med2image :=
  mk_med2image (_str_inputFile self) (_str_outputFileStem self)
    (_str_outputFileType self) (_str_outputDir self) (_sliceToConvert self)
    (_frameToConvert self) (_b_4D self) (_b_3D self) (_Vnp_4DVol self)
    (Some v) (_Mnp_2Dslice self) (_b_showSlices self)
    (_b_convertMiddleSlice self) (_b_convertMiddleFrame self).

Definition set_2Dslice (m : ndarray) (self : med2image) : med2image :=
  mk_med2image (_str_inputFile self) (_str_outputFileStem self)
    (_str_outputFileType self) (_str_outputDir self) (_sliceToConvert self)
    (_frameToConvert self) (_b_4D self) (_b_3D self) (_Vnp_4DVol self)
    (_Vnp_3DVol self) (Some m) (_b_showSlices self)
    (_b_convertMiddleSlice self) (_b_convertMiddleFrame self).

(** The keyword arguments the constructor recognises, each given or not.
    The selectors are whatever object the caller passes. *)
Record kwargs : Type := mk_kwargs {
  kw_inputFile : option string;
  kw_outputDir : option string;
  kw_outputFileStem : option string;
  kw_outputFileType : option string;
  kw_sliceToConvert : option pyval;
  kw_frameToConvert : option pyval;
  kw_showSlices : option bool
}.

Definition given {A : Type} (o : option A) (default : A) : A :=
  match o with
  | Some v => v
  | None => default
  end.

(** [med2image.__init__], up to the loop over [kwargs]: the defaults,
    overwritten by the keys that are present. *)
Definition med2image_fields (kw : kwargs) : med2image :=
  {| _str_inputFile := given (kw_inputFile kw) EmptyString;
     _str_outputFileStem := given (kw_outputFileStem kw) EmptyString;
     _str_outputFileType := given (kw_outputFileType kw) EmptyString;
     _str_outputDir := given (kw_outputDir kw) EmptyString;
     _sliceToConvert := given (kw_sliceToConvert kw) (PyInt (-1));
     _frameToConvert := given (kw_frameToConvert kw) (PyInt (-1));
     _b_4D := false;
     _b_3D := false;
     _Vnp_4DVol := None;
     _Vnp_3DVol := None;
     _Mnp_2Dslice := None;
     _b_showSlices := given (kw_showSlices kw) false;
     _b_convertMiddleSlice := false;
     _b_convertMiddleFrame := false |}.

(** [if v.lower() == 'm': flag = True  else: v = int(v)]: the flag and the
    new value of the selector.  An [int] has no [lower]. *)
Definition parse_selector (v : pyval) : pyexn + (bool * pyval) :=
  match v with
  | PyInt _ => inl AttributeError
  | PyStr s =>
      if String.eqb (PyStr.lower s) "m" then inr (true, v)
      else match PyStr.to_int s with
           | inl e => inl e
           | inr z => inr (false, PyInt z)
           end
  end.

(** the last three statements of the constructor; [str_fileName] is not
    used again *)
Definition resolve_outputFileType (self : med2image) : med2image :=
  let '(str_fileName, str_fileExtension) :=
    PyStr.splitext (_str_outputFileStem self) in
  let str_fileExtension :=
    if 0 <? PyStr.len (_str_outputFileType self)
    then String "."%char (_str_outputFileType self)
    else str_fileExtension in
  let self :=
    if (0 <? PyStr.len str_fileExtension)
       && negb (0 <? PyStr.len (_str_outputFileType self))
    then set_outputFileType str_fileExtension self
    else self in
  if negb (0 <? PyStr.len (_str_outputFileType self))
     && negb (0 <? PyStr.len str_fileExtension)
  then set_outputFileType ".png" self
  else self.

(** [med2image.__init__] *)
Definition med2image_init (kw : kwargs) : pyexn + med2image :=
  let self := med2image_fields kw in
  match parse_selector (_frameToConvert self) with
  | inl e => inl e
  | inr (mf, fv) =>
      let self := set_frameToConvert fv (set_convertMiddleFrame mf self) in
      match parse_selector (_sliceToConvert self) with
      | inl e => inl e
      | inr (ms, sv) =>
          let self := set_sliceToConvert sv (set_convertMiddleSlice ms self) in
          inr (resolve_outputFileType self)
      end
  end.

(** [med2image.run]: the body is a docstring *)
Definition med2image_run (self : med2image) : M med2image := ret self.

(** [med2image_nii.__init__] *)
Definition med2image_nii_init (kw : kwargs) : pyexn + med2image :=
  match med2image_init kw with
  | inl e => inl e
  | inr self =>
      match nib_load_data (_str_inputFile self) with
      | inl e => inl e
      | inr data =>
          let self := if (ndim data =? 4)%nat then set_4DVol data self else self in
          let self := if (ndim data =? 3)%nat then set_3DVol_flag data self else self in
          inr self
      end
  end.

(** [x.shape[k]] for an attribute [x] that may still be [None] *)
Definition shape_at (x : option ndarray) (k : nat) : pyexn + Z :=
  match x with
  | None => inl AttributeError
  | Some a =>
      match nth_error (shape a) k with
      | None => inl IndexError
      | Some n => inr (Z.of_nat n)
      end
  end.

(** [x[:, ..., :, i]] with [k] full slices, for an attribute that may still
    be [None] *)
Definition subscript (x : option ndarray) (k : nat) (i : Z) : pyexn + ndarray :=
  match x with
  | None => inl TypeError
  | Some a => index_axis k a i
  end.

(** [(start, end)] after [if sel == -1: end = count  else: start = sel;
    end = sel + 1]; a [str] is not [-1] and cannot be added to [1]. *)
Definition select_range (sel : pyval) (count : Z) (bounds : Z * Z) : pyexn + (Z * Z) :=
  match sel with
  | PyInt v => if v =? -1 then inr (fst bounds, count) else inr (v, v + 1)
  | PyStr _ => inl TypeError
  end.

(** the two file name patterns, with the directory in front *)
Definition output_file_4D (self : med2image) (f i : Z) : string :=
  (_str_outputDir self ++ "/" ++ _str_outputFileStem self
     ++ "-frame" ++ PyStr.fmt_03d f ++ "-slice" ++ PyStr.fmt_03d i
     ++ "." ++ _str_outputFileType self)%string.

Definition output_file_3D (self : med2image) (i : Z) : string :=
  (_str_outputDir self ++ "/" ++ _str_outputFileStem self
     ++ "-slice" ++ PyStr.fmt_03d i ++ "." ++ _str_outputFileType self)%string.

(** the [if self._b_4D: ... else: ...] that names the output file *)
Definition output_file (self : med2image) (f i : Z) : string :=
  if _b_4D self then output_file_4D self f i else output_file_3D self i.

(** the body of [for i in range(sliceStart, sliceEnd)] *)
Definition slice_body (f : Z) (i : Z) (self : med2image) : M med2image :=
  imslice <- lift (subscript (_Vnp_3DVol self) 2 i) ;;
  rotated <- lift (np_rot90 imslice) ;;
  let self := set_2Dslice rotated self in
  let str_outputFile := output_file self f i in
  _ <- emit (Imsave str_outputFile rotated) ;;
  ret self.

(** the first statement of the frame loop:
    [if self._b_4D: self._Vnp_3DVol = self._Vnp_4DVol[:,:,:,f]] *)
Definition load_frame (f : Z) (self : med2image) : M med2image :=
  if _b_4D self
  then vol <- lift (subscript (_Vnp_4DVol self) 3 f) ;;
       ret (set_3DVol vol self)
  else ret self.

(** the rest of the frame loop's body; the slice bounds are locals of
    [run] and live across the iterations *)
Definition convert_slices (f : Z) (st : med2image * (Z * Z)) : M (med2image * (Z * Z)) :=
  let '(self, bounds) := st in
  slices <- lift (shape_at (_Vnp_3DVol self) 2) ;;
  let self :=
    if _b_convertMiddleSlice self
    then set_sliceToConvert (PyInt (slices / 2)) self
    else self in
  count <- lift (shape_at (_Vnp_3DVol self) 2) ;;
  bounds <- lift (select_range (_sliceToConvert self) count bounds) ;;
  _ <- emit (Mkdir (_str_outputDir self)) ;;
  self <- for_each (py_range (fst bounds) (snd bounds)) (slice_body f) self ;;
  ret (self, bounds).

(** the body of [for f in range(frameStart, frameEnd)] *)
Definition frame_body (f : Z) (st : med2image * (Z * Z)) : M (med2image * (Z * Z)) :=
  self <- load_frame f (fst st) ;;
  convert_slices f (self, snd st).

(** [med2image_nii.run] *)
Definition med2image_nii_run (self : med2image) : M med2image :=
  frames <- (if _b_4D self then lift (shape_at (_Vnp_4DVol self) 3) else ret 1) ;;
  let self :=
    if _b_convertMiddleFrame self
    then set_frameToConvert (PyInt (frames / 2)) self
    else self in
  fbounds <- lift (select_range (_frameToConvert self) frames (0, 0)) ;;
  st <- for_each (py_range (fst fbounds) (snd fbounds)) frame_body (self, (0, 0)) ;;
  ret (fst st).

(** *** The [__main__] block *)

Record arguments : Type := mk_arguments {
  inputFile : string;
  outputFileStem : string;
  outputDir : string;
  outputFileType : string;
  sliceToConvert : string;
  frameToConvert : string;
  printElapsedTime : bool;
  showSlices : bool;
  man : bool;
  synopsis : bool
}.

Definition main (args : arguments) : M unit :=
  if man args || synopsis args then raise (SystemExit 1)
  else
    let '(str_fileName, str_fileExtension) := PyStr.splitext (inputFile args) in
    let b_niftiExt := String.eqb str_fileExtension ".nii"
                      || String.eqb str_fileExtension ".gz" in
    if b_niftiExt
    then
      C_convert <- lift (med2image_nii_init
                           {| kw_inputFile := Some (inputFile args);
                              kw_outputDir := Some (outputDir args);
                              kw_outputFileStem := Some (outputFileStem args);
                              kw_outputFileType := Some (outputFileType args);
                              kw_sliceToConvert := Some (PyStr (sliceToConvert args));
                              kw_frameToConvert := Some (PyStr (frameToConvert args));
                              kw_showSlices := Some (showSlices args) |}) ;;
      _ <- med2image_nii_run C_convert ;;
      ret tt
    else
      C_convert <- lift (med2image_init
                           {| kw_inputFile := Some (inputFile args);
                              kw_outputDir := None;
                              kw_outputFileStem := Some (outputFileStem args);
                              kw_outputFileType := Some (outputFileType args);
                              kw_sliceToConvert := Some (PyStr (sliceToConvert args));
                              kw_frameToConvert := None;
                              kw_showSlices := None |}) ;;
      _ <- med2image_run C_convert ;;
      ret tt.

(** *** Notions used by the statements *)

(** the indices an axis of length [n] accepts *)
Definition valid_index (i : Z) (n : nat) : Prop :=
  - Z.of_nat n <= i < Z.of_nat n.

(** the position a valid index denotes *)
Definition wrap_index (i : Z) (n : nat) : nat :=
  Z.to_nat (if i <? 0 then i + Z.of_nat n else i).

Definition with_2Dslice (o : option ndarray) (self : med2image) : med2image :=
  mk_med2image (_str_inputFile self) (_str_outputFileStem self)
    (_str_outputFileType self) (_str_outputDir self) (_sliceToConvert self)
    (_frameToConvert self) (_b_4D self) (_b_3D self) (_Vnp_4DVol self)
    (_Vnp_3DVol self) o (_b_showSlices self)
    (_b_convertMiddleSlice self) (_b_convertMiddleFrame self).

(** the image written for slice [i] of the 3D volume [vol] *)
Definition slice_image (vol : ndarray) (i : Z) : ndarray :=
  rot90_array (take_axis 2 (wrap_index i (nth 2 (shape vol) 0%nat)) vol).

(** the value a selector has once [run] has resolved ["m"] *)
Definition selector_value (middle : bool) (sel : pyval) (count : Z) : option Z :=
  if middle then Some (count / 2)
  else match sel with
       | PyInt v => Some v
       | PyStr _ => None
       end.

(** the indices a resolved selector ranges over *)
Definition selected (v : Z) (count : Z) : list Z :=
  if v =? -1 then py_range 0 count else [v].

(** what one frame of a 4D volume sends out: the directory, then the
    selected slices of that frame *)
Definition frame_events (self : med2image) (vol4 : ndarray) (v : Z) (f : Z) : list event :=
  let vol := take_axis 3 (wrap_index f (nth 3 (shape vol4) 0%nat)) vol4 in
  Mkdir (_str_outputDir self)
    :: map (fun i => Imsave (output_file self f i) (slice_image vol i))
           (selected v (Z.of_nat (nth 2 (shape vol4) 0%nat))).

(** what the frame loop keeps unchanged from the object [self0] it starts
    with *)
Definition frame_inv (self0 : med2image) (vol4 : ndarray) (v : Z) (self : med2image) : Prop :=
  _b_4D self = true
  /\ _Vnp_4DVol self = Some vol4
  /\ selector_value (_b_convertMiddleSlice self) (_sliceToConvert self)
       (Z.of_nat (nth 2 (shape vol4) 0%nat)) = Some v
  /\ _str_outputDir self = _str_outputDir self0
  /\ (forall f i, output_file self f i = output_file self0 f i).

(** what the constructor leaves in a selector and its flag: the string
    ["m"] (in either case) with the flag set, or an [int] with the flag
    clear *)
Definition selector_typed (middle : bool) (sel : pyval) : Prop :=
  if middle then exists s, sel = PyStr s else exists z, sel = PyInt z.

(** the keyword arguments with another frame selector *)
Definition with_frameToConvert (f : option pyval) (kw : kwargs) : kwargs :=
  {| kw_inputFile := kw_inputFile kw;
     kw_outputDir := kw_outputDir kw;
     kw_outputFileStem := kw_outputFileStem kw;
     kw_outputFileType := kw_outputFileType kw;
     kw_sliceToConvert := kw_sliceToConvert kw;
     kw_frameToConvert := f;
     kw_showSlices := kw_showSlices kw |}.

(** the number of frames [run] works with: [frames = 1], then
    [frames = shape[3]] for a 4D volume *)
Definition frame_count (rest : list nat) : Z :=
  match rest with
  | [] => 1
  | T :: _ => Z.of_nat T
  end.

(** [np.rot90] applied [k] times in a row *)
Fixpoint rot90_times (k : nat) (m : ndarray) : pyexn + ndarray :=
  match k with
  | O => inr m
  | S k' =>
      match np_rot90 m with
      | inl e => inl e
      | inr m' => rot90_times k' m'
      end
  end.


(** a selector that is no [str]: absent (the [int] default stays) or passed
    as an [int] *)
Definition not_a_str (v : option pyval) : Prop :=
  v = None \/ exists z, v = Some (PyInt z).

(** the value of a string of decimal digits read from the left, as
    [PyStr.digits_then_space] accumulates it *)
Fixpoint uint_value (u : Decimal.uint) (acc : Z) : Z :=
  match u with
  | Decimal.Nil => acc
  | Decimal.D0 u' => uint_value u' (10 * acc + 0)
  | Decimal.D1 u' => uint_value u' (10 * acc + 1)
  | Decimal.D2 u' => uint_value u' (10 * acc + 2)
  | Decimal.D3 u' => uint_value u' (10 * acc + 3)
  | Decimal.D4 u' => uint_value u' (10 * acc + 4)
  | Decimal.D5 u' => uint_value u' (10 * acc + 5)
  | Decimal.D6 u' => uint_value u' (10 * acc + 6)
  | Decimal.D7 u' => uint_value u' (10 * acc + 7)
  | Decimal.D8 u' => uint_value u' (10 * acc + 8)
  | Decimal.D9 u' => uint_value u' (10 * acc + 9)
  end.

(** a string of decimal digits only *)
Fixpoint all_digits (s : string) : bool :=
  match s with
  | EmptyString => true
  | String c s' => PyStr.is_digit c && all_digits s'
  end.

(** In a trace, every argument of [misc.mkdir] is the string [dir], and
    every call of [pylab.imsave] comes after a call of [misc.mkdir] ([made]
    tells whether there was one before the trace starts), with a path that
    begins with [dir] followed by ["/"].  This is about the path as a string:
    where the file lands also depends on what follows the ["/"]. *)
Fixpoint writes_after_mkdir (dir : string) (made : bool) (t : list event) : Prop :=
  match t with
  | [] => True
  | Mkdir d :: t' => d = dir /\ writes_after_mkdir dir true t'
  | Imsave path _ :: t' =>
      made = true
      /\ String.prefix (dir ++ "/") path = true
      /\ writes_after_mkdir dir made t'
  end.

(** [vol[x, y, z]] and [vol[x, y, z, f]] in the row-major buffer *)
Definition get3 (vol : ndarray) (x y z : nat) : voxel :=
  nth ((x * nth 1 (shape vol) 0 + y) * nth 2 (shape vol) 0 + z)%nat (data vol) v0.

Definition get4 (vol : ndarray) (x y z f : nat) : voxel :=
  nth (((x * nth 1 (shape vol) 0 + y) * nth 2 (shape vol) 0 + z)
       * nth 3 (shape vol) 0 + f)%nat (data vol) v0.

(** [s] behind [k] zeros: what [PyStr.zfill] builds *)
Fixpoint zeros_then (k : nat) (s : string) : string :=
  match k with
  | O => s
  | S k' => String "0"%char (zeros_then k' s)
  end.


(** ** Selector strings, by their form *)

(** a string of white space only *)
Fixpoint all_space (s : string) : bool :=
  match s with
  | EmptyString => true
  | String c s' => PyStr.is_space c && all_space s'
  end.

(** the value of a decimal digit *)
Definition digit_value (c : ascii) : Z :=
  match c with
  | "0" => 0
  | "1" => 1
  | "2" => 2
  | "3" => 3
  | "4" => 4
  | "5" => 5
  | "6" => 6
  | "7" => 7
  | "8" => 8
  | "9" => 9
  | _ => 0
  end%char.

(** the number a string of decimal digits writes: every digit counts for its
    value times the power of ten of its place *)
Fixpoint decimal_value (ds : string) : Z :=
  match ds with
  | EmptyString => 0
  | String c ds' =>
      digit_value c * 10 ^ Z.of_nat (String.length ds') + decimal_value ds'
  end.

(** the sign in front of the digits of a literal *)
Inductive literal_sign : Type :=
| NoSign
| PlusSign
| MinusSign.

Definition sign_text (sg : literal_sign) : string :=
  match sg with
  | NoSign => EmptyString
  | PlusSign => "+"
  | MinusSign => "-"
  end.

Definition signed (sg : literal_sign) (n : Z) : Z :=
  match sg with
  | MinusSign => - n
  | _ => n
  end.

(** [s] is a decimal literal that writes [z]: white space or none, a sign or
    none, one digit or more, white space or none *)
Definition decimal_literal (s : string) (z : Z) : Prop :=
  exists (ws1 : string) (sg : literal_sign) (ds ws2 : string),
    s = (ws1 ++ sign_text sg ++ ds ++ ws2)%string
    /\ all_space ws1 = true
    /\ all_digits ds = true
    /\ ds <> EmptyString
    /\ all_space ws2 = true
    /\ z = signed sg (decimal_value ds).

(** what a selector string stands for: the middle for ["m"] and ["M"], with
    the flag set and the string left in the field; an index for a decimal
    literal, with the flag clear and the [int] it writes in the field *)
Definition selector_denotes (s : string) (middle : bool) (v : pyval) : Prop :=
  ((s = "m"%string \/ s = "M"%string) /\ middle = true /\ v = PyStr s)
  \/ (exists z, decimal_literal s z /\ middle = false /\ v = PyInt z).

(** ** The result monad *)

Lemma bind_lift_inr {A B : Type} (a : A) (k : A -> M B) :
  bind (lift (inr a)) k = k a.
Proof.
  unfold bind, lift. destruct (k a) as [t r]. reflexivity.
Qed.

Lemma bind_lift_inl {A B : Type} (e : pyexn) (k : A -> M B) :
  bind (lift (inl e)) k = ([], inl e).
Proof. reflexivity. Qed.

Lemma bind_ret {A B : Type} (a : A) (k : A -> M B) :
  bind (ret a) k = k a.
Proof. apply bind_lift_inr. Qed.

Lemma bind_emit {B : Type} (ev : event) (k : unit -> M B) :
  bind (emit ev) k = (ev :: fst (k tt), snd (k tt)).
Proof.
  unfold bind, emit. destruct (k tt) as [t r]. reflexivity.
Qed.

Lemma bind_ok {A B : Type} (t : list event) (a : A) (k : A -> M B) :
  bind (t, inr a) k = (t ++ fst (k a), snd (k a)).
Proof.
  unfold bind. destruct (k a) as [t' r]. reflexivity.
Qed.

Lemma bind_err {A B : Type} (t : list event) (e : pyexn) (k : A -> M B) :
  bind (t, inl e) k = (t, inl e).
Proof. reflexivity. Qed.

Lemma jobs_of_app (t u : list event) :
  jobs_of (t ++ u) = jobs_of t ++ jobs_of u.
Proof.
  induction t as [|ev t IH]; simpl; [reflexivity|].
  destruct ev; simpl; rewrite IH; reflexivity.
Qed.

Lemma jobs_of_imsaves {X : Type} (path : X -> string) (img : X -> ndarray) (xs : list X) :
  jobs_of (map (fun x => Imsave (path x) (img x)) xs)
  = map (fun x => (path x, img x)) xs.
Proof.
  induction xs as [|x xs IH]; simpl; [reflexivity|]. rewrite IH. reflexivity.
Qed.

(** ** Indexing *)

Lemma normalize_index_valid (i : Z) (n : nat) :
  valid_index i n -> normalize_index i n = inr (wrap_index i n).
Proof.
  unfold valid_index, normalize_index, wrap_index. intros H.
  destruct (Z.ltb_spec i 0) as [Hneg|Hpos].
  - replace (0 <=? i) with false by (symmetry; apply Z.leb_gt; lia).
    simpl.
    replace (- Z.of_nat n <=? i) with true by (symmetry; apply Z.leb_le; lia).
    reflexivity.
  - replace (0 <=? i) with true by (symmetry; apply Z.leb_le; lia).
    replace (i <? Z.of_nat n) with true by (symmetry; apply Z.ltb_lt; lia).
    reflexivity.
Qed.

Lemma normalize_index_invalid (i : Z) (n : nat) :
  ~ valid_index i n -> normalize_index i n = inl IndexError.
Proof.
  unfold valid_index, normalize_index. intros H.
  destruct (Z.leb_spec 0 i) as [Hpos|Hneg]; simpl.
  - replace (i <? Z.of_nat n) with false by (symmetry; apply Z.ltb_ge; lia).
    replace (i <? 0) with false by (symmetry; apply Z.ltb_ge; lia).
    rewrite andb_false_r. reflexivity.
  - replace (- Z.of_nat n <=? i) with false by (symmetry; apply Z.leb_gt; lia).
    reflexivity.
Qed.

Lemma wrap_index_nat (k n : nat) : wrap_index (Z.of_nat k) n = k.
Proof.
  unfold wrap_index.
  replace (Z.of_nat k <? 0) with false by (symmetry; apply Z.ltb_ge; lia).
  apply Nat2Z.id.
Qed.

Lemma py_range_from_zero (n : nat) :
  py_range 0 (Z.of_nat n) = map Z.of_nat (seq 0 n).
Proof.
  unfold py_range. rewrite Z.sub_0_r, Nat2Z.id.
  apply map_ext. intros k. lia.
Qed.

Lemma py_range_single (v : Z) : py_range v (v + 1) = [v].
Proof.
  unfold py_range. replace (v + 1 - v) with 1 by lia.
  simpl. rewrite Z.add_0_r. reflexivity.
Qed.

Lemma py_range_valid (n : nat) :
  Forall (fun i => valid_index i n) (py_range 0 (Z.of_nat n)).
Proof.
  rewrite py_range_from_zero. apply Forall_forall. intros i Hi.
  apply in_map_iff in Hi. destruct Hi as [k [<- Hk]].
  apply in_seq in Hk. unfold valid_index. lia.
Qed.

Lemma ndim_take_axis_2 (vol : ndarray) (n j : nat) :
  nth_error (shape vol) 2 = Some n ->
  (ndim (take_axis 2 j vol) <? 2)%nat = false.
Proof.
  intros H. apply Nat.ltb_ge. unfold ndim, take_axis. simpl.
  destruct (shape vol) as [|x [|y [|z rest]]]; simpl in *; try discriminate.
  lia.
Qed.

Lemma nth_of_nth_error (s : list nat) (k n : nat) :
  nth_error s k = Some n -> nth k s 0%nat = n.
Proof. intros H. apply nth_error_nth with (d := 0%nat) in H. exact H. Qed.

(** ** The slice loop *)

Lemma slice_body_ok (f i : Z) (self : med2image) (vol : ndarray) (n : nat) :
  _Vnp_3DVol self = Some vol ->
  nth_error (shape vol) 2 = Some n ->
  valid_index i n ->
  slice_body f i self
  = ([Imsave (output_file self f i) (slice_image vol i)],
     inr (set_2Dslice (slice_image vol i) self)).
Proof.
  intros Hv Hn Hi. unfold slice_body, subscript, index_axis.
  rewrite Hv, Hn, (normalize_index_valid _ _ Hi), bind_lift_inr.
  unfold np_rot90. rewrite (ndim_take_axis_2 _ _ _ Hn), bind_lift_inr, bind_emit.
  unfold slice_image. rewrite (nth_of_nth_error _ _ _ Hn). reflexivity.
Qed.

Lemma slice_body_invalid (f i : Z) (self : med2image) (vol : ndarray) (n : nat) :
  _Vnp_3DVol self = Some vol ->
  nth_error (shape vol) 2 = Some n ->
  ~ valid_index i n ->
  slice_body f i self = ([], inl IndexError).
Proof.
  intros Hv Hn Hi. unfold slice_body, subscript, index_axis.
  rewrite Hv, Hn, (normalize_index_invalid _ _ Hi). reflexivity.
Qed.

Lemma slice_loop_ok (f : Z) (vol : ndarray) (n : nat) (indices : list Z) :
  nth_error (shape vol) 2 = Some n ->
  Forall (fun i => valid_index i n) indices ->
  forall self, _Vnp_3DVol self = Some vol ->
  exists o,
    for_each indices (slice_body f) self
    = (map (fun i => Imsave (output_file self f i) (slice_image vol i)) indices,
       inr (with_2Dslice o self)).
Proof.
  intros Hn Hall. induction Hall as [|i indices Hi Hall IH]; intros self Hv.
  - exists (_Mnp_2Dslice self). destruct self; reflexivity.
  - simpl for_each. rewrite (slice_body_ok f i self vol n Hv Hn Hi), bind_ok.
    destruct (IH (set_2Dslice (slice_image vol i) self) Hv) as [o Ho].
    rewrite Ho. exists o. reflexivity.
Qed.

(** The slice part of one frame: the directory is made, then one image is
    written for every selected index, in order. *)
Lemma convert_slices_ok (f : Z) (self : med2image) (bounds : Z * Z)
      (vol : ndarray) (n : nat) (v : Z) :
  _Vnp_3DVol self = Some vol ->
  nth_error (shape vol) 2 = Some n ->
  selector_value (_b_convertMiddleSlice self) (_sliceToConvert self) (Z.of_nat n) = Some v ->
  (v = -1 -> fst bounds = 0) ->
  Forall (fun i => valid_index i n) (selected v (Z.of_nat n)) ->
  exists o bounds',
    convert_slices f (self, bounds)
    = (Mkdir (_str_outputDir self)
         :: map (fun i => Imsave (output_file self f i) (slice_image vol i))
                (selected v (Z.of_nat n)),
       inr (with_2Dslice o (set_sliceToConvert (PyInt v) self), bounds'))
    /\ (v = -1 -> fst bounds' = 0).
Proof.
  intros Hv Hn Hsel Hb Hall. unfold convert_slices, shape_at.
  rewrite Hv, Hn, bind_lift_inr.
  set (self1 := if _b_convertMiddleSlice self
                then set_sliceToConvert (PyInt (Z.of_nat n / 2)) self else self).
  assert (H1 : _Vnp_3DVol self1 = Some vol)
    by (unfold self1; destruct (_b_convertMiddleSlice self); exact Hv).
  assert (H2 : _sliceToConvert self1 = PyInt v).
  { unfold self1, selector_value in *.
    destruct (_b_convertMiddleSlice self).
    - simpl. congruence.
    - destruct (_sliceToConvert self); congruence. }
  assert (H3 : set_sliceToConvert (PyInt v) self1 = set_sliceToConvert (PyInt v) self)
    by (unfold self1; destruct (_b_convertMiddleSlice self); reflexivity).
  assert (H4 : forall i, output_file self1 f i = output_file self f i)
    by (intros i; unfold self1; destruct (_b_convertMiddleSlice self); reflexivity).
  assert (H5 : _str_outputDir self1 = _str_outputDir self)
    by (unfold self1; destruct (_b_convertMiddleSlice self); reflexivity).
  assert (H6 : self1 = set_sliceToConvert (PyInt v) self1)
    by (rewrite <- H2; destruct self1; reflexivity).
  clearbody self1. rewrite H1, Hn, bind_lift_inr, H2. unfold select_range.
  set (bounds' := if v =? -1 then (fst bounds, Z.of_nat n) else (v, v + 1)).
  assert (Hr : py_range (fst bounds') (snd bounds') = selected v (Z.of_nat n)).
  { unfold bounds', selected. destruct (Z.eqb_spec v (-1)) as [E|E]; simpl.
    - rewrite (Hb E). reflexivity.
    - apply py_range_single. }
  assert (Hb' : v = -1 -> fst bounds' = 0).
  { intros E. unfold bounds'. rewrite E. simpl. apply Hb, E. }
  replace (if v =? -1 then inr (fst bounds, Z.of_nat n) else inr (v, v + 1))
    with (@inr pyexn _ bounds') by (unfold bounds'; destruct (v =? -1); reflexivity).
  clearbody bounds'. rewrite bind_lift_inr, bind_emit, Hr.
  destruct (slice_loop_ok f vol n _ Hn Hall self1 H1) as [o Ho].
  rewrite Ho, bind_ok. simpl. rewrite app_nil_r, H5.
  exists o, bounds'. split; [|exact Hb'].
  replace (with_2Dslice o self1)
    with (with_2Dslice o (set_sliceToConvert (PyInt v) self))
    by (rewrite <- H3, <- H6; reflexivity).
  do 2 f_equal. apply map_ext. intros i. rewrite H4. reflexivity.
Qed.

(** An index the slice axis does not accept stops the run after the
    directory is made, before anything is written. *)
Lemma convert_slices_invalid (f : Z) (self : med2image) (bounds : Z * Z)
      (vol : ndarray) (n : nat) (v : Z) :
  _Vnp_3DVol self = Some vol ->
  nth_error (shape vol) 2 = Some n ->
  selector_value (_b_convertMiddleSlice self) (_sliceToConvert self) (Z.of_nat n) = Some v ->
  v <> -1 ->
  ~ valid_index v n ->
  convert_slices f (self, bounds) = ([Mkdir (_str_outputDir self)], inl IndexError).
Proof.
  intros Hv Hn Hsel Hne Hbad. unfold convert_slices, shape_at.
  rewrite Hv, Hn, bind_lift_inr.
  set (self1 := if _b_convertMiddleSlice self
                then set_sliceToConvert (PyInt (Z.of_nat n / 2)) self else self).
  assert (H1 : _Vnp_3DVol self1 = Some vol)
    by (unfold self1; destruct (_b_convertMiddleSlice self); exact Hv).
  assert (H2 : _sliceToConvert self1 = PyInt v).
  { unfold self1, selector_value in *.
    destruct (_b_convertMiddleSlice self).
    - simpl. congruence.
    - destruct (_sliceToConvert self); congruence. }
  assert (H5 : _str_outputDir self1 = _str_outputDir self)
    by (unfold self1; destruct (_b_convertMiddleSlice self); reflexivity).
  clearbody self1. rewrite H1, Hn, bind_lift_inr, H2. unfold select_range.
  apply Z.eqb_neq in Hne. rewrite Hne, bind_lift_inr, bind_emit. simpl fst. simpl snd.
  rewrite py_range_single. simpl for_each.
  rewrite (slice_body_invalid f v self1 vol n H1 Hn Hbad), H5. reflexivity.
Qed.

(** ** The frame loop *)

(** [run] up to the frame loop: the frame selector is resolved and the
    loop runs over the frames it selects. *)
Lemma run_frames (self : med2image) (frames fv : Z) :
  (if _b_4D self then lift (shape_at (_Vnp_4DVol self) 3) else ret 1)
  = ([], inr frames) ->
  selector_value (_b_convertMiddleFrame self) (_frameToConvert self) frames = Some fv ->
  med2image_nii_run self
  = bind (for_each (selected fv frames) frame_body
            (set_frameToConvert (PyInt fv) self, (0, 0)))
         (fun st => ret (fst st)).
Proof.
  intros Hf Hsel. unfold med2image_nii_run. rewrite Hf.
  change (@pair (list event) (pyexn + Z) [] (inr frames)) with (lift (@inr pyexn Z frames)).
  rewrite bind_lift_inr.
  set (self1 := if _b_convertMiddleFrame self
                then set_frameToConvert (PyInt (frames / 2)) self else self).
  assert (H1 : self1 = set_frameToConvert (PyInt fv) self).
  { unfold self1, selector_value in *. destruct (_b_convertMiddleFrame self).
    - congruence.
    - destruct (_frameToConvert self) eqn:E; [|discriminate].
      inversion Hsel; subst. rewrite <- E. destruct self; reflexivity. }
  clearbody self1. subst self1. simpl _frameToConvert. unfold select_range.
  replace (if fv =? -1 then inr (fst (0, 0), frames) else inr (fv, fv + 1))
    with (@inr pyexn _ (if fv =? -1 then (0, frames) else (fv, fv + 1)))
    by (destruct (fv =? -1); reflexivity).
  rewrite bind_lift_inr.
  replace (py_range (fst (if fv =? -1 then (0, frames) else (fv, fv + 1)))
                    (snd (if fv =? -1 then (0, frames) else (fv, fv + 1))))
    with (selected fv frames); [reflexivity|].
  unfold selected. destruct (fv =? -1); simpl; [reflexivity|].
  symmetry. apply py_range_single.
Qed.

(** A resolved selector selects one index, unless it is [-1]. *)
Lemma selected_cases (v count : Z) :
  (v = -1 /\ selected v count = py_range 0 count)
  \/ (v <> -1 /\ selected v count = [v]).
Proof.
  unfold selected. destruct (Z.eqb_spec v (-1)); [left|right]; split; auto.
Qed.

(** On a 3D volume the frame loop has one iteration whatever the frame
    selector is, and the iteration does not look at the frame index. *)
Lemma selected_of_one (fv : Z) : exists f, selected fv 1 = [f].
Proof.
  unfold selected. destruct (fv =? -1).
  - exists 0. reflexivity.
  - exists fv. reflexivity.
Qed.

Lemma output_file_3D_eq (self : med2image) (fv f i : Z) :
  _b_4D self = false ->
  output_file (set_frameToConvert (PyInt fv) self) f i = output_file_3D self i.
Proof.
  intros H. unfold output_file. simpl. rewrite H. reflexivity.
Qed.

Lemma run_3D_ok (self : med2image) (vol : ndarray) (n : nat) (fv v : Z) :
  _b_4D self = false ->
  _Vnp_3DVol self = Some vol ->
  nth_error (shape vol) 2 = Some n ->
  selector_value (_b_convertMiddleFrame self) (_frameToConvert self) 1 = Some fv ->
  selector_value (_b_convertMiddleSlice self) (_sliceToConvert self) (Z.of_nat n) = Some v ->
  Forall (fun i => valid_index i n) (selected v (Z.of_nat n)) ->
  exists self',
    med2image_nii_run self
    = (Mkdir (_str_outputDir self)
         :: map (fun i => Imsave (output_file_3D self i) (slice_image vol i))
                (selected v (Z.of_nat n)),
       inr self').
Proof.
  intros H3 Hv Hn Hf Hs Hall.
  rewrite (run_frames self 1 fv); [|rewrite H3; reflexivity|exact Hf].
  destruct (selected_of_one fv) as [f ->]. simpl for_each.
  unfold frame_body, load_frame. simpl fst. simpl snd. simpl _b_4D.
  rewrite H3, bind_ret.
  destruct (convert_slices_ok f (set_frameToConvert (PyInt fv) self) (0, 0) vol n v
              Hv Hn Hs (fun _ => eq_refl) Hall) as [o [b [E _]]].
  rewrite E, bind_ok. unfold ret. simpl fst. simpl snd. rewrite bind_ok.
  simpl. rewrite !app_nil_r.
  eexists. f_equal. f_equal. apply map_ext. intros i.
  rewrite (output_file_3D_eq self fv f i H3). reflexivity.
Qed.

Lemma run_3D_invalid (self : med2image) (vol : ndarray) (n : nat) (fv v : Z) :
  _b_4D self = false ->
  _Vnp_3DVol self = Some vol ->
  nth_error (shape vol) 2 = Some n ->
  selector_value (_b_convertMiddleFrame self) (_frameToConvert self) 1 = Some fv ->
  selector_value (_b_convertMiddleSlice self) (_sliceToConvert self) (Z.of_nat n) = Some v ->
  v <> -1 ->
  ~ valid_index v n ->
  med2image_nii_run self = ([Mkdir (_str_outputDir self)], inl IndexError).
Proof.
  intros H3 Hv Hn Hf Hs Hne Hbad.
  rewrite (run_frames self 1 fv); [|rewrite H3; reflexivity|exact Hf].
  destruct (selected_of_one fv) as [f ->]. simpl for_each.
  unfold frame_body, load_frame. simpl fst. simpl snd. simpl _b_4D.
  rewrite H3, bind_ret.
  rewrite (convert_slices_invalid f (set_frameToConvert (PyInt fv) self) (0, 0) vol n v
             Hv Hn Hs Hne Hbad).
  reflexivity.
Qed.

Lemma load_frame_ok (f : Z) (self : med2image) (vol4 : ndarray) (T : nat) :
  _b_4D self = true ->
  _Vnp_4DVol self = Some vol4 ->
  nth_error (shape vol4) 3 = Some T ->
  valid_index f T ->
  load_frame f self = ret (set_3DVol (take_axis 3 (wrap_index f T) vol4) self).
Proof.
  intros H4 Hv HT Hf. unfold load_frame, subscript, index_axis.
  rewrite H4, Hv, HT, (normalize_index_valid _ _ Hf), bind_lift_inr. reflexivity.
Qed.

Lemma load_frame_invalid (f : Z) (self : med2image) (vol4 : ndarray) (T : nat) :
  _b_4D self = true ->
  _Vnp_4DVol self = Some vol4 ->
  nth_error (shape vol4) 3 = Some T ->
  ~ valid_index f T ->
  load_frame f self = ([], inl IndexError).
Proof.
  intros H4 Hv HT Hf. unfold load_frame, subscript, index_axis.
  rewrite H4, Hv, HT, (normalize_index_invalid _ _ Hf). reflexivity.
Qed.

Lemma shape_of_frame (vol4 : ndarray) (T j : nat) :
  nth_error (shape vol4) 3 = Some T ->
  nth_error (shape (take_axis 3 j vol4)) 2 = Some (nth 2 (shape vol4) 0%nat).
Proof.
  intros HT. unfold take_axis. simpl shape.
  destruct (shape vol4) as [|x [|y [|z [|t rest]]]]; try discriminate.
  reflexivity.
Qed.

Lemma frame_body_ok (self0 : med2image) (vol4 : ndarray) (T : nat) (v f : Z)
      (self : med2image) (bounds : Z * Z) :
  nth_error (shape vol4) 3 = Some T ->
  Forall (fun i => valid_index i (nth 2 (shape vol4) 0%nat))
         (selected v (Z.of_nat (nth 2 (shape vol4) 0%nat))) ->
  valid_index f T ->
  frame_inv self0 vol4 v self ->
  (v = -1 -> fst bounds = 0) ->
  exists self' bounds',
    frame_body f (self, bounds) = (frame_events self0 vol4 v f, inr (self', bounds'))
    /\ frame_inv self0 vol4 v self'
    /\ (v = -1 -> fst bounds' = 0).
Proof.
  intros HT Hall Hf [H4 [Hv [Hs [Hd Ho]]]] Hb.
  unfold frame_body. simpl fst. simpl snd.
  rewrite (load_frame_ok f self vol4 T H4 Hv HT Hf), bind_ret.
  set (vol := take_axis 3 (wrap_index f T) vol4).
  destruct (convert_slices_ok f (set_3DVol vol self) bounds vol _ v
              eq_refl (shape_of_frame vol4 T _ HT) Hs Hb Hall)
    as [o [bounds' [E Hb']]].
  exists (with_2Dslice o (set_sliceToConvert (PyInt v) (set_3DVol vol self))), bounds'.
  split; [|split].
  - rewrite E. unfold frame_events. rewrite (nth_of_nth_error _ _ _ HT).
    fold vol. simpl _str_outputDir. rewrite Hd. do 2 f_equal.
    apply map_ext. intros i. f_equal. apply (Ho f i).
  - unfold frame_inv. simpl. repeat split; auto.
    unfold selector_value in *. destruct (_b_convertMiddleSlice self); auto.
  - exact Hb'.
Qed.

Lemma frame_loop_ok (self0 : med2image) (vol4 : ndarray) (T : nat) (v : Z)
      (frames : list Z) :
  nth_error (shape vol4) 3 = Some T ->
  Forall (fun i => valid_index i (nth 2 (shape vol4) 0%nat))
         (selected v (Z.of_nat (nth 2 (shape vol4) 0%nat))) ->
  Forall (fun f => valid_index f T) frames ->
  forall self bounds,
    frame_inv self0 vol4 v self ->
    (v = -1 -> fst bounds = 0) ->
    exists st,
      for_each frames frame_body (self, bounds)
      = (flat_map (frame_events self0 vol4 v) frames, inr st).
Proof.
  intros HT Hall Hfs. induction Hfs as [|f frames Hf Hfs IH]; intros self bounds Hinv Hb.
  - exists (self, bounds). reflexivity.
  - simpl for_each.
    destruct (frame_body_ok self0 vol4 T v f self bounds HT Hall Hf Hinv Hb)
      as [self' [bounds' [E [Hinv' Hb']]]].
    rewrite E, bind_ok. destruct (IH self' bounds' Hinv' Hb') as [st Hst].
    rewrite Hst. exists st. reflexivity.
Qed.

Lemma frames_of_4D (self : med2image) (vol4 : ndarray) (T : nat) :
  _b_4D self = true ->
  _Vnp_4DVol self = Some vol4 ->
  nth_error (shape vol4) 3 = Some T ->
  (if _b_4D self then lift (shape_at (_Vnp_4DVol self) 3) else ret 1)
  = ([], inr (Z.of_nat T)).
Proof.
  intros H4 Hv HT. rewrite H4. unfold shape_at. rewrite Hv, HT. reflexivity.
Qed.

Lemma run_4D_ok (self : med2image) (vol4 : ndarray) (T : nat) (fv v : Z) :
  _b_4D self = true ->
  _Vnp_4DVol self = Some vol4 ->
  nth_error (shape vol4) 3 = Some T ->
  selector_value (_b_convertMiddleFrame self) (_frameToConvert self) (Z.of_nat T) = Some fv ->
  selector_value (_b_convertMiddleSlice self) (_sliceToConvert self)
    (Z.of_nat (nth 2 (shape vol4) 0%nat)) = Some v ->
  Forall (fun f => valid_index f T) (selected fv (Z.of_nat T)) ->
  Forall (fun i => valid_index i (nth 2 (shape vol4) 0%nat))
         (selected v (Z.of_nat (nth 2 (shape vol4) 0%nat))) ->
  exists self',
    med2image_nii_run self
    = (flat_map (frame_events self vol4 v) (selected fv (Z.of_nat T)), inr self').
Proof.
  intros H4 Hv HT Hf Hs Hfs Hall.
  rewrite (run_frames self _ fv (frames_of_4D self vol4 T H4 Hv HT) Hf).
  destruct (frame_loop_ok self vol4 T v _ HT Hall Hfs
              (set_frameToConvert (PyInt fv) self) (0, 0)) as [st Hst].
  - unfold frame_inv. simpl. repeat split; auto.
  - reflexivity.
  - rewrite Hst, bind_ok. simpl. rewrite app_nil_r. exists (fst st). reflexivity.
Qed.

Lemma run_4D_bad_frame (self : med2image) (vol4 : ndarray) (T : nat) (fv : Z) :
  _b_4D self = true ->
  _Vnp_4DVol self = Some vol4 ->
  nth_error (shape vol4) 3 = Some T ->
  selector_value (_b_convertMiddleFrame self) (_frameToConvert self) (Z.of_nat T) = Some fv ->
  fv <> -1 ->
  ~ valid_index fv T ->
  med2image_nii_run self = ([], inl IndexError).
Proof.
  intros H4 Hv HT Hf Hne Hbad.
  rewrite (run_frames self _ fv (frames_of_4D self vol4 T H4 Hv HT) Hf).
  unfold selected. apply Z.eqb_neq in Hne. rewrite Hne. simpl for_each.
  unfold frame_body. simpl fst.
  rewrite (load_frame_invalid fv (set_frameToConvert (PyInt fv) self) vol4 T
             H4 Hv HT Hbad).
  reflexivity.
Qed.

Lemma run_4D_bad_slice (self : med2image) (vol4 : ndarray) (T : nat) (fv v f : Z)
      (frames : list Z) :
  _b_4D self = true ->
  _Vnp_4DVol self = Some vol4 ->
  nth_error (shape vol4) 3 = Some T ->
  selector_value (_b_convertMiddleFrame self) (_frameToConvert self) (Z.of_nat T) = Some fv ->
  selector_value (_b_convertMiddleSlice self) (_sliceToConvert self)
    (Z.of_nat (nth 2 (shape vol4) 0%nat)) = Some v ->
  selected fv (Z.of_nat T) = f :: frames ->
  valid_index f T ->
  v <> -1 ->
  ~ valid_index v (nth 2 (shape vol4) 0%nat) ->
  med2image_nii_run self = ([Mkdir (_str_outputDir self)], inl IndexError).
Proof.
  intros H4 Hv HT Hf Hs Hsel Hfv Hne Hbad.
  rewrite (run_frames self _ fv (frames_of_4D self vol4 T H4 Hv HT) Hf).
  rewrite Hsel. simpl for_each. unfold frame_body. simpl fst. simpl snd.
  rewrite (load_frame_ok f (set_frameToConvert (PyInt fv) self) vol4 T
             H4 Hv HT Hfv), bind_ret.
  rewrite (convert_slices_invalid f
             (set_3DVol (take_axis 3 (wrap_index f T) vol4)
                (set_frameToConvert (PyInt fv) self))
             (0, 0) _ _ v
             eq_refl (shape_of_frame vol4 T _ HT) Hs Hne Hbad).
  reflexivity.
Qed.

(** ** The constructors *)

Lemma parse_selector_typed (v v' : pyval) (m : bool) :
  parse_selector v = inr (m, v') -> selector_typed m v'.
Proof.
  unfold parse_selector, selector_typed. destruct v as [z|s]; [discriminate|].
  destruct (String.eqb (PyStr.lower s) "m").
  - intros H. inversion H; subst. exists s. reflexivity.
  - destruct (PyStr.to_int s) as [e|z]; [discriminate|].
    intros H. inversion H; subst. exists z. reflexivity.
Qed.

Lemma resolve_outputFileType_sets (self : med2image) :
  exists t, resolve_outputFileType self = set_outputFileType t self.
Proof.
  assert (Hid : self = set_outputFileType (_str_outputFileType self) self)
    by (destruct self; reflexivity).
  unfold resolve_outputFileType.
  destruct (PyStr.splitext (_str_outputFileStem self)) as [name ext].
  set (ext' := if 0 <? PyStr.len (_str_outputFileType self)
               then String "."%char (_str_outputFileType self) else ext).
  destruct ((0 <? PyStr.len ext') && negb (0 <? PyStr.len (_str_outputFileType self))).
  - simpl _str_outputFileType.
    destruct (negb (0 <? PyStr.len ext') && negb (0 <? PyStr.len ext')).
    + exists ".png"%string. reflexivity.
    + exists ext'. reflexivity.
  - destruct (negb (0 <? PyStr.len (_str_outputFileType self)) && negb (0 <? PyStr.len ext')).
    + exists ".png"%string. reflexivity.
    + exists (_str_outputFileType self). exact Hid.
Qed.

(** What the base constructor returns: the fields of the keyword arguments,
    the two selectors parsed, and the output type resolved. *)
Lemma med2image_init_inv (kw : kwargs) (self : med2image) :
  med2image_init kw = inr self ->
  exists mf fv ms sv t,
    parse_selector (given (kw_frameToConvert kw) (PyInt (-1))) = inr (mf, fv)
    /\ parse_selector (given (kw_sliceToConvert kw) (PyInt (-1))) = inr (ms, sv)
    /\ self = set_outputFileType t
                (set_sliceToConvert sv
                   (set_convertMiddleSlice ms
                      (set_frameToConvert fv
                         (set_convertMiddleFrame mf (med2image_fields kw))))).
Proof.
  unfold med2image_init. simpl _frameToConvert.
  destruct (parse_selector (given (kw_frameToConvert kw) (PyInt (-1))))
    as [e|[mf fv]]; [discriminate|].
  simpl _sliceToConvert.
  destruct (parse_selector (given (kw_sliceToConvert kw) (PyInt (-1))))
    as [e|[ms sv]]; [discriminate|].
  intros H. inversion H as [H']. clear H.
  match goal with
  | |- context [resolve_outputFileType ?x] =>
      destruct (resolve_outputFileType_sets x) as [t Ht]
  end.
  exists mf, fv, ms, sv, t. repeat split. rewrite Ht. reflexivity.
Qed.

Lemma med2image_init_typed (kw : kwargs) (self : med2image) :
  med2image_init kw = inr self ->
  selector_typed (_b_convertMiddleFrame self) (_frameToConvert self)
  /\ selector_typed (_b_convertMiddleSlice self) (_sliceToConvert self)
  /\ _b_4D self = false.
Proof.
  intros H. destruct (med2image_init_inv kw self H) as [mf [fv [ms [sv [t [Hf [Hs ->]]]]]]].
  simpl. split; [|split].
  - exact (parse_selector_typed _ _ _ Hf).
  - exact (parse_selector_typed _ _ _ Hs).
  - reflexivity.
Qed.

(** An object built on a 3D volume. *)
Lemma constructed_3D (kw : kwargs) (self : med2image) (vol : ndarray) (X Y Zn : nat) :
  med2image_nii_init kw = inr self ->
  nib_load_data (_str_inputFile self) = inr vol ->
  shape vol = [X; Y; Zn] ->
  _b_4D self = false
  /\ _Vnp_3DVol self = Some vol
  /\ selector_typed (_b_convertMiddleFrame self) (_frameToConvert self)
  /\ selector_typed (_b_convertMiddleSlice self) (_sliceToConvert self).
Proof.
  unfold med2image_nii_init. intros Hinit Hload Hshape.
  destruct (med2image_init kw) as [e|base] eqn:Hbase; [discriminate|].
  destruct (nib_load_data (_str_inputFile base)) as [e|data] eqn:Hdata; [discriminate|].
  destruct (med2image_init_typed kw base Hbase) as [Hf [Hs H4]].
  assert (Hin : _str_inputFile self = _str_inputFile base).
  { inversion Hinit; subst.
    destruct (ndim data =? 4)%nat; destruct (ndim data =? 3)%nat; reflexivity. }
  rewrite Hin, Hdata in Hload. inversion Hload; subst data. clear Hload.
  unfold ndim in Hinit. rewrite Hshape in Hinit. simpl in Hinit.
  inversion Hinit; subst self. simpl. auto.
Qed.

(** An object built on a 4D volume. *)
Lemma constructed_4D (kw : kwargs) (self : med2image) (vol : ndarray) (X Y Zn T : nat) :
  med2image_nii_init kw = inr self ->
  nib_load_data (_str_inputFile self) = inr vol ->
  shape vol = [X; Y; Zn; T] ->
  _b_4D self = true
  /\ _Vnp_4DVol self = Some vol
  /\ selector_typed (_b_convertMiddleFrame self) (_frameToConvert self)
  /\ selector_typed (_b_convertMiddleSlice self) (_sliceToConvert self).
Proof.
  unfold med2image_nii_init. intros Hinit Hload Hshape.
  destruct (med2image_init kw) as [e|base] eqn:Hbase; [discriminate|].
  destruct (nib_load_data (_str_inputFile base)) as [e|data] eqn:Hdata; [discriminate|].
  destruct (med2image_init_typed kw base Hbase) as [Hf [Hs H4]].
  assert (Hin : _str_inputFile self = _str_inputFile base).
  { inversion Hinit; subst.
    destruct (ndim data =? 4)%nat; destruct (ndim data =? 3)%nat; reflexivity. }
  rewrite Hin, Hdata in Hload. inversion Hload; subst data. clear Hload.
  unfold ndim in Hinit. rewrite Hshape in Hinit. simpl in Hinit.
  inversion Hinit; subst self. simpl. auto.
Qed.

Lemma selector_value_int (m : bool) (v count : Z) :
  selector_typed m (PyInt v) -> selector_value m (PyInt v) count = Some v.
Proof.
  unfold selector_typed, selector_value. destruct m; [|reflexivity].
  intros [s Hs]. discriminate.
Qed.

Lemma selector_value_middle (sel : pyval) (count : Z) :
  selector_value true sel count = Some (count / 2).
Proof. reflexivity. Qed.

Lemma selector_value_typed (m : bool) (sel : pyval) (count : Z) :
  selector_typed m sel -> exists v, selector_value m sel count = Some v.
Proof.
  unfold selector_typed, selector_value. destruct m.
  - intros _. eexists. reflexivity.
  - intros [z ->]. eexists. reflexivity.
Qed.

Lemma jobs_of_flat_map {X : Type} (g : X -> list event) (xs : list X) :
  jobs_of (flat_map g xs) = flat_map (fun x => jobs_of (g x)) xs.
Proof.
  induction xs as [|x xs IH]; simpl; [reflexivity|].
  rewrite jobs_of_app, IH. reflexivity.
Qed.

Lemma flat_map_of_map {X Y W : Type} (g : Y -> list W) (h : X -> Y) (xs : list X) :
  flat_map g (map h xs) = flat_map (fun x => g (h x)) xs.
Proof.
  induction xs as [|x xs IH]; simpl; [reflexivity|]. rewrite IH. reflexivity.
Qed.

Lemma length_flat_map_const {X W : Type} (g : X -> list W) (n : nat) (xs : list X) :
  (forall x, List.length (g x) = n) ->
  List.length (flat_map g xs) = (List.length xs * n)%nat.
Proof.
  intros Hg. induction xs as [|x xs IH]; simpl; [reflexivity|].
  rewrite length_app, Hg, IH. reflexivity.
Qed.

Lemma selected_all (n : nat) :
  selected (-1) (Z.of_nat n) = map Z.of_nat (seq 0 n).
Proof. unfold selected. simpl. apply py_range_from_zero. Qed.

(** the files of the slices [indices] of a 3D volume *)
Lemma jobs_of_slices (self : med2image) (vol : ndarray) (indices : list Z) :
  jobs_of (Mkdir (_str_outputDir self)
             :: map (fun i => Imsave (output_file_3D self i) (slice_image vol i)) indices)
  = map (fun i => (output_file_3D self i, slice_image vol i)) indices.
Proof.
  simpl. apply (jobs_of_imsaves (output_file_3D self) (slice_image vol)).
Qed.

Lemma jobs_of_frame (self : med2image) (vol4 : ndarray) (v f : Z) :
  jobs_of (frame_events self vol4 v f)
  = map (fun i => (output_file self f i,
                   slice_image (take_axis 3 (wrap_index f (nth 3 (shape vol4) 0%nat)) vol4) i))
        (selected v (Z.of_nat (nth 2 (shape vol4) 0%nat))).
Proof.
  unfold frame_events. simpl.
  apply (jobs_of_imsaves (output_file self f)
           (slice_image (take_axis 3 (wrap_index f (nth 3 (shape vol4) 0%nat)) vol4))).
Qed.

(** ** Selecting every slice and every frame *)

(** C1. On a 3D volume of shape (X, Y, Z) with the slice selector [-1], [run]
    succeeds and writes exactly Z files, for the slices 0, 1, ..., Z-1 in
    this order; the file of slice z is named
    "{stem}-slice{z:03d}.{type}", in the output directory, and holds the
    rotated slice z.  (Z > 0 is not needed, and the frame selector plays no
    part.) *)
Theorem run_3D_all_slices (kw : kwargs) (self : med2image) (vol : ndarray)
        (X Y Zn : nat) :
  med2image_nii_init kw = inr self ->
  nib_load_data (_str_inputFile self) = inr vol ->
  shape vol = [X; Y; Zn] ->
  _sliceToConvert self = PyInt (-1) ->
  exists tr self',
    med2image_nii_run self = (tr, inr self')
    /\ jobs_of tr
       = map (fun z : nat =>
                ((_str_outputDir self ++ "/" ++ _str_outputFileStem self
                    ++ "-slice" ++ PyStr.fmt_03d (Z.of_nat z)
                    ++ "." ++ _str_outputFileType self)%string,
                 rot90_array (take_axis 2 z vol)))
             (seq 0 Zn)
    /\ List.length (jobs_of tr) = Zn.
Proof.
  intros Hinit Hload Hshape Hall.
  destruct (constructed_3D kw self vol X Y Zn Hinit Hload Hshape) as [H4 [Hv [Hf Hs]]].
  assert (Hn : nth_error (shape vol) 2 = Some Zn) by (rewrite Hshape; reflexivity).
  destruct (selector_value_typed _ _ 1 Hf) as [fv Hfv].
  rewrite Hall in Hs.
  assert (Hsv : selector_value (_b_convertMiddleSlice self) (_sliceToConvert self)
                  (Z.of_nat Zn) = Some (-1))
    by (rewrite Hall; apply selector_value_int, Hs).
  destruct (run_3D_ok self vol Zn fv (-1) H4 Hv Hn Hfv Hsv) as [self' Hrun].
  { rewrite selected_all, <- py_range_from_zero. apply py_range_valid. }
  exists (Mkdir (_str_outputDir self)
            :: map (fun i => Imsave (output_file_3D self i) (slice_image vol i))
                   (selected (-1) (Z.of_nat Zn))), self'.
  split; [exact Hrun|].
  assert (Hjobs : jobs_of (Mkdir (_str_outputDir self)
                     :: map (fun i => Imsave (output_file_3D self i) (slice_image vol i))
                            (selected (-1) (Z.of_nat Zn)))
                  = map (fun z : nat =>
                           ((_str_outputDir self ++ "/" ++ _str_outputFileStem self
                               ++ "-slice" ++ PyStr.fmt_03d (Z.of_nat z)
                               ++ "." ++ _str_outputFileType self)%string,
                            rot90_array (take_axis 2 z vol)))
                        (seq 0 Zn)).
  { rewrite jobs_of_slices, selected_all, map_map. apply map_ext. intros z.
    unfold slice_image. rewrite wrap_index_nat. reflexivity. }
  split; [exact Hjobs|].
  rewrite Hjobs, length_map, length_seq. reflexivity.
Qed.

(** C2. On a 4D volume of shape (X, Y, Z, T) with both selectors [-1], [run]
    succeeds and writes exactly T * Z files, frame by frame and, within a
    frame, slice by slice, both ascending; the file of frame f and slice z is
    named "{stem}-frame{f:03d}-slice{z:03d}.{type}", in the output
    directory, and holds the rotated slice z of frame f. *)
Theorem run_4D_all_frames_all_slices (kw : kwargs) (self : med2image) (vol : ndarray)
        (X Y Zn T : nat) :
  med2image_nii_init kw = inr self ->
  nib_load_data (_str_inputFile self) = inr vol ->
  shape vol = [X; Y; Zn; T] ->
  _frameToConvert self = PyInt (-1) ->
  _sliceToConvert self = PyInt (-1) ->
  exists tr self',
    med2image_nii_run self = (tr, inr self')
    /\ jobs_of tr
       = flat_map
           (fun f : nat =>
              map (fun z : nat =>
                     ((_str_outputDir self ++ "/" ++ _str_outputFileStem self
                         ++ "-frame" ++ PyStr.fmt_03d (Z.of_nat f)
                         ++ "-slice" ++ PyStr.fmt_03d (Z.of_nat z)
                         ++ "." ++ _str_outputFileType self)%string,
                      rot90_array (take_axis 2 z (take_axis 3 f vol))))
                  (seq 0 Zn))
           (seq 0 T)
    /\ List.length (jobs_of tr) = (T * Zn)%nat.
Proof.
  intros Hinit Hload Hshape Hfall Hsall.
  destruct (constructed_4D kw self vol X Y Zn T Hinit Hload Hshape) as [H4 [Hv [Hf Hs]]].
  assert (HT : nth_error (shape vol) 3 = Some T) by (rewrite Hshape; reflexivity).
  assert (HZ : nth 2 (shape vol) 0%nat = Zn) by (rewrite Hshape; reflexivity).
  assert (HT' : nth 3 (shape vol) 0%nat = T) by (rewrite Hshape; reflexivity).
  rewrite Hfall in Hf. rewrite Hsall in Hs.
  assert (Hfv : selector_value (_b_convertMiddleFrame self) (_frameToConvert self)
                  (Z.of_nat T) = Some (-1))
    by (rewrite Hfall; apply selector_value_int, Hf).
  assert (Hsv : selector_value (_b_convertMiddleSlice self) (_sliceToConvert self)
                  (Z.of_nat (nth 2 (shape vol) 0%nat)) = Some (-1))
    by (rewrite Hsall; apply selector_value_int, Hs).
  destruct (run_4D_ok self vol T (-1) (-1) H4 Hv HT Hfv Hsv) as [self' Hrun].
  { rewrite selected_all, <- py_range_from_zero. apply py_range_valid. }
  { rewrite selected_all, <- py_range_from_zero. apply py_range_valid. }
  eexists. exists self'. split; [exact Hrun|].
  match goal with
  | |- ?a = ?b /\ _ => assert (Hjobs : a = b)
  end.
  { rewrite jobs_of_flat_map, selected_all, flat_map_of_map.
    apply flat_map_ext. intros f. rewrite jobs_of_frame, HZ, HT', selected_all, map_map.
    apply map_ext. intros z. unfold slice_image, output_file. rewrite H4.
    rewrite !wrap_index_nat. reflexivity. }
  split; [exact Hjobs|].
  rewrite Hjobs, (length_flat_map_const _ Zn).
  - rewrite length_seq. reflexivity.
  - intros f. rewrite length_map, length_seq. reflexivity.
Qed.

(** ** The middle selector *)






(** ** Every run, whatever the selectors *)

Lemma valid_index_dec (i : Z) (n : nat) : {valid_index i n} + {~ valid_index i n}.
Proof.
  unfold valid_index.
  destruct (Z_le_gt_dec (- Z.of_nat n) i); destruct (Z_lt_ge_dec i (Z.of_nat n));
    (left; lia) || (right; lia).
Qed.

(** The range the code iterates over, from its own bounds. *)
Lemma selected_is_range (v count : Z) :
  exists bounds,
    select_range (PyInt v) count (0, 0) = inr bounds
    /\ py_range (fst bounds) (snd bounds) = selected v count.
Proof.
  unfold select_range, selected. destruct (v =? -1).
  - exists (0, count). split; reflexivity.
  - exists (v, v + 1). split; [reflexivity|apply py_range_single].
Qed.

Lemma selected_valid_or_not (v : Z) (n : nat) :
  Forall (fun i => valid_index i n) (selected v (Z.of_nat n))
  \/ (v <> -1 /\ ~ valid_index v n).
Proof.
  destruct (selected_cases v (Z.of_nat n)) as [[-> E]|[Hne E]].
  - left. rewrite E. apply py_range_valid.
  - destruct (valid_index_dec v n) as [Hv|Hv].
    + left. rewrite E. constructor; [exact Hv|constructor].
    + right. split; assumption.
Qed.

(** A run on a 3D volume writes a file for every selected slice, or stops at
    the one selected slice when the axis does not have it. *)
Lemma run_3D_total (self : med2image) (vol : ndarray) (n : nat) (fv v : Z) :
  _b_4D self = false ->
  _Vnp_3DVol self = Some vol ->
  nth_error (shape vol) 2 = Some n ->
  selector_value (_b_convertMiddleFrame self) (_frameToConvert self) 1 = Some fv ->
  selector_value (_b_convertMiddleSlice self) (_sliceToConvert self) (Z.of_nat n) = Some v ->
  (Forall (fun i => valid_index i n) (selected v (Z.of_nat n))
   /\ exists self',
       med2image_nii_run self
       = (Mkdir (_str_outputDir self)
            :: map (fun i => Imsave (output_file_3D self i) (slice_image vol i))
                   (selected v (Z.of_nat n)),
          inr self'))
  \/ (v <> -1 /\ ~ valid_index v n
      /\ med2image_nii_run self = ([Mkdir (_str_outputDir self)], inl IndexError)).
Proof.
  intros H4 Hv Hn Hf Hs.
  destruct (selected_valid_or_not v n) as [Hall|[Hne Hbad]].
  - left. split; [exact Hall|]. exact (run_3D_ok self vol n fv v H4 Hv Hn Hf Hs Hall).
  - right. split; [exact Hne|]. split; [exact Hbad|].
    exact (run_3D_invalid self vol n fv v H4 Hv Hn Hf Hs Hne Hbad).
Qed.

Lemma run_4D_no_frame (self : med2image) (vol4 : ndarray) (T : nat) (fv : Z) :
  _b_4D self = true ->
  _Vnp_4DVol self = Some vol4 ->
  nth_error (shape vol4) 3 = Some T ->
  selector_value (_b_convertMiddleFrame self) (_frameToConvert self) (Z.of_nat T) = Some fv ->
  selected fv (Z.of_nat T) = [] ->
  exists self', med2image_nii_run self = ([], inr self').
Proof.
  intros H4 Hv HT Hf Hnone.
  rewrite (run_frames self _ fv (frames_of_4D self vol4 T H4 Hv HT) Hf), Hnone.
  eexists. reflexivity.
Qed.

(** A run on a 4D volume: every selected slice of every selected frame, or a
    stop at the first frame. *)
Lemma run_4D_total (self : med2image) (vol4 : ndarray) (T : nat) (fv v : Z) :
  _b_4D self = true ->
  _Vnp_4DVol self = Some vol4 ->
  nth_error (shape vol4) 3 = Some T ->
  selector_value (_b_convertMiddleFrame self) (_frameToConvert self) (Z.of_nat T) = Some fv ->
  selector_value (_b_convertMiddleSlice self) (_sliceToConvert self)
    (Z.of_nat (nth 2 (shape vol4) 0%nat)) = Some v ->
  (Forall (fun f => valid_index f T) (selected fv (Z.of_nat T))
   /\ (selected fv (Z.of_nat T) = []
       \/ Forall (fun i => valid_index i (nth 2 (shape vol4) 0%nat))
                 (selected v (Z.of_nat (nth 2 (shape vol4) 0%nat))))
   /\ exists self',
       med2image_nii_run self
       = (flat_map (frame_events self vol4 v) (selected fv (Z.of_nat T)), inr self'))
  \/ (exists tr, med2image_nii_run self = (tr, inl IndexError) /\ jobs_of tr = []).
Proof.
  intros H4 Hv HT Hf Hs.
  destruct (selected_valid_or_not fv T) as [Hfs|[Hne Hbad]].
  - destruct (selected fv (Z.of_nat T)) as [|f frames] eqn:Hsel.
    + left. split; [constructor|]. split; [left; reflexivity|].
      destruct (run_4D_no_frame self vol4 T fv H4 Hv HT Hf Hsel) as [self' E].
      exists self'. exact E.
    + destruct (selected_valid_or_not v (nth 2 (shape vol4) 0%nat)) as [Hall|[Hnv Hbv]].
      * left. split; [exact Hfs|]. split; [right; exact Hall|].
        rewrite <- Hsel. rewrite <- Hsel in Hfs.
        exact (run_4D_ok self vol4 T fv v H4 Hv HT Hf Hs Hfs Hall).
      * right. exists [Mkdir (_str_outputDir self)]. split; [|reflexivity].
        inversion Hfs; subst.
        exact (run_4D_bad_slice self vol4 T fv v f frames H4 Hv HT Hf Hs Hsel
                 ltac:(assumption) Hnv Hbv).
  - right. exists []. split; [|reflexivity].
    exact (run_4D_bad_frame self vol4 T fv H4 Hv HT Hf Hne Hbad).
Qed.

Lemma outcome_ok {A : Type} (tr : list event) (a : A) : outcome (tr, inr a) = None.
Proof. reflexivity. Qed.

Lemma outcome_err {A : Type} (tr : list event) (e : pyexn) :
  outcome (A := A) (tr, inl e) = Some e.
Proof. reflexivity. Qed.

Lemma selected_nonempty (v : Z) (n : nat) :
  (0 < n)%nat -> selected v (Z.of_nat n) <> [].
Proof.
  intros Hpos. unfold selected. destruct (v =? -1); [|discriminate].
  rewrite py_range_from_zero. destruct n; [lia|discriminate].
Qed.

Lemma selected_of_empty_axis (v : Z) :
  Forall (fun i => valid_index i 0) (selected v (Z.of_nat 0)) ->
  selected v (Z.of_nat 0) = [].
Proof.
  intros H. destruct (selected v (Z.of_nat 0)) as [|i l]; [reflexivity|].
  inversion H as [|? ? Hi _]. unfold valid_index in Hi. simpl in Hi. lia.
Qed.

(** ** Explicit indices outside the axis *)

(** C4, as the code has it.  On a 3D volume, or a 4D volume with at least one
    frame, an explicit slice index [i] (not the sentinel [-1]) with
    [i < -count] or [count <= i] stops [run] with numpy's [IndexError] before
    any file is written, and so does such a frame index on a 4D volume.
    Indices from [-count] to [-2] are accepted and count from the end. *)
Theorem explicit_index_out_of_range (kw : kwargs) (self : med2image) (vol : ndarray)
        (X Y Zn : nat) (rest : list nat) (i : Z) :
  med2image_nii_init kw = inr self ->
  nib_load_data (_str_inputFile self) = inr vol ->
  shape vol = X :: Y :: Zn :: rest ->
  (rest = [] \/ exists T, rest = [T] /\ (0 < T)%nat) ->
  i <> -1 ->
  ((_sliceToConvert self = PyInt i /\ (i < - Z.of_nat Zn \/ Z.of_nat Zn <= i))
   \/ (exists T, rest = [T] /\ _frameToConvert self = PyInt i
                 /\ (i < - Z.of_nat T \/ Z.of_nat T <= i))) ->
  outcome (med2image_nii_run self) = Some IndexError
  /\ jobs_of (fst (med2image_nii_run self)) = [].
Proof.
  intros Hinit Hload Hshape Hrest Hne Hout.
  destruct Hrest as [->|[T [-> HposT]]].
  - destruct Hout as [[Hsel Hi]|[T [Habs _]]]; [|discriminate].
    destruct (constructed_3D kw self vol X Y Zn Hinit Hload Hshape) as [H4 [Hv [Hf Hs]]].
    assert (Hn : nth_error (shape vol) 2 = Some Zn) by (rewrite Hshape; reflexivity).
    destruct (selector_value_typed _ _ 1 Hf) as [fv Hfv].
    rewrite Hsel in Hs.
    assert (Hsv : selector_value (_b_convertMiddleSlice self) (_sliceToConvert self)
                    (Z.of_nat Zn) = Some i)
      by (rewrite Hsel; apply selector_value_int, Hs).
    rewrite (run_3D_invalid self vol Zn fv i H4 Hv Hn Hfv Hsv Hne).
    + split; reflexivity.
    + unfold valid_index. lia.
  - destruct (constructed_4D kw self vol X Y Zn T Hinit Hload Hshape) as [H4 [Hv [Hf Hs]]].
    assert (HT : nth_error (shape vol) 3 = Some T) by (rewrite Hshape; reflexivity).
    assert (HZ : nth 2 (shape vol) 0%nat = Zn) by (rewrite Hshape; reflexivity).
    destruct Hout as [[Hsel Hi]|[T' [HT' [Hsel Hi]]]].
    + destruct (selector_value_typed _ _ (Z.of_nat T) Hf) as [fv Hfv].
      rewrite Hsel in Hs.
      assert (Hsv : selector_value (_b_convertMiddleSlice self) (_sliceToConvert self)
                      (Z.of_nat (nth 2 (shape vol) 0%nat)) = Some i)
        by (rewrite Hsel; apply selector_value_int, Hs).
      destruct (run_4D_total self vol T fv i H4 Hv HT Hfv Hsv)
        as [[_ [[Hnone|Hall] _]]|[tr [E Hjobs]]].
      * exfalso. exact (selected_nonempty fv T HposT Hnone).
      * exfalso. rewrite HZ in Hall. unfold selected in Hall.
        apply Z.eqb_neq in Hne. rewrite Hne in Hall.
        inversion Hall as [|? ? Hvalid _]. unfold valid_index in Hvalid. lia.
      * rewrite E. split; [reflexivity|exact Hjobs].
    + inversion HT'; subst T'. rewrite Hsel in Hf.
      assert (Hfv : selector_value (_b_convertMiddleFrame self) (_frameToConvert self)
                      (Z.of_nat T) = Some i)
        by (rewrite Hsel; apply selector_value_int, Hf).
      rewrite (run_4D_bad_frame self vol T i H4 Hv HT Hfv Hne).
      * split; reflexivity.
      * unfold valid_index. lia.
Qed.

(** ** The number of files *)

(** C5, as the code has it.  The frame range is [selected fv frames] and the
    slice range of every frame is [selected sv Z], for the resolved selectors
    [fv] and [sv].  A run that completes without an exception has written as
    many files as the product of their lengths.  An axis of length zero gives
    no file under any selector, whether the run completes or not. *)
Theorem job_count_of_run (kw : kwargs) (self : med2image) (vol : ndarray)
        (X Y Zn : nat) (rest : list nat) :
  med2image_nii_init kw = inr self ->
  nib_load_data (_str_inputFile self) = inr vol ->
  shape vol = X :: Y :: Zn :: rest ->
  (List.length rest <= 1)%nat ->
  exists fv sv,
    selector_value (_b_convertMiddleFrame self) (_frameToConvert self)
      (frame_count rest) = Some fv
    /\ selector_value (_b_convertMiddleSlice self) (_sliceToConvert self)
         (Z.of_nat Zn) = Some sv
    /\ (outcome (med2image_nii_run self) = None ->
        List.length (jobs_of (fst (med2image_nii_run self)))
        = (List.length (selected fv (frame_count rest))
           * List.length (selected sv (Z.of_nat Zn)))%nat)
    /\ (Zn = 0%nat -> jobs_of (fst (med2image_nii_run self)) = [])
    /\ (rest = [0%nat] -> jobs_of (fst (med2image_nii_run self)) = []).
Proof.
  intros Hinit Hload Hshape Hrest.
  destruct rest as [|T [|T' rest]]; [| |simpl in Hrest; lia].
  - destruct (constructed_3D kw self vol X Y Zn Hinit Hload Hshape) as [H4 [Hv [Hf Hs]]].
    assert (Hn : nth_error (shape vol) 2 = Some Zn) by (rewrite Hshape; reflexivity).
    destruct (selector_value_typed _ _ 1 Hf) as [fv Hfv].
    destruct (selector_value_typed _ _ (Z.of_nat Zn) Hs) as [sv Hsv].
    exists fv, sv. split; [exact Hfv|]. split; [exact Hsv|].
    destruct (run_3D_total self vol Zn fv sv H4 Hv Hn Hfv Hsv)
      as [[Hall [self' E]]|[Hne [Hbad E]]]; rewrite E.
    + simpl fst. rewrite jobs_of_slices. split; [|split].
      * intros _. simpl frame_count. destruct (selected_of_one fv) as [f ->].
        rewrite length_map. simpl. lia.
      * intros ->. rewrite (selected_of_empty_axis sv Hall). reflexivity.
      * discriminate.
    + simpl. split; [discriminate|]. repeat split; reflexivity.
  - destruct (constructed_4D kw self vol X Y Zn T Hinit Hload Hshape) as [H4 [Hv [Hf Hs]]].
    assert (HT : nth_error (shape vol) 3 = Some T) by (rewrite Hshape; reflexivity).
    assert (HZ : nth 2 (shape vol) 0%nat = Zn) by (rewrite Hshape; reflexivity).
    destruct (selector_value_typed _ _ (Z.of_nat T) Hf) as [fv Hfv].
    destruct (selector_value_typed _ _ (Z.of_nat Zn) Hs) as [sv Hsv].
    exists fv, sv. split; [exact Hfv|]. split; [exact Hsv|].
    assert (Hsv' : selector_value (_b_convertMiddleSlice self) (_sliceToConvert self)
                     (Z.of_nat (nth 2 (shape vol) 0%nat)) = Some sv)
      by (rewrite HZ; exact Hsv).
    destruct (run_4D_total self vol T fv sv H4 Hv HT Hfv Hsv')
      as [[Hfs [Hdisj [self' E]]]|[tr [E Hjobs]]]; rewrite E.
    + simpl fst. simpl frame_count.
      assert (Hlen : List.length (jobs_of (flat_map (frame_events self vol sv)
                                             (selected fv (Z.of_nat T))))
                     = (List.length (selected fv (Z.of_nat T))
                        * List.length (selected sv (Z.of_nat Zn)))%nat).
      { rewrite jobs_of_flat_map. apply length_flat_map_const.
        intros f. rewrite jobs_of_frame, length_map, HZ. reflexivity. }
      split; [intros _; exact Hlen|]. split.
      * intros ->. apply length_zero_iff_nil. rewrite Hlen.
        destruct Hdisj as [Hnone|Hall].
        -- rewrite Hnone. reflexivity.
        -- rewrite HZ in Hall. rewrite (selected_of_empty_axis sv Hall). simpl. lia.
      * intros HT0. inversion HT0; subst T.
        apply length_zero_iff_nil. rewrite Hlen.
        rewrite (selected_of_empty_axis fv Hfs). reflexivity.
    + simpl fst. split; [discriminate|]. repeat split; intros _; exact Hjobs.
Qed.

(** ** The frame selector on a 3D volume *)

Lemma resolve_outputFileType_frame (v : pyval) (b : bool) (self : med2image) :
  resolve_outputFileType (set_frameToConvert v (set_convertMiddleFrame b self))
  = set_frameToConvert v (set_convertMiddleFrame b (resolve_outputFileType self)).
Proof.
  unfold resolve_outputFileType. simpl _str_outputFileStem. simpl _str_outputFileType.
  destruct (PyStr.splitext (_str_outputFileStem self)) as [name ext].
  set (ext' := if 0 <? PyStr.len (_str_outputFileType self)
               then String "."%char (_str_outputFileType self) else ext).
  destruct ((0 <? PyStr.len ext') && negb (0 <? PyStr.len (_str_outputFileType self)));
    simpl _str_outputFileType.
  - destruct (negb (0 <? PyStr.len ext') && negb (0 <? PyStr.len ext')); reflexivity.
  - destruct (negb (0 <? PyStr.len (_str_outputFileType self)) && negb (0 <? PyStr.len ext'));
      reflexivity.
Qed.

(** Two objects built from keyword arguments that differ in the frame
    selector only differ in the frame selector and its flag only. *)
Lemma med2image_init_frame (kw : kwargs) (f1 f2 : option pyval) (self1 self2 : med2image) :
  med2image_init (with_frameToConvert f1 kw) = inr self1 ->
  med2image_init (with_frameToConvert f2 kw) = inr self2 ->
  exists v b, self2 = set_frameToConvert v (set_convertMiddleFrame b self1).
Proof.
  unfold med2image_init. simpl _frameToConvert. simpl _sliceToConvert.
  destruct (parse_selector (given f1 (PyInt (-1)))) as [e|[mf1 fv1]]; [discriminate|].
  destruct (parse_selector (given f2 (PyInt (-1)))) as [e|[mf2 fv2]]; [discriminate|].
  destruct (parse_selector (given (kw_sliceToConvert kw) (PyInt (-1))))
    as [e|[ms sv]]; [discriminate|].
  intros H1 H2. inversion H1 as [E1]. inversion H2 as [E2]. clear H1 H2.
  exists fv2, mf2.
  rewrite <- resolve_outputFileType_frame. reflexivity.
Qed.

Lemma med2image_nii_init_frame (kw : kwargs) (f1 f2 : option pyval)
      (self1 self2 : med2image) :
  med2image_nii_init (with_frameToConvert f1 kw) = inr self1 ->
  med2image_nii_init (with_frameToConvert f2 kw) = inr self2 ->
  exists v b, self2 = set_frameToConvert v (set_convertMiddleFrame b self1).
Proof.
  unfold med2image_nii_init.
  destruct (med2image_init (with_frameToConvert f1 kw)) as [e|base1] eqn:B1; [discriminate|].
  destruct (med2image_init (with_frameToConvert f2 kw)) as [e|base2] eqn:B2; [discriminate|].
  destruct (med2image_init_frame kw f1 f2 base1 base2 B1 B2) as [v [b ->]].
  simpl _str_inputFile.
  destruct (nib_load_data (_str_inputFile base1)) as [e|data]; [discriminate|].
  intros H1 H2. inversion H1 as [E1]. inversion H2 as [E2]. clear H1 H2.
  exists v, b.
  destruct (ndim data =? 4)%nat; destruct (ndim data =? 3)%nat; reflexivity.
Qed.

(** C8. On a 3D volume the frame selector is ignored: two objects built from
    the same keyword arguments but for the frame selector (any two selectors
    the constructor accepts: ["-1"], ["m"] or an index) send out the same
    calls in the same order (the same files, with the same images) and end
    the same way. *)
Theorem frame_selector_ignored_3D (kw : kwargs) (f1 f2 : option pyval)
        (self1 self2 : med2image) (vol : ndarray) (X Y Zn : nat) :
  med2image_nii_init (with_frameToConvert f1 kw) = inr self1 ->
  med2image_nii_init (with_frameToConvert f2 kw) = inr self2 ->
  nib_load_data (_str_inputFile self1) = inr vol ->
  shape vol = [X; Y; Zn] ->
  fst (med2image_nii_run self1) = fst (med2image_nii_run self2)
  /\ outcome (med2image_nii_run self1) = outcome (med2image_nii_run self2).
Proof.
  intros Hinit1 Hinit2 Hload Hshape.
  destruct (med2image_nii_init_frame kw f1 f2 self1 self2 Hinit1 Hinit2) as [v [b E]].
  assert (Hload2 : nib_load_data (_str_inputFile self2) = inr vol)
    by (rewrite E; exact Hload).
  destruct (constructed_3D _ self1 vol X Y Zn Hinit1 Hload Hshape) as [H4 [Hv [Hf Hs]]].
  destruct (constructed_3D _ self2 vol X Y Zn Hinit2 Hload2 Hshape) as [H4' [Hv' [Hf' Hs']]].
  assert (Hn : nth_error (shape vol) 2 = Some Zn) by (rewrite Hshape; reflexivity).
  destruct (selector_value_typed _ _ 1 Hf) as [fv Hfv].
  destruct (selector_value_typed _ _ 1 Hf') as [fv' Hfv'].
  destruct (selector_value_typed _ _ (Z.of_nat Zn) Hs) as [sv Hsv].
  assert (Hsv' : selector_value (_b_convertMiddleSlice self2) (_sliceToConvert self2)
                   (Z.of_nat Zn) = Some sv)
    by (rewrite E; exact Hsv).
  destruct (run_3D_total self1 vol Zn fv sv H4 Hv Hn Hfv Hsv)
    as [[Hall [s1 E1]]|[Hne [Hbad E1]]].
  - destruct (run_3D_ok self2 vol Zn fv' sv H4' Hv' Hn Hfv' Hsv' Hall) as [s2 E2].
    rewrite E1, E2, E. split; reflexivity.
  - rewrite E1, (run_3D_invalid self2 vol Zn fv' sv H4' Hv' Hn Hfv' Hsv' Hne Hbad), E.
    split; reflexivity.
Qed.

(** ** The rotation *)

Local Open Scope nat_scope.

Lemma nth_flat_map_blocks {X : Type} (g : nat -> list X) (n A a k : nat) (d : X) :
  (forall a, List.length (g a) = n) ->
  a < A -> k < n ->
  nth (a * n + k) (flat_map g (seq 0 A)) d = nth k (g a) d.
Proof.
  intros Hg. induction A as [|A IH]; intros Ha Hk; [lia|].
  rewrite seq_S, flat_map_app. simpl flat_map. rewrite app_nil_r.
  assert (Hlen : List.length (flat_map g (seq 0 A)) = A * n).
  { rewrite (length_flat_map_const g n); [rewrite length_seq; reflexivity|exact Hg]. }
  destruct (Nat.eq_dec a A) as [->|Hne].
  - rewrite app_nth2; rewrite Hlen; [|lia]. f_equal. lia.
  - rewrite app_nth1; [apply IH; lia|rewrite Hlen; nia].
Qed.

Lemma length_tabulate2 (A B : nat) (f : nat -> nat -> voxel) :
  List.length (tabulate2 A B f) = A * B.
Proof.
  unfold tabulate2. rewrite (length_flat_map_const _ B).
  - rewrite length_seq. reflexivity.
  - intros a. rewrite length_map, length_seq. reflexivity.
Qed.

Lemma nth_tabulate2 (A B : nat) (f : nat -> nat -> voxel) (a b : nat) (d : voxel) :
  a < A -> b < B -> nth (a * B + b) (tabulate2 A B f) d = f a b.
Proof.
  intros Ha Hb. unfold tabulate2.
  rewrite (nth_flat_map_blocks _ B A a b d); [| |exact Ha|exact Hb].
  - rewrite (nth_indep _ d (f a 0)) by (rewrite length_map, length_seq; exact Hb).
    rewrite (map_nth (f a) (seq 0 B) 0 b), seq_nth by exact Hb. reflexivity.
  - intros a'. rewrite length_map, length_seq. reflexivity.
Qed.

Lemma length_tabulate3 (A B C : nat) (f : nat -> nat -> nat -> voxel) :
  List.length (tabulate3 A B C f) = A * (B * C).
Proof.
  unfold tabulate3. rewrite (length_flat_map_const _ (B * C)).
  - rewrite length_seq. reflexivity.
  - intros a. apply length_tabulate2.
Qed.

Lemma nth_tabulate3 (A B C : nat) (f : nat -> nat -> nat -> voxel) (a b c : nat)
      (d : voxel) :
  a < A -> b < B -> c < C ->
  nth ((a * B + b) * C + c) (tabulate3 A B C f) d = f a b c.
Proof.
  intros Ha Hb Hc. unfold tabulate3.
  replace ((a * B + b) * C + c) with (a * (B * C) + (b * C + c)) by lia.
  rewrite (nth_flat_map_blocks _ (B * C) A a (b * C + c) d).
  - apply nth_tabulate2; assumption.
  - intros a'. apply length_tabulate2.
  - exact Ha.
  - nia.
Qed.

Lemma flat_map_ext_on {X W : Type} (f g : X -> list W) (xs : list X) :
  (forall x, In x xs -> f x = g x) -> flat_map f xs = flat_map g xs.
Proof.
  induction xs as [|x xs IH]; intros H; simpl; [reflexivity|].
  rewrite (H x (or_introl eq_refl)), IH; [reflexivity|].
  intros y Hy. apply H. right. exact Hy.
Qed.

Lemma tabulate2_ext (A B : nat) (f g : nat -> nat -> voxel) :
  (forall a b, a < A -> b < B -> f a b = g a b) ->
  tabulate2 A B f = tabulate2 A B g.
Proof.
  intros H. unfold tabulate2. apply flat_map_ext_on. intros a Ha.
  apply in_seq in Ha. apply map_ext_in. intros b Hb. apply in_seq in Hb.
  apply H; lia.
Qed.

Lemma tabulate3_ext (A B C : nat) (f g : nat -> nat -> nat -> voxel) :
  (forall a b c, a < A -> b < B -> c < C -> f a b c = g a b c) ->
  tabulate3 A B C f = tabulate3 A B C g.
Proof.
  intros H. unfold tabulate3. apply flat_map_ext_on. intros a Ha.
  apply in_seq in Ha. apply tabulate2_ext. intros b c Hb Hc. apply H; lia.
Qed.

(** A buffer of the right length is the table of its own entries. *)
Lemma tabulate3_nth (A B C : nat) (l : list voxel) (d : voxel) :
  List.length l = A * (B * C) ->
  tabulate3 A B C (fun a b c => nth ((a * B + b) * C + c) l d) = l.
Proof.
  intros Hlen. apply (nth_ext _ _ d d).
  - rewrite length_tabulate3. symmetry. exact Hlen.
  - intros k Hk. rewrite length_tabulate3 in Hk.
    assert (HBC : B * C <> 0) by nia.
    assert (HC : C <> 0) by nia.
    pose proof (Nat.div_mod_eq k (B * C)) as E1.
    pose proof (Nat.mod_upper_bound k (B * C) HBC) as U1.
    pose proof (Nat.div_mod_eq (k mod (B * C)) C) as E2.
    pose proof (Nat.mod_upper_bound (k mod (B * C)) C HC) as U2.
    set (a := k / (B * C)) in *. set (r := k mod (B * C)) in *.
    set (b := r / C) in *. set (c := r mod C) in *.
    assert (Ha : a < A) by nia.
    assert (Hb : b < B) by nia.
    assert (Hk' : k = (a * B + b) * C + c) by nia.
    rewrite Hk' at 1. rewrite nth_tabulate3 by assumption.
    rewrite <- Hk'. reflexivity.
Qed.

Lemma rot90_array_table (R C : nat) (rest : list nat) (f : nat -> nat -> nat -> voxel) :
  rot90_array {| shape := R :: C :: rest; data := tabulate3 R C (size_of rest) f |}
  = {| shape := C :: R :: rest;
       data := tabulate3 C R (size_of rest) (fun i j q => f j (C - 1 - i) q) |}.
Proof.
  unfold rot90_array. simpl. f_equal. apply tabulate3_ext.
  intros i j q Hi Hj Hq. apply nth_tabulate3; lia.
Qed.

Lemma array_as_table (m : ndarray) (R C : nat) (rest : list nat) :
  shape m = R :: C :: rest ->
  well_formed m ->
  m = {| shape := R :: C :: rest;
         data := tabulate3 R C (size_of rest)
                   (fun i j q => nth ((i * C + j) * size_of rest + q) (data m) v0) |}.
Proof.
  destruct m as [sh buf]. unfold well_formed. simpl. intros -> Hwf.
  f_equal. symmetry. apply tabulate3_nth. exact Hwf.
Qed.

Lemma shape_rot90_array (m : ndarray) (R C : nat) (rest : list nat) :
  shape m = R :: C :: rest -> shape (rot90_array m) = C :: R :: rest.
Proof. intros H. unfold rot90_array. rewrite H. reflexivity. Qed.

Lemma well_formed_rot90_array (m : ndarray) (R C : nat) (rest : list nat) :
  shape m = R :: C :: rest -> well_formed (rot90_array m).
Proof.
  intros H. unfold well_formed, rot90_array. rewrite H. simpl.
  rewrite length_tabulate3. reflexivity.
Qed.

Lemma np_rot90_ok (m : ndarray) (R C : nat) (rest : list nat) :
  shape m = R :: C :: rest -> np_rot90 m = inr (rot90_array m).
Proof. intros H. unfold np_rot90, ndim. rewrite H. reflexivity. Qed.

(** Four quarter turns of an array with at least two axes give it back. *)
Lemma rot90_array_four_times (m : ndarray) (R C : nat) (rest : list nat) :
  shape m = R :: C :: rest ->
  well_formed m ->
  rot90_array (rot90_array (rot90_array (rot90_array m))) = m.
Proof.
  intros Hshape Hwf. pose proof (array_as_table m R C rest Hshape Hwf) as E.
  set (f := fun i j q => nth ((i * C + j) * size_of rest + q) (data m) v0) in E.
  clearbody f. rewrite E. rewrite !rot90_array_table. f_equal.
  apply tabulate3_ext. intros i j q Hi Hj Hq.
  replace (R - 1 - (R - 1 - i)) with i by lia.
  replace (C - 1 - (C - 1 - j)) with j by lia.
  reflexivity.
Qed.

(** C9. [np.rot90] is a quarter turn, counter-clockwise: an array of shape
    (R, C) becomes one of shape (C, R) whose entry (i, j) is the entry
    (j, C-1-i) of the original (the last column becomes the first row), and
    four turns in a row return the original array. *)
Theorem rot90_quarter_turn (m : ndarray) (R C : nat) :
  shape m = [R; C] ->
  well_formed m ->
  exists m1,
    np_rot90 m = inr m1
    /\ shape m1 = [C; R]
    /\ well_formed m1
    /\ (forall i j, i < C -> j < R -> get2 m1 i j = get2 m j (C - 1 - i))
    /\ rot90_times 4 m = inr m.
Proof.
  intros Hshape Hwf. exists (rot90_array m).
  pose proof (shape_rot90_array m R C [] Hshape) as H1.
  pose proof (shape_rot90_array _ C R [] H1) as H2.
  pose proof (shape_rot90_array _ R C [] H2) as H3.
  split; [exact (np_rot90_ok m R C [] Hshape)|].
  split; [exact H1|].
  split; [exact (well_formed_rot90_array m R C [] Hshape)|].
  split.
  - intros i j Hi Hj. unfold get2. rewrite H1, Hshape. simpl nth.
    unfold rot90_array. rewrite Hshape. simpl data. simpl size_of.
    replace (i * R + j) with ((i * R + j) * 1 + 0) by lia.
    rewrite nth_tabulate3 by lia. f_equal. lia.
  - simpl rot90_times.
    rewrite (np_rot90_ok m R C [] Hshape), (np_rot90_ok _ C R [] H1),
      (np_rot90_ok _ R C [] H2), (np_rot90_ok _ C R [] H3).
    f_equal. exact (rot90_array_four_times m R C [] Hshape Hwf).
Qed.

(** The images [run] rotates are 2D and well formed when the volume is. *)
Lemma slice_of_volume (vol : ndarray) (X Y Zn z : nat) :
  shape vol = [X; Y; Zn] ->
  shape (take_axis 2 z vol) = [X; Y] /\ well_formed (take_axis 2 z vol).
Proof.
  intros H. unfold well_formed, take_axis. rewrite H. simpl shape. simpl data.
  split; [reflexivity|]. rewrite length_tabulate2. simpl. lia.
Qed.

Local Close Scope nat_scope.

(** ** The output type *)



(** ** The dispatch on the input file *)

(** Whatever the input file is, once its extension is neither [.nii] nor
    [.gz] the base class is built without a frame selector, and its
    constructor raises on the [int] default. *)
Lemma main_generic_path (args : arguments) :
  man args = false ->
  synopsis args = false ->
  snd (PyStr.splitext (inputFile args)) <> ".nii"%string ->
  snd (PyStr.splitext (inputFile args)) <> ".gz"%string ->
  main args = ([], inl AttributeError).
Proof.
  intros Hman Hsyn Hnii Hgz. unfold main. rewrite Hman, Hsyn. simpl orb.
  destruct (PyStr.splitext (inputFile args)) as [name ext]. simpl snd in *.
  apply String.eqb_neq in Hnii. apply String.eqb_neq in Hgz.
  rewrite Hnii, Hgz. reflexivity.
Qed.

(** * Beyond the selection: the constructors *)

Lemma to_int_error (s : string) (e : pyexn) :
  PyStr.to_int s = inl e -> e = ValueError.
Proof.
  unfold PyStr.to_int. intros H.
  repeat match type of H with
         | context [match ?x with _ => _ end] => destruct x
         end; congruence.
Qed.


Lemma parse_selector_attribute_error (v : option pyval) :
  parse_selector (given v (PyInt (-1))) = inl AttributeError <-> not_a_str v.
Proof.
  unfold not_a_str. split.
  - destruct v as [[z|s]|]; simpl; intros H.
    + right. exists z. reflexivity.
    + exfalso. destruct (String.eqb (PyStr.lower s) "m"); [discriminate|].
      destruct (PyStr.to_int s) as [e|z] eqn:E; [|discriminate].
      apply to_int_error in E. congruence.
    + left. reflexivity.
  - intros [->|[z ->]]; reflexivity.
Qed.

Lemma parse_selector_error (v : pyval) (e : pyexn) :
  parse_selector v = inl e -> e = AttributeError \/ e = ValueError.
Proof.
  destruct v as [z|s]; simpl.
  - intros H. left. congruence.
  - destruct (String.eqb (PyStr.lower s) "m"); [discriminate|].
    destruct (PyStr.to_int s) as [e'|z] eqn:E; [|discriminate].
    apply to_int_error in E. intros H. right. congruence.
Qed.

(** ** What [os.path.splitext] returns *)






(** ** Volumes that are neither 3D nor 4D *)

(** The NIfTI constructor takes data of any dimension, but keeps it only
    when it has three or four axes.  With any other data both flags stay
    clear, and [run] stops on [AttributeError] (the 3D volume is still
    [None]) before a directory is made or a file written, whatever the
    selectors are. *)
Theorem run_unsupported_ndim (kw : kwargs) (self : med2image) (vol : ndarray) :
  med2image_nii_init kw = inr self ->
  nib_load_data (_str_inputFile self) = inr vol ->
  ndim vol <> 3%nat ->
  ndim vol <> 4%nat ->
  _b_3D self = false
  /\ _b_4D self = false
  /\ med2image_nii_run self = ([], inl AttributeError).
Proof.
  unfold med2image_nii_init. intros Hinit Hload H3 H4.
  destruct (med2image_init kw) as [e|base] eqn:Hbase; [discriminate|].
  destruct (nib_load_data (_str_inputFile base)) as [e|data] eqn:Hdata; [discriminate|].
  assert (Hin : _str_inputFile self = _str_inputFile base).
  { inversion Hinit; subst.
    destruct (ndim data =? 4)%nat; destruct (ndim data =? 3)%nat; reflexivity. }
  rewrite Hin, Hdata in Hload. inversion Hload; subst data. clear Hload.
  apply Nat.eqb_neq in H3. apply Nat.eqb_neq in H4. rewrite H3, H4 in Hinit.
  inversion Hinit; subst self. clear Hinit.
  destruct (med2image_init_typed kw base Hbase) as [Hf [Hs Hb4]].
  destruct (med2image_init_inv kw base Hbase) as [mf [fv [ms [sv [t [_ [_ E]]]]]]].
  assert (Hb3 : _b_3D base = false) by (rewrite E; reflexivity).
  assert (Hnone : _Vnp_3DVol base = None) by (rewrite E; reflexivity).
  split; [exact Hb3|]. split; [exact Hb4|].
  destruct (selector_value_typed _ _ 1 Hf) as [fv' Hfv].
  rewrite (run_frames base 1 fv'); [|rewrite Hb4; reflexivity|exact Hfv].
  destruct (selected_of_one fv') as [f ->]. simpl for_each.
  unfold frame_body, load_frame. simpl fst. simpl snd. simpl _b_4D.
  rewrite Hb4, bind_ret. unfold convert_slices, shape_at. simpl _Vnp_3DVol.
  rewrite Hnone. reflexivity.
Qed.

(** * Beyond the selection: every run *)

(** ** The files of a run, for any selectors *)

(** On a 3D volume, whatever the slice selector resolves to, a run whose
    selected indices the slice axis accepts writes one file for each of them,
    in order, named after the index as it was given and holding the rotated
    slice at the position the index denotes. *)
Theorem run_3D_selected (kw : kwargs) (self : med2image) (vol : ndarray)
        (X Y Zn : nat) (sv : Z) :
  med2image_nii_init kw = inr self ->
  nib_load_data (_str_inputFile self) = inr vol ->
  shape vol = [X; Y; Zn] ->
  selector_value (_b_convertMiddleSlice self) (_sliceToConvert self) (Z.of_nat Zn) = Some sv ->
  Forall (fun i => valid_index i Zn) (selected sv (Z.of_nat Zn)) ->
  exists tr self',
    med2image_nii_run self = (tr, inr self')
    /\ jobs_of tr
       = map (fun i : Z =>
                ((_str_outputDir self ++ "/" ++ _str_outputFileStem self
                    ++ "-slice" ++ PyStr.fmt_03d i
                    ++ "." ++ _str_outputFileType self)%string,
                 rot90_array (take_axis 2 (wrap_index i Zn) vol)))
             (selected sv (Z.of_nat Zn)).
Proof.
  intros Hinit Hload Hshape Hsv Hall.
  destruct (constructed_3D kw self vol X Y Zn Hinit Hload Hshape) as [H4 [Hv [Hf Hs]]].
  assert (Hn : nth_error (shape vol) 2 = Some Zn) by (rewrite Hshape; reflexivity).
  destruct (selector_value_typed _ _ 1 Hf) as [fv Hfv].
  destruct (run_3D_ok self vol Zn fv sv H4 Hv Hn Hfv Hsv Hall) as [self' Hrun].
  eexists. exists self'. split; [exact Hrun|].
  rewrite jobs_of_slices. apply map_ext. intros i.
  unfold slice_image. rewrite (nth_of_nth_error _ _ _ Hn). reflexivity.
Qed.

(** On a 4D volume, with selectors whose indices the frame axis and the
    slice axis accept, a run writes, for every selected frame in order, one
    file for every selected slice in order; the name carries both indices as
    they were given and the file holds the rotated slice of that frame. *)
Theorem run_4D_selected (kw : kwargs) (self : med2image) (vol : ndarray)
        (X Y Zn T : nat) (fv sv : Z) :
  med2image_nii_init kw = inr self ->
  nib_load_data (_str_inputFile self) = inr vol ->
  shape vol = [X; Y; Zn; T] ->
  selector_value (_b_convertMiddleFrame self) (_frameToConvert self) (Z.of_nat T) = Some fv ->
  selector_value (_b_convertMiddleSlice self) (_sliceToConvert self) (Z.of_nat Zn) = Some sv ->
  Forall (fun f => valid_index f T) (selected fv (Z.of_nat T)) ->
  Forall (fun i => valid_index i Zn) (selected sv (Z.of_nat Zn)) ->
  exists tr self',
    med2image_nii_run self = (tr, inr self')
    /\ jobs_of tr
       = flat_map
           (fun f : Z =>
              map (fun i : Z =>
                     ((_str_outputDir self ++ "/" ++ _str_outputFileStem self
                         ++ "-frame" ++ PyStr.fmt_03d f
                         ++ "-slice" ++ PyStr.fmt_03d i
                         ++ "." ++ _str_outputFileType self)%string,
                      rot90_array
                        (take_axis 2 (wrap_index i Zn)
                           (take_axis 3 (wrap_index f T) vol))))
                  (selected sv (Z.of_nat Zn)))
           (selected fv (Z.of_nat T)).
Proof.
  intros Hinit Hload Hshape Hfv Hsv Hfs Hall.
  destruct (constructed_4D kw self vol X Y Zn T Hinit Hload Hshape) as [H4 [Hv [Hf Hs]]].
  assert (HT : nth_error (shape vol) 3 = Some T) by (rewrite Hshape; reflexivity).
  assert (HZ : nth 2 (shape vol) 0%nat = Zn) by (rewrite Hshape; reflexivity).
  assert (HT' : nth 3 (shape vol) 0%nat = T) by (rewrite Hshape; reflexivity).
  rewrite <- HZ in Hsv, Hall.
  destruct (run_4D_ok self vol T fv sv H4 Hv HT Hfv Hsv Hfs Hall) as [self' Hrun].
  eexists. exists self'. split; [exact Hrun|].
  rewrite jobs_of_flat_map. apply flat_map_ext. intros f.
  rewrite jobs_of_frame, HT', HZ. apply map_ext. intros i.
  unfold output_file, slice_image. rewrite H4.
  replace (nth 2 (shape (take_axis 3 (wrap_index f T) vol)) 0%nat)
    with Zn by (unfold take_axis; rewrite Hshape; reflexivity).
  reflexivity.
Qed.

(** ** The order of the external calls *)

Lemma prefix_append (a b : string) : String.prefix a (a ++ b) = true.
Proof.
  induction a as [|c a IH]; simpl; [destruct b; reflexivity|].
  destruct (ascii_dec c c) as [_|Hne]; [exact IH|contradiction].
Qed.

Lemma append_assoc_string (a b c : string) :
  ((a ++ b) ++ c = a ++ (b ++ c))%string.
Proof.
  induction a as [|x a IH]; simpl; [reflexivity|]. rewrite IH. reflexivity.
Qed.

Lemma output_file_in_dir (self : med2image) (f i : Z) :
  String.prefix (_str_outputDir self ++ "/") (output_file self f i) = true.
Proof.
  unfold output_file, output_file_4D, output_file_3D.
  destruct (_b_4D self);
    rewrite <- (append_assoc_string (_str_outputDir self) "/"); apply prefix_append.
Qed.

Lemma writes_after_mkdir_imsaves {W : Type} (dir : string) (path : W -> string)
      (img : W -> ndarray) (xs : list W) (rest : list event) :
  (forall x, String.prefix (dir ++ "/") (path x) = true) ->
  writes_after_mkdir dir true rest ->
  writes_after_mkdir dir true (map (fun x => Imsave (path x) (img x)) xs ++ rest).
Proof.
  intros Hp Hrest. induction xs as [|x xs IH]; simpl; [exact Hrest|].
  split; [reflexivity|]. split; [apply Hp|exact IH].
Qed.

Lemma writes_after_mkdir_frames (self : med2image) (vol4 : ndarray) (v : Z)
      (frames : list Z) (made : bool) :
  writes_after_mkdir (_str_outputDir self) made
    (flat_map (frame_events self vol4 v) frames).
Proof.
  revert made. induction frames as [|f frames IH]; intros made; simpl; [exact I|].
  split; [reflexivity|].
  apply (writes_after_mkdir_imsaves (_str_outputDir self) (output_file self f)).
  - intros i. apply output_file_in_dir.
  - apply IH.
Qed.

(** a run on a 4D volume, with the trace of every case written out *)
Lemma run_4D_traces (self : med2image) (vol4 : ndarray) (T : nat) (fv v : Z) :
  _b_4D self = true ->
  _Vnp_4DVol self = Some vol4 ->
  nth_error (shape vol4) 3 = Some T ->
  selector_value (_b_convertMiddleFrame self) (_frameToConvert self) (Z.of_nat T) = Some fv ->
  selector_value (_b_convertMiddleSlice self) (_sliceToConvert self)
    (Z.of_nat (nth 2 (shape vol4) 0%nat)) = Some v ->
  (exists self',
      med2image_nii_run self
      = (flat_map (frame_events self vol4 v) (selected fv (Z.of_nat T)), inr self'))
  \/ med2image_nii_run self = ([], inl IndexError)
  \/ med2image_nii_run self = ([Mkdir (_str_outputDir self)], inl IndexError).
Proof.
  intros H4 Hv HT Hf Hs.
  destruct (selected_valid_or_not fv T) as [Hfs|[Hne Hbad]].
  - destruct (selected fv (Z.of_nat T)) as [|f frames] eqn:Hsel.
    + left. exact (run_4D_no_frame self vol4 T fv H4 Hv HT Hf Hsel).
    + destruct (selected_valid_or_not v (nth 2 (shape vol4) 0%nat)) as [Hall|[Hnv Hbv]].
      * left. rewrite <- Hsel. rewrite <- Hsel in Hfs.
        exact (run_4D_ok self vol4 T fv v H4 Hv HT Hf Hs Hfs Hall).
      * right. right. inversion Hfs; subst.
        exact (run_4D_bad_slice self vol4 T fv v f frames H4 Hv HT Hf Hs Hsel
                 ltac:(assumption) Hnv Hbv).
  - right. left. exact (run_4D_bad_frame self vol4 T fv H4 Hv HT Hf Hne Hbad).
Qed.

(** In every run on a 3D or a 4D volume, complete or not, [misc.mkdir] is
    called with the output directory string only, [pylab.imsave] is not
    called before [misc.mkdir] has been, and every path passed to
    [pylab.imsave] is a string that begins with the output directory string
    followed by ["/"].  Nothing is said of where that path leads: a stem with
    path components, or an empty directory string, takes the file
    elsewhere. *)
Theorem run_makes_directory_first (kw : kwargs) (self : med2image) (vol : ndarray) :
  med2image_nii_init kw = inr self ->
  nib_load_data (_str_inputFile self) = inr vol ->
  ndim vol = 3%nat \/ ndim vol = 4%nat ->
  writes_after_mkdir (_str_outputDir self) false (fst (med2image_nii_run self)).
Proof.
  intros Hinit Hload Hdim. unfold ndim in Hdim.
  destruct (shape vol) as [|X [|Y [|Zn [|T [|T' rest]]]]] eqn:Hshape;
    simpl in Hdim; try (destruct Hdim; discriminate).
  - destruct (constructed_3D kw self vol X Y Zn Hinit Hload Hshape) as [H4 [Hv [Hf Hs]]].
    assert (Hn : nth_error (shape vol) 2 = Some Zn) by (rewrite Hshape; reflexivity).
    destruct (selector_value_typed _ _ 1 Hf) as [fv Hfv].
    destruct (selector_value_typed _ _ (Z.of_nat Zn) Hs) as [sv Hsv].
    destruct (run_3D_total self vol Zn fv sv H4 Hv Hn Hfv Hsv)
      as [[_ [self' E]]|[_ [_ E]]]; rewrite E; simpl fst.
    + simpl. split; [reflexivity|].
      rewrite <- (app_nil_r (map _ _)).
      apply (writes_after_mkdir_imsaves (_str_outputDir self) (output_file_3D self)).
      * intros i. unfold output_file_3D.
        rewrite <- (append_assoc_string (_str_outputDir self) "/"). apply prefix_append.
      * exact I.
    + simpl. split; [reflexivity|exact I].
  - destruct (constructed_4D kw self vol X Y Zn T Hinit Hload Hshape) as [H4 [Hv [Hf Hs]]].
    assert (HT : nth_error (shape vol) 3 = Some T) by (rewrite Hshape; reflexivity).
    destruct (selector_value_typed _ _ (Z.of_nat T) Hf) as [fv Hfv].
    destruct (selector_value_typed _ _ (Z.of_nat (nth 2 (shape vol) 0%nat)) Hs) as [sv Hsv].
    destruct (run_4D_traces self vol T fv sv H4 Hv HT Hfv Hsv) as [[self' E]|[E|E]];
      rewrite E; simpl fst.
    + apply writes_after_mkdir_frames.
    + exact I.
    + simpl. split; [reflexivity|exact I].
Qed.

(** A run on a 3D or a 4D volume completes or raises [IndexError]: no other
    exception leaves it. *)
Theorem run_raises_only_IndexError (kw : kwargs) (self : med2image) (vol : ndarray) :
  med2image_nii_init kw = inr self ->
  nib_load_data (_str_inputFile self) = inr vol ->
  ndim vol = 3%nat \/ ndim vol = 4%nat ->
  outcome (med2image_nii_run self) = None
  \/ outcome (med2image_nii_run self) = Some IndexError.
Proof.
  intros Hinit Hload Hdim. unfold ndim in Hdim.
  destruct (shape vol) as [|X [|Y [|Zn [|T [|T' rest]]]]] eqn:Hshape;
    simpl in Hdim; try (destruct Hdim; discriminate).
  - destruct (constructed_3D kw self vol X Y Zn Hinit Hload Hshape) as [H4 [Hv [Hf Hs]]].
    assert (Hn : nth_error (shape vol) 2 = Some Zn) by (rewrite Hshape; reflexivity).
    destruct (selector_value_typed _ _ 1 Hf) as [fv Hfv].
    destruct (selector_value_typed _ _ (Z.of_nat Zn) Hs) as [sv Hsv].
    destruct (run_3D_total self vol Zn fv sv H4 Hv Hn Hfv Hsv)
      as [[_ [self' E]]|[_ [_ E]]]; rewrite E; [left|right]; reflexivity.
  - destruct (constructed_4D kw self vol X Y Zn T Hinit Hload Hshape) as [H4 [Hv [Hf Hs]]].
    assert (HT : nth_error (shape vol) 3 = Some T) by (rewrite Hshape; reflexivity).
    destruct (selector_value_typed _ _ (Z.of_nat T) Hf) as [fv Hfv].
    destruct (selector_value_typed _ _ (Z.of_nat (nth 2 (shape vol) 0%nat)) Hs) as [sv Hsv].
    destruct (run_4D_traces self vol T fv sv H4 Hv HT Hfv Hsv) as [[self' E]|[E|E]];
      rewrite E; [left|right|right]; reflexivity.
Qed.

(** * Beyond the selection: indices in file names *)

(** ** Reading back what ["%03d"] prints *)

Lemma digits_then_space_uint (u : Decimal.uint) :
  forall acc,
    PyStr.digits_then_space (NilEmpty.string_of_uint u) acc = Some (uint_value u acc).
Proof.
  induction u as [|u IH|u IH|u IH|u IH|u IH|u IH|u IH|u IH|u IH|u IH]; intros acc;
    [reflexivity|..]; simpl NilEmpty.string_of_uint; simpl uint_value;
    rewrite <- IH; reflexivity.
Qed.

Lemma uint_value_pos (u : Decimal.uint) :
  forall acc : positive, uint_value u (Zpos acc) = Zpos (Pos.of_uint_acc u acc).
Proof.
  induction u as [|u IH|u IH|u IH|u IH|u IH|u IH|u IH|u IH|u IH|u IH]; intros acc;
    [reflexivity|..]; cbn [uint_value Pos.of_uint_acc];
    rewrite <- IH; f_equal; try lia.
Qed.

Lemma uint_value_zero (u : Decimal.uint) :
  uint_value u 0 = Z.of_N (Pos.of_uint u).
Proof.
  induction u as [|u IH|u IH|u IH|u IH|u IH|u IH|u IH|u IH|u IH|u IH];
    [reflexivity|exact IH|..]; simpl uint_value; simpl Pos.of_uint;
    rewrite uint_value_pos; reflexivity.
Qed.

Lemma digits_value (z : Z) :
  0 <= z -> PyStr.digits_then_space (PyStr.digits z) 0 = Some z.
Proof.
  intros Hz. unfold PyStr.digits. rewrite digits_then_space_uint, uint_value_zero.
  change (Pos.of_uint (N.to_uint (Z.to_N z))) with (N.of_uint (N.to_uint (Z.to_N z))).
  rewrite DecimalN.Unsigned.of_to, Z2N.id by exact Hz. reflexivity.
Qed.

Lemma zfill_zeros (w : nat) (s : string) :
  PyStr.zfill w s = zeros_then (w - String.length s) s.
Proof.
  unfold PyStr.zfill. generalize (w - String.length s)%nat. intros k.
  induction k as [|k IH]; simpl; [reflexivity|]. rewrite IH. reflexivity.
Qed.

Lemma digits_then_space_zeros (k : nat) (s : string) :
  PyStr.digits_then_space (zeros_then k s) 0 = PyStr.digits_then_space s 0.
Proof. induction k as [|k IH]; simpl; [reflexivity|exact IH]. Qed.

Lemma string_of_uint_head (u : Decimal.uint) :
  u <> Decimal.Nil ->
  exists c t, NilEmpty.string_of_uint u = String c t /\ PyStr.is_digit c = true.
Proof.
  intros H. destruct u; [contradiction|..]; eexists; eexists; split; reflexivity.
Qed.

Lemma digits_head (z : Z) :
  exists c t, PyStr.digits z = String c t /\ PyStr.is_digit c = true.
Proof.
  unfold PyStr.digits. apply string_of_uint_head.
  destruct (Z.to_N z) as [|p]; [discriminate|].
  apply DecimalPos.Unsigned.to_uint_nonnil.
Qed.

Lemma zeros_then_head (k : nat) (c : ascii) (t : string) :
  PyStr.is_digit c = true ->
  exists c' t', zeros_then k (String c t) = String c' t' /\ PyStr.is_digit c' = true.
Proof.
  intros H. destruct k as [|k]; simpl.
  - exists c, t. split; [reflexivity|exact H].
  - eexists. eexists. split; reflexivity.
Qed.

Lemma to_int_digit_head (c : ascii) (t : string) :
  PyStr.is_digit c = true ->
  PyStr.to_int (String c t)
  = match PyStr.digits_then_space (String c t) 0 with
    | Some n => inr n
    | None => inl ValueError
    end.
Proof.
  destruct c as [[] [] [] [] [] [] [] []]; intros H;
    (vm_compute in H; discriminate H) || reflexivity.
Qed.

(** Python reads back the number that ["%03d"] prints:
    [int("%03d" % z) == z] for every [z]. *)
Lemma to_int_fmt_03d (z : Z) : PyStr.to_int (PyStr.fmt_03d z) = inr z.
Proof.
  unfold PyStr.fmt_03d. destruct (Z.ltb_spec z 0) as [Hneg|Hpos].
  - destruct (digits_head (- z)) as [c [t [E Hc]]].
    destruct (zeros_then_head (2 - String.length (PyStr.digits (- z))) c t Hc)
      as [c' [t' [E' Hc']]].
    assert (Hv : PyStr.digits_then_space (PyStr.zfill 2 (PyStr.digits (- z))) 0
                 = Some (- z)).
    { rewrite zfill_zeros, digits_then_space_zeros. apply digits_value. lia. }
    assert (Hz : PyStr.zfill 2 (PyStr.digits (- z)) = String c' t').
    { rewrite zfill_zeros. rewrite E at 2. exact E'. }
    rewrite Hz in *.
    change (PyStr.to_int (String "-" (String c' t')))
      with (match PyStr.unsigned_literal (String c' t') with
            | Some n => @inr pyexn Z (- n)
            | None => inl ValueError
            end).
    unfold PyStr.unsigned_literal. rewrite Hc', Hv. f_equal. lia.
  - destruct (digits_head z) as [c [t [E Hc]]].
    destruct (zeros_then_head (3 - String.length (PyStr.digits z)) c t Hc)
      as [c' [t' [E' Hc']]].
    assert (Hv : PyStr.digits_then_space (PyStr.zfill 3 (PyStr.digits z)) 0 = Some z).
    { rewrite zfill_zeros, digits_then_space_zeros. apply digits_value. exact Hpos. }
    assert (Hz : PyStr.zfill 3 (PyStr.digits z) = String c' t').
    { rewrite zfill_zeros. rewrite E at 2. exact E'. }
    rewrite Hz in *. rewrite (to_int_digit_head c' t' Hc'), Hv. reflexivity.
Qed.

Lemma fmt_03d_injective (a b : Z) : PyStr.fmt_03d a = PyStr.fmt_03d b -> a = b.
Proof.
  intros H. pose proof (to_int_fmt_03d a) as Ha. rewrite H, to_int_fmt_03d in Ha.
  congruence.
Qed.

Lemma lower_head_not_m (c : ascii) :
  PyStr.is_digit c = true \/ c = "-"%char ->
  Ascii.eqb (PyStr.lower_ascii c) "m" = false.
Proof.
  intros [H| ->]; [|reflexivity].
  destruct c as [[] [] [] [] [] [] [] []];
    (vm_compute in H; discriminate H) || reflexivity.
Qed.

Lemma all_digits_string_of_uint (u : Decimal.uint) :
  all_digits (NilEmpty.string_of_uint u) = true.
Proof. induction u; simpl; auto. Qed.

Lemma all_digits_zeros_then (k : nat) (s : string) :
  all_digits s = true -> all_digits (zeros_then k s) = true.
Proof. intros H. induction k as [|k IH]; simpl; [exact H|exact IH]. Qed.

(** What ["%03d"] prints: a digit or the minus sign, then digits only. *)
Lemma fmt_03d_shape (z : Z) :
  exists c t,
    PyStr.fmt_03d z = String c t
    /\ all_digits t = true
    /\ (PyStr.is_digit c = true \/ c = "-"%char).
Proof.
  unfold PyStr.fmt_03d. destruct (z <? 0).
  - exists "-"%char, (PyStr.zfill 2 (PyStr.digits (- z))).
    split; [reflexivity|]. split; [|right; reflexivity].
    rewrite zfill_zeros. apply all_digits_zeros_then, all_digits_string_of_uint.
  - assert (H : all_digits (PyStr.zfill 3 (PyStr.digits z)) = true).
    { rewrite zfill_zeros. apply all_digits_zeros_then, all_digits_string_of_uint. }
    destruct (digits_head z) as [c [t [E Hc]]].
    destruct (zeros_then_head (3 - String.length (PyStr.digits z)) c t Hc)
      as [c' [t' [E' Hc']]].
    assert (Hz : PyStr.zfill 3 (PyStr.digits z) = String c' t').
    { rewrite zfill_zeros. rewrite E at 2. exact E'. }
    rewrite Hz in *. exists c', t'. split; [reflexivity|].
    simpl in H. apply andb_prop in H. split; [apply H|left; exact Hc'].
Qed.

(** The constructor reads the index of a file name back as the selector of
    that index: ["%03d" % z], passed as a selector, is parsed to the [int]
    [z] with the middle flag clear. *)
Theorem selector_of_printed_index (z : Z) :
  PyStr.to_int (PyStr.fmt_03d z) = inr z
  /\ parse_selector (PyStr (PyStr.fmt_03d z)) = inr (false, PyInt z).
Proof.
  split; [apply to_int_fmt_03d|].
  unfold parse_selector. rewrite to_int_fmt_03d.
  destruct (fmt_03d_shape z) as [c [t [E [_ Hc]]]]. rewrite E.
  simpl PyStr.lower. simpl String.eqb. rewrite (lower_head_not_m c Hc). reflexivity.
Qed.

(** ** Selector strings the constructor reads *)

Lemma is_space_not_digit (c : ascii) :
  PyStr.is_space c = true -> PyStr.is_digit c = false.
Proof.
  destruct c as [[] [] [] [] [] [] [] []]; intros H;
    (vm_compute in H; discriminate H) || reflexivity.
Qed.

Lemma is_digit_not_space (c : ascii) :
  PyStr.is_digit c = true -> PyStr.is_space c = false.
Proof.
  intros H. destruct (PyStr.is_space c) eqn:E; [|reflexivity].
  apply is_space_not_digit in E. congruence.
Qed.

Lemma digit_value_spec (c : ascii) :
  PyStr.is_digit c = true -> Z.of_nat (nat_of_ascii c - 48) = digit_value c.
Proof.
  destruct c as [[] [] [] [] [] [] [] []]; intros H;
    (vm_compute in H; discriminate H) || reflexivity.
Qed.

Lemma lstrip_all_space (ws s : string) :
  all_space ws = true -> PyStr.lstrip (ws ++ s) = PyStr.lstrip s.
Proof.
  induction ws as [|c ws IH]; simpl; intros H; [reflexivity|].
  apply andb_prop in H. destruct H as [Hc Hws]. rewrite Hc. exact (IH Hws).
Qed.

Lemma lstrip_only_space (ws : string) :
  all_space ws = true -> PyStr.lstrip ws = EmptyString.
Proof.
  induction ws as [|c ws IH]; simpl; intros H; [reflexivity|].
  apply andb_prop in H. destruct H as [Hc Hws]. rewrite Hc. exact (IH Hws).
Qed.

(** [int] skips the white space in front *)
Lemma to_int_skips_space (ws s : string) :
  all_space ws = true -> PyStr.to_int (ws ++ s) = PyStr.to_int s.
Proof.
  intros H. unfold PyStr.to_int. rewrite (lstrip_all_space ws s H). reflexivity.
Qed.

Lemma to_int_minus (t : string) :
  PyStr.to_int (String "-" t)
  = match PyStr.unsigned_literal t with
    | Some n => inr (- n)
    | None => inl ValueError
    end.
Proof. reflexivity. Qed.

Lemma to_int_plus (t : string) :
  PyStr.to_int (String "+" t)
  = match PyStr.unsigned_literal t with
    | Some n => inr n
    | None => inl ValueError
    end.
Proof. reflexivity. Qed.

(** white space after the digits ends the number *)
Lemma digits_then_space_end (ws : string) (acc : Z) :
  all_space ws = true -> PyStr.digits_then_space ws acc = Some acc.
Proof.
  destruct ws as [|c ws]; simpl; intros H; [reflexivity|].
  apply andb_prop in H. destruct H as [Hc Hws].
  rewrite (is_space_not_digit c Hc), Hc, (lstrip_only_space ws Hws). reflexivity.
Qed.

(** reading the digits from the left gives the number they write by place *)
Lemma digits_then_space_literal (ds ws : string) :
  all_digits ds = true ->
  all_space ws = true ->
  forall acc,
    PyStr.digits_then_space (ds ++ ws) acc
    = Some (acc * 10 ^ Z.of_nat (String.length ds) + decimal_value ds).
Proof.
  intros Hds Hws. induction ds as [|c ds IH]; intros acc.
  - simpl. rewrite (digits_then_space_end ws acc Hws). f_equal. lia.
  - simpl in Hds. apply andb_prop in Hds. destruct Hds as [Hc Hds].
    simpl append. cbn [PyStr.digits_then_space]. rewrite Hc.
    rewrite (IH Hds), (digit_value_spec c Hc).
    cbn [decimal_value String.length]. rewrite Nat2Z.inj_succ, Z.pow_succ_r by lia.
    f_equal. ring.
Qed.

Lemma unsigned_literal_digits (ds ws : string) :
  all_digits ds = true ->
  ds <> EmptyString ->
  all_space ws = true ->
  PyStr.unsigned_literal (ds ++ ws) = Some (decimal_value ds).
Proof.
  intros Hds Hne Hws. pose proof (digits_then_space_literal ds ws Hds Hws 0) as H.
  destruct ds as [|c ds]; [contradiction|].
  simpl in Hds. apply andb_prop in Hds. destruct Hds as [Hc _].
  simpl append in *. unfold PyStr.unsigned_literal. rewrite Hc, H. reflexivity.
Qed.

(** [int] reads every decimal literal as the number it writes *)
Lemma to_int_decimal_literal (s : string) (z : Z) :
  decimal_literal s z -> PyStr.to_int s = inr z.
Proof.
  intros [ws1 [sg [ds [ws2 [-> [H1 [Hds [Hne [H2 ->]]]]]]]]].
  rewrite (to_int_skips_space ws1 _ H1).
  pose proof (unsigned_literal_digits ds ws2 Hds Hne H2) as Hu.
  destruct sg; simpl sign_text; simpl signed.
  - simpl append. destruct ds as [|c ds]; [contradiction|].
    simpl in Hds. apply andb_prop in Hds. destruct Hds as [Hc Hds].
    simpl append in *. rewrite (to_int_digit_head c _ Hc).
    unfold PyStr.unsigned_literal in Hu. rewrite Hc in Hu. rewrite Hu. reflexivity.
  - simpl append. rewrite to_int_plus, Hu. reflexivity.
  - simpl append. rewrite to_int_minus, Hu. reflexivity.
Qed.

(** only ["m"] and ["M"] are ["m"] in lower case *)
Lemma lower_is_m (s : string) :
  PyStr.lower s = "m"%string <-> s = "m"%string \/ s = "M"%string.
Proof.
  split.
  - destruct s as [|c [|c' s]]; simpl; intros H; try discriminate.
    inversion H as [Hc]. clear H.
    destruct c as [[] [] [] [] [] [] [] []];
      try (vm_compute in Hc; discriminate Hc); [left|right]; reflexivity.
  - intros [->| ->]; reflexivity.
Qed.

Lemma decimal_literal_not_m (s : string) (z : Z) :
  decimal_literal s z -> PyStr.lower s <> "m"%string.
Proof.
  intros [ws1 [sg [ds [ws2 [E [H1 [Hds [Hne [H2 _]]]]]]]]] Hm.
  destruct ds as [|d ds]; [contradiction|].
  simpl in Hds. apply andb_prop in Hds. destruct Hds as [Hd _].
  assert (Hin : exists p q, s = (p ++ String d q)%string).
  { exists (ws1 ++ sign_text sg)%string, (ds ++ ws2)%string.
    rewrite E, append_assoc_string. reflexivity. }
  destruct Hin as [p [q Hs]].
  assert (Hc : d = "m"%char \/ d = "M"%char).
  { apply lower_is_m in Hm. rewrite Hs in Hm.
    destruct p as [|a [|a' p]]; simpl in Hm; destruct Hm as [Hm|Hm];
      try discriminate; inversion Hm; auto. }
  destruct Hc as [-> | ->]; vm_compute in Hd; discriminate Hd.
Qed.

(** the constructor's reading of a selector string agrees with its form *)
Lemma parse_selector_denotes (s : string) (middle : bool) (v : pyval) :
  selector_denotes s middle v -> parse_selector (PyStr s) = inr (middle, v).
Proof.
  intros [[Hs [-> ->]]|[z [Hlit [-> ->]]]]; unfold parse_selector.
  - destruct Hs as [-> | ->]; reflexivity.
  - destruct (String.eqb_spec (PyStr.lower s) "m") as [E|_].
    + exfalso. exact (decimal_literal_not_m s z Hlit E).
    + rewrite (to_int_decimal_literal s z Hlit). reflexivity.
Qed.

Lemma parse_selector_middle (s : string) (middle : bool) (v : pyval) :
  parse_selector (PyStr s) = inr (middle, v) ->
  (middle = true <-> s = "m"%string \/ s = "M"%string).
Proof.
  unfold parse_selector.
  destruct (String.eqb_spec (PyStr.lower s) "m") as [E|E].
  - intros H. inversion H. subst. split; [intros _; apply lower_is_m; exact E|reflexivity].
  - destruct (PyStr.to_int s) as [e|z]; [discriminate|].
    intros H. inversion H. subst. split; [discriminate|].
    intros Hm. exfalso. apply E, lower_is_m, Hm.
Qed.

Lemma resolve_outputFileType_selectors (self : med2image) :
  _b_convertMiddleFrame (resolve_outputFileType self) = _b_convertMiddleFrame self
  /\ _frameToConvert (resolve_outputFileType self) = _frameToConvert self
  /\ _b_convertMiddleSlice (resolve_outputFileType self) = _b_convertMiddleSlice self
  /\ _sliceToConvert (resolve_outputFileType self) = _sliceToConvert self.
Proof.
  destruct (resolve_outputFileType_sets self) as [t ->]. repeat split.
Qed.

(** The constructor accepts the selector strings ["m"], ["M"] and every
    decimal literal (white space or none, a sign or none, one digit or more,
    white space or none): ["m"] and ["M"] set the middle flag and stay in the
    field, a literal is replaced by the [int] it writes, sign applied, with
    the flag clear.  Among the strings it accepts, only ["m"] and ["M"] set
    a middle flag.  A selector that is absent or an [int] makes it raise
    [AttributeError], which it raises for no other reason; every failure is
    an [AttributeError] or a [ValueError]. *)
Theorem med2image_init_reads_selectors (kw : kwargs) :
  (forall (fs ss : string) (mf ms : bool) (fv sv : pyval),
      kw_frameToConvert kw = Some (PyStr fs) ->
      kw_sliceToConvert kw = Some (PyStr ss) ->
      selector_denotes fs mf fv ->
      selector_denotes ss ms sv ->
      exists self,
        med2image_init kw = inr self
        /\ _b_convertMiddleFrame self = mf /\ _frameToConvert self = fv
        /\ _b_convertMiddleSlice self = ms /\ _sliceToConvert self = sv)
  /\ (forall self,
         med2image_init kw = inr self ->
         exists fs ss,
           kw_frameToConvert kw = Some (PyStr fs)
           /\ kw_sliceToConvert kw = Some (PyStr ss)
           /\ (_b_convertMiddleFrame self = true <-> fs = "m"%string \/ fs = "M"%string)
           /\ (_b_convertMiddleSlice self = true <-> ss = "m"%string \/ ss = "M"%string))
  /\ (not_a_str (kw_frameToConvert kw) -> med2image_init kw = inl AttributeError)
  /\ (forall (fs : string) (mf : bool) (fv : pyval),
         kw_frameToConvert kw = Some (PyStr fs) ->
         selector_denotes fs mf fv ->
         not_a_str (kw_sliceToConvert kw) ->
         med2image_init kw = inl AttributeError)
  /\ (med2image_init kw = inl AttributeError ->
      not_a_str (kw_frameToConvert kw) \/ not_a_str (kw_sliceToConvert kw))
  /\ (forall e, med2image_init kw = inl e -> e = AttributeError \/ e = ValueError).
Proof.
  pose proof (parse_selector_attribute_error (kw_frameToConvert kw)) as Ef.
  pose proof (parse_selector_attribute_error (kw_sliceToConvert kw)) as Es.
  unfold med2image_init. simpl _frameToConvert. simpl _sliceToConvert.
  split; [|split; [|split; [|split; [|split]]]].
  - intros fs ss mf ms fv sv Hf Hs Df Ds. rewrite Hf, Hs. simpl given.
    rewrite (parse_selector_denotes fs mf fv Df), (parse_selector_denotes ss ms sv Ds).
    eexists. split; [reflexivity|].
    destruct (resolve_outputFileType_selectors
                (set_sliceToConvert sv
                   (set_convertMiddleSlice ms
                      (set_frameToConvert fv
                         (set_convertMiddleFrame mf (med2image_fields kw))))))
      as [-> [-> [-> ->]]].
    repeat split.
  - intros self H.
    destruct (kw_frameToConvert kw) as [[zf|fs]|]; simpl given in H;
      try (simpl in H; discriminate H).
    destruct (parse_selector (PyStr fs)) as [ef|[mf fv]] eqn:Pf; [discriminate|].
    destruct (kw_sliceToConvert kw) as [[zs|ss]|]; simpl given in H;
      try (simpl in H; discriminate H).
    destruct (parse_selector (PyStr ss)) as [es|[ms sv]] eqn:Ps; [discriminate|].
    inversion H as [Hself]. clear H.
    destruct (resolve_outputFileType_selectors
                (set_sliceToConvert sv
                   (set_convertMiddleSlice ms
                      (set_frameToConvert fv
                         (set_convertMiddleFrame mf (med2image_fields kw))))))
      as [-> [_ [-> _]]].
    exists fs, ss. split; [reflexivity|]. split; [reflexivity|].
    split; [exact (parse_selector_middle fs mf fv Pf)|exact (parse_selector_middle ss ms sv Ps)].
  - intros H. apply Ef in H. rewrite H. reflexivity.
  - intros fs mf fv Hf Df H. rewrite Hf. simpl given.
    rewrite (parse_selector_denotes fs mf fv Df). apply Es in H. rewrite H. reflexivity.
  - destruct (parse_selector (given (kw_frameToConvert kw) (PyInt (-1))))
      as [ef|[mf fv]] eqn:Pf.
    + intros H. left. apply Ef. congruence.
    + destruct (parse_selector (given (kw_sliceToConvert kw) (PyInt (-1))))
        as [es|[ms sv]] eqn:Ps; [|discriminate].
      intros H. right. apply Es. congruence.
  - intros e.
    destruct (parse_selector (given (kw_frameToConvert kw) (PyInt (-1))))
      as [ef|[mf fv]] eqn:Pf.
    + intros H. apply (parse_selector_error _ ef) in Pf.
      destruct Pf; [left|right]; congruence.
    + destruct (parse_selector (given (kw_sliceToConvert kw) (PyInt (-1))))
        as [es|[ms sv]] eqn:Ps; [|discriminate].
      intros H. apply (parse_selector_error _ es) in Ps.
      destruct Ps; [left|right]; congruence.
Qed.

(** ** File names do not collide *)

Lemma append_cancel_l (p x y : string) : (p ++ x = p ++ y)%string -> x = y.
Proof.
  induction p as [|c p IH]; simpl; intros H; [exact H|].
  inversion H. apply IH. assumption.
Qed.

Lemma digits_until_separator (c : ascii) (x y : string) :
  PyStr.is_digit c = false ->
  forall t1 t2,
    all_digits t1 = true ->
    all_digits t2 = true ->
    (t1 ++ String c x = t2 ++ String c y)%string ->
    t1 = t2 /\ x = y.
Proof.
  intros Hc. induction t1 as [|d t1 IH]; intros [|d' t2] H1 H2 E; simpl in *.
  - inversion E. split; reflexivity.
  - inversion E; subst. apply andb_prop in H2. destruct H2 as [H2 _]. congruence.
  - inversion E; subst. apply andb_prop in H1. destruct H1 as [H1 _]. congruence.
  - inversion E; subst. apply andb_prop in H1. apply andb_prop in H2.
    destruct (IH t2 (proj2 H1) (proj2 H2) ltac:(assumption)) as [-> ->].
    split; reflexivity.
Qed.

(** Two printed indices followed by the same character that is no digit are
    the same index. *)
Lemma fmt_03d_separated (c : ascii) (a b : Z) (x y : string) :
  PyStr.is_digit c = false ->
  (PyStr.fmt_03d a ++ String c x = PyStr.fmt_03d b ++ String c y)%string ->
  a = b /\ x = y.
Proof.
  intros Hc E.
  destruct (fmt_03d_shape a) as [ca [ta [Ea [Ha _]]]].
  destruct (fmt_03d_shape b) as [cb [tb [Eb [Hb _]]]].
  rewrite Ea, Eb in E. simpl in E. inversion E as [[Hhead Htail]].
  destruct (digits_until_separator c x y Hc ta tb Ha Hb Htail) as [Ht Hxy].
  split; [|exact Hxy]. apply fmt_03d_injective. rewrite Ea, Eb. congruence.
Qed.

Lemma output_file_3D_injective (self : med2image) (i j : Z) :
  output_file_3D self i = output_file_3D self j -> i = j.
Proof.
  unfold output_file_3D. intros E.
  do 4 apply append_cancel_l in E.
  exact (proj1 (fmt_03d_separated "."%char i j _ _ eq_refl E)).
Qed.

Lemma output_file_4D_injective (self : med2image) (f i f' i' : Z) :
  output_file_4D self f i = output_file_4D self f' i' -> f = f' /\ i = i'.
Proof.
  unfold output_file_4D. intros E.
  do 4 apply append_cancel_l in E.
  destruct (fmt_03d_separated "-"%char f f' _ _ eq_refl E) as [Hf E'].
  split; [exact Hf|].
  apply (append_cancel_l "slice") in E'.
  exact (proj1 (fmt_03d_separated "."%char i i' _ _ eq_refl E')).
Qed.

Lemma output_file_injective (self : med2image) (f i f' i' : Z) :
  _b_4D self = true ->
  output_file self f i = output_file self f' i' -> f = f' /\ i = i'.
Proof.
  unfold output_file. intros ->. apply output_file_4D_injective.
Qed.

Lemma NoDup_map_injective {A B : Type} (g : A -> B) (l : list A) :
  (forall x y, g x = g y -> x = y) -> NoDup l -> NoDup (map g l).
Proof.
  intros Hg Hl. induction Hl as [|x l Hx Hl IH]; simpl; constructor; [|exact IH].
  intros Hin. apply in_map_iff in Hin. destruct Hin as [y [E Hy]].
  apply Hg in E. subst. contradiction.
Qed.

Lemma NoDup_py_range (a b : Z) : NoDup (py_range a b).
Proof.
  unfold py_range. apply NoDup_map_injective; [intros x y; lia|apply seq_NoDup].
Qed.

Lemma NoDup_selected (v count : Z) : NoDup (selected v count).
Proof.
  unfold selected. destruct (v =? -1); [apply NoDup_py_range|].
  constructor; [intros []|constructor].
Qed.

Lemma NoDup_flat_map_pairs {A B W : Type} (g : A -> B -> W) (xs : list A) (ys : list B) :
  (forall x y x' y', g x y = g x' y' -> x = x' /\ y = y') ->
  NoDup xs -> NoDup ys ->
  NoDup (flat_map (fun x => map (g x) ys) xs).
Proof.
  intros Hg Hxs Hys. induction Hxs as [|x xs Hx Hxs IH]; simpl; [constructor|].
  apply NoDup_app.
  - apply NoDup_map_injective; [|exact Hys].
    intros y y' E. exact (proj2 (Hg _ _ _ _ E)).
  - exact IH.
  - intros w Hw Hw'. apply in_map_iff in Hw. destruct Hw as [y [<- _]].
    apply in_flat_map in Hw'. destruct Hw' as [x' [Hx' Hin]].
    apply in_map_iff in Hin. destruct Hin as [y' [E _]].
    apply Hg in E. destruct E as [-> _]. contradiction.
Qed.

Lemma map_fst_flat_map {A B W V : Type} (p : A -> B -> W) (q : A -> B -> V)
      (xs : list A) (ys : list B) :
  map fst (flat_map (fun x => map (fun y => (p x y, q x y)) ys) xs)
  = flat_map (fun x => map (p x) ys) xs.
Proof.
  induction xs as [|x xs IH]; simpl; [reflexivity|].
  rewrite map_app, map_map, IH. reflexivity.
Qed.

(** No two files of one run have the same name: in every run on a 3D or a
    4D volume, whatever the selectors, the paths written are pairwise
    distinct, so no file of the run overwrites another. *)
Theorem run_file_names_distinct (kw : kwargs) (self : med2image) (vol : ndarray) :
  med2image_nii_init kw = inr self ->
  nib_load_data (_str_inputFile self) = inr vol ->
  ndim vol = 3%nat \/ ndim vol = 4%nat ->
  NoDup (map fst (jobs_of (fst (med2image_nii_run self)))).
Proof.
  intros Hinit Hload Hdim. unfold ndim in Hdim.
  destruct (shape vol) as [|X [|Y [|Zn [|T [|T' rest]]]]] eqn:Hshape;
    simpl in Hdim; try (destruct Hdim; discriminate).
  - destruct (constructed_3D kw self vol X Y Zn Hinit Hload Hshape) as [H4 [Hv [Hf Hs]]].
    assert (Hn : nth_error (shape vol) 2 = Some Zn) by (rewrite Hshape; reflexivity).
    destruct (selector_value_typed _ _ 1 Hf) as [fv Hfv].
    destruct (selector_value_typed _ _ (Z.of_nat Zn) Hs) as [sv Hsv].
    destruct (run_3D_total self vol Zn fv sv H4 Hv Hn Hfv Hsv)
      as [[_ [self' E]]|[_ [_ E]]]; rewrite E; simpl fst.
    + rewrite jobs_of_slices, map_map. simpl.
      apply NoDup_map_injective; [apply output_file_3D_injective|apply NoDup_selected].
    + simpl. constructor.
  - destruct (constructed_4D kw self vol X Y Zn T Hinit Hload Hshape) as [H4 [Hv [Hf Hs]]].
    assert (HT : nth_error (shape vol) 3 = Some T) by (rewrite Hshape; reflexivity).
    destruct (selector_value_typed _ _ (Z.of_nat T) Hf) as [fv Hfv].
    destruct (selector_value_typed _ _ (Z.of_nat (nth 2 (shape vol) 0%nat)) Hs) as [sv Hsv].
    destruct (run_4D_traces self vol T fv sv H4 Hv HT Hfv Hsv) as [[self' E]|[E|E]];
      rewrite E; simpl fst.
    + rewrite jobs_of_flat_map.
      rewrite (flat_map_ext _ _ (jobs_of_frame self vol sv)).
      rewrite (map_fst_flat_map (output_file self)).
      apply NoDup_flat_map_pairs.
      * intros f i f' i'. apply output_file_injective, H4.
      * apply NoDup_selected.
      * apply NoDup_selected.
    + simpl. constructor.
    + simpl. constructor.
Qed.

(** * Beyond the selection: what a file holds *)

Local Open Scope nat_scope.

Lemma flat_index_bound (a b A B : nat) : a < A -> b < B -> a * B + b < A * B.
Proof. intros Ha Hb. nia. Qed.

Lemma take_axis_2_entry (vol : ndarray) (X Y Zn z x y : nat) :
  shape vol = [X; Y; Zn] ->
  x < X -> y < Y ->
  nth (x * Y + y) (data (take_axis 2 z vol)) v0 = get3 vol x y z.
Proof.
  intros Hshape Hx Hy. unfold take_axis, get3. rewrite Hshape. simpl.
  replace (x * Y + y) with ((x * Y + y) * 1 + 0) at 1 by lia.
  rewrite nth_tabulate2 by nia. f_equal. lia.
Qed.

Lemma take_axis_3_entry (vol : ndarray) (X Y Zn T f x y z : nat) :
  shape vol = [X; Y; Zn; T] ->
  x < X -> y < Y -> z < Zn ->
  get3 (take_axis 3 f vol) x y z = get4 vol x y z f.
Proof.
  intros Hshape Hx Hy Hz. unfold take_axis, get3, get4. rewrite Hshape. simpl.
  replace ((x * Y + y) * Zn + z) with (((x * Y + y) * Zn + z) * 1 + 0) at 1 by lia.
  pose proof (flat_index_bound _ _ _ _ (flat_index_bound x y X Y Hx Hy) Hz) as Hb.
  rewrite nth_tabulate2 by lia. f_equal. lia.
Qed.

Lemma rot90_array_entry (m : ndarray) (R C i j : nat) :
  shape m = [R; C] ->
  i < C -> j < R ->
  get2 (rot90_array m) i j = nth (j * C + (C - 1 - i)) (data m) v0.
Proof.
  intros Hshape Hi Hj. unfold get2, rot90_array. rewrite Hshape. simpl.
  replace (i * R + j) with ((i * R + j) * 1 + 0) by lia.
  rewrite nth_tabulate3 by lia. f_equal. lia.
Qed.

(** The image written for slice [z] of a 3D volume of shape (X, Y, Z) has
    shape (Y, X), its buffer has Y * X entries, and its entry (i, j) is the
    voxel (j, Y-1-i, z): the first axis of the volume runs along the rows of
    the image, the second runs up its columns. *)
Theorem written_image_3D (vol : ndarray) (X Y Zn z : nat) :
  shape vol = [X; Y; Zn] ->
  shape (rot90_array (take_axis 2 z vol)) = [Y; X]
  /\ well_formed (rot90_array (take_axis 2 z vol))
  /\ forall i j, i < Y -> j < X ->
       get2 (rot90_array (take_axis 2 z vol)) i j = get3 vol j (Y - 1 - i) z.
Proof.
  intros Hshape.
  assert (Hs : shape (take_axis 2 z vol) = [X; Y])
    by (unfold take_axis; rewrite Hshape; reflexivity).
  split; [exact (shape_rot90_array _ X Y [] Hs)|].
  split; [exact (well_formed_rot90_array _ X Y [] Hs)|].
  intros i j Hi Hj. rewrite (rot90_array_entry _ X Y i j Hs Hi Hj).
  apply (take_axis_2_entry vol X Y Zn z j (Y - 1 - i) Hshape); lia.
Qed.

(** The image written for slice [z] of frame [f] of a 4D volume of shape
    (X, Y, Z, T) has shape (Y, X) and its entry (i, j) is the voxel
    (j, Y-1-i, z, f). *)
Theorem written_image_4D (vol : ndarray) (X Y Zn T f z : nat) :
  shape vol = [X; Y; Zn; T] ->
  z < Zn ->
  shape (rot90_array (take_axis 2 z (take_axis 3 f vol))) = [Y; X]
  /\ well_formed (rot90_array (take_axis 2 z (take_axis 3 f vol)))
  /\ forall i j, i < Y -> j < X ->
       get2 (rot90_array (take_axis 2 z (take_axis 3 f vol))) i j
       = get4 vol j (Y - 1 - i) z f.
Proof.
  intros Hshape Hz.
  assert (H3 : shape (take_axis 3 f vol) = [X; Y; Zn])
    by (unfold take_axis; rewrite Hshape; reflexivity).
  assert (Hs : shape (take_axis 2 z (take_axis 3 f vol)) = [X; Y])
    by (unfold take_axis at 1; rewrite H3; reflexivity).
  split; [exact (shape_rot90_array _ X Y [] Hs)|].
  split; [exact (well_formed_rot90_array _ X Y [] Hs)|].
  intros i j Hi Hj. rewrite (rot90_array_entry _ X Y i j Hs Hi Hj).
  rewrite (take_axis_2_entry _ X Y Zn z j (Y - 1 - i) H3) by lia.
  apply (take_axis_3_entry vol X Y Zn T f j (Y - 1 - i) z Hshape); lia.
Qed.

Local Close Scope nat_scope.

(** ** Negative explicit indices *)

(** C10. On a 3D volume of shape (X, Y, Z), an explicit slice selector [i]
    with [-Z <= i <= -2] does not fail: [run] writes exactly one file, whose
    name carries [i] itself, sign included ("{stem}-slice-02.{type}" for
    [i = -2]), and whose image is the rotated slice [Z + i] of the volume:
    it has shape (Y, X) and its entry (a, b) is the voxel (b, Y-1-a, Z+i). *)
Theorem run_3D_negative_slice (kw : kwargs) (self : med2image) (vol : ndarray)
        (X Y Zn : nat) (i : Z) :
  med2image_nii_init kw = inr self ->
  nib_load_data (_str_inputFile self) = inr vol ->
  shape vol = [X; Y; Zn] ->
  _sliceToConvert self = PyInt i ->
  - Z.of_nat Zn <= i <= -2 ->
  exists (self' : med2image) (img : ndarray),
    med2image_nii_run self
    = ([Mkdir (_str_outputDir self);
        Imsave (_str_outputDir self ++ "/" ++ _str_outputFileStem self
                  ++ "-slice" ++ PyStr.fmt_03d i
                  ++ "." ++ _str_outputFileType self)%string
               img],
       inr self')
    /\ PyStr.fmt_03d i = String "-"%char (PyStr.zfill 2 (PyStr.digits (- i)))
    /\ img = rot90_array (take_axis 2 (Z.to_nat (Z.of_nat Zn + i)) vol)
    /\ (Z.to_nat (Z.of_nat Zn + i) < Zn)%nat
    /\ shape img = [Y; X]
    /\ well_formed img
    /\ forall a b : nat, (a < Y)%nat -> (b < X)%nat ->
         get2 img a b = get3 vol b (Y - 1 - a) (Z.to_nat (Z.of_nat Zn + i)).
Proof.
  intros Hinit Hload Hshape Hsel Hi.
  destruct (constructed_3D kw self vol X Y Zn Hinit Hload Hshape) as [H4 [Hv [Hf Hs]]].
  assert (Hn : nth_error (shape vol) 2 = Some Zn) by (rewrite Hshape; reflexivity).
  destruct (selector_value_typed _ _ 1 Hf) as [fv Hfv].
  rewrite Hsel in Hs.
  assert (Hsv : selector_value (_b_convertMiddleSlice self) (_sliceToConvert self)
                  (Z.of_nat Zn) = Some i)
    by (rewrite Hsel; apply selector_value_int, Hs).
  assert (Hone : selected i (Z.of_nat Zn) = [i]).
  { unfold selected. destruct (Z.eqb_spec i (-1)); [lia|reflexivity]. }
  destruct (run_3D_ok self vol Zn fv i H4 Hv Hn Hfv Hsv) as [self' Hrun].
  { rewrite Hone. constructor; [unfold valid_index; lia|constructor]. }
  set (z := Z.to_nat (Z.of_nat Zn + i)).
  assert (Hslice : shape (take_axis 2 z vol) = [X; Y])
    by (unfold take_axis; rewrite Hshape; reflexivity).
  exists self', (rot90_array (take_axis 2 z vol)).
  split; [|split; [|split; [reflexivity|split; [|split; [|split]]]]].
  - rewrite Hrun, Hone. simpl map. unfold slice_image, wrap_index.
    rewrite (nth_of_nth_error _ _ _ Hn).
    replace (i <? 0) with true by (symmetry; apply Z.ltb_lt; lia).
    rewrite (Z.add_comm i). reflexivity.
  - unfold PyStr.fmt_03d.
    replace (i <? 0) with true by (symmetry; apply Z.ltb_lt; lia).
    reflexivity.
  - unfold z. lia.
  - exact (shape_rot90_array _ X Y [] Hslice).
  - exact (well_formed_rot90_array _ X Y [] Hslice).
  - intros a b Ha Hb. rewrite (rot90_array_entry _ X Y a b Hslice Ha Hb).
    apply (take_axis_2_entry vol X Y Zn z b (Y - 1 - a) Hshape); lia.
Qed.

(** * Beyond the selection: running twice *)

Lemma selector_value_resolved (m : bool) (sel : pyval) (count v : Z) :
  selector_value m sel count = Some v ->
  selector_value m (PyInt v) count = Some v.
Proof.
  unfold selector_value. destruct m; [auto|]. destruct sel; congruence.
Qed.

(** the object a completed run on a 3D volume returns: the selectors are
    resolved, the last image is kept, the rest is as before *)
Lemma run_3D_state (self : med2image) (vol : ndarray) (n : nat) (fv v : Z) :
  _b_4D self = false ->
  _Vnp_3DVol self = Some vol ->
  nth_error (shape vol) 2 = Some n ->
  selector_value (_b_convertMiddleFrame self) (_frameToConvert self) 1 = Some fv ->
  selector_value (_b_convertMiddleSlice self) (_sliceToConvert self) (Z.of_nat n) = Some v ->
  Forall (fun i => valid_index i n) (selected v (Z.of_nat n)) ->
  exists o,
    med2image_nii_run self
    = (Mkdir (_str_outputDir self)
         :: map (fun i => Imsave (output_file_3D self i) (slice_image vol i))
                (selected v (Z.of_nat n)),
       inr (with_2Dslice o
              (set_sliceToConvert (PyInt v) (set_frameToConvert (PyInt fv) self)))).
Proof.
  intros H3 Hv Hn Hf Hs Hall.
  rewrite (run_frames self 1 fv); [|rewrite H3; reflexivity|exact Hf].
  destruct (selected_of_one fv) as [f ->]. simpl for_each.
  unfold frame_body, load_frame. simpl fst. simpl snd. simpl _b_4D.
  rewrite H3, bind_ret.
  destruct (convert_slices_ok f (set_frameToConvert (PyInt fv) self) (0, 0) vol n v
              Hv Hn Hs (fun _ => eq_refl) Hall) as [o [b [E _]]].
  rewrite E, bind_ok. unfold ret. simpl fst. simpl snd. rewrite bind_ok.
  simpl. rewrite !app_nil_r.
  exists o. f_equal. f_equal. apply map_ext. intros i.
  rewrite (output_file_3D_eq self fv f i H3). reflexivity.
Qed.

Lemma frame_body_keeps (self0 : med2image) (vol4 : ndarray) (T : nat) (v f : Z)
      (self : med2image) (bounds : Z * Z) :
  nth_error (shape vol4) 3 = Some T ->
  Forall (fun i => valid_index i (nth 2 (shape vol4) 0%nat))
         (selected v (Z.of_nat (nth 2 (shape vol4) 0%nat))) ->
  valid_index f T ->
  frame_inv self0 vol4 v self ->
  (v = -1 -> fst bounds = 0) ->
  exists self' bounds',
    frame_body f (self, bounds) = (frame_events self0 vol4 v f, inr (self', bounds'))
    /\ frame_inv self0 vol4 v self'
    /\ (v = -1 -> fst bounds' = 0)
    /\ _frameToConvert self' = _frameToConvert self
    /\ _b_convertMiddleFrame self' = _b_convertMiddleFrame self.
Proof.
  intros HT Hall Hf [H4 [Hv [Hs [Hd Ho]]]] Hb.
  unfold frame_body. simpl fst. simpl snd.
  rewrite (load_frame_ok f self vol4 T H4 Hv HT Hf), bind_ret.
  set (vol := take_axis 3 (wrap_index f T) vol4).
  destruct (convert_slices_ok f (set_3DVol vol self) bounds vol _ v
              eq_refl (shape_of_frame vol4 T _ HT) Hs Hb Hall)
    as [o [bounds' [E Hb']]].
  exists (with_2Dslice o (set_sliceToConvert (PyInt v) (set_3DVol vol self))), bounds'.
  split; [|split; [|split; [exact Hb'|split; reflexivity]]].
  - rewrite E. unfold frame_events. rewrite (nth_of_nth_error _ _ _ HT).
    fold vol. simpl _str_outputDir. rewrite Hd. do 2 f_equal.
    apply map_ext. intros i. f_equal. apply (Ho f i).
  - unfold frame_inv. simpl. repeat split; auto.
    unfold selector_value in *. destruct (_b_convertMiddleSlice self); auto.
Qed.

Lemma frame_loop_keeps (self0 : med2image) (vol4 : ndarray) (T : nat) (v : Z)
      (frames : list Z) :
  nth_error (shape vol4) 3 = Some T ->
  (frames = []
   \/ Forall (fun i => valid_index i (nth 2 (shape vol4) 0%nat))
             (selected v (Z.of_nat (nth 2 (shape vol4) 0%nat)))) ->
  Forall (fun f => valid_index f T) frames ->
  forall self bounds,
    frame_inv self0 vol4 v self ->
    (v = -1 -> fst bounds = 0) ->
    exists self' bounds',
      for_each frames frame_body (self, bounds)
      = (flat_map (frame_events self0 vol4 v) frames, inr (self', bounds'))
      /\ frame_inv self0 vol4 v self'
      /\ _frameToConvert self' = _frameToConvert self
      /\ _b_convertMiddleFrame self' = _b_convertMiddleFrame self.
Proof.
  intros HT Hall Hfs. induction Hfs as [|f frames Hf Hfs IH]; intros self bounds Hinv Hb.
  - exists self, bounds.
    split; [reflexivity|]. split; [exact Hinv|]. split; reflexivity.
  - destruct Hall as [Habs|Hall]; [discriminate|].
    simpl for_each.
    destruct (frame_body_keeps self0 vol4 T v f self bounds HT Hall Hf Hinv Hb)
      as [self1 [bounds1 [E [Hinv1 [Hb1 [Hk1 Hk2]]]]]].
    rewrite E, bind_ok.
    destruct (IH (or_intror Hall) self1 bounds1 Hinv1 Hb1)
      as [self' [bounds' [E' [Hinv' [Hk1' Hk2']]]]].
    rewrite E'. exists self', bounds'.
    split; [reflexivity|]. split; [exact Hinv'|]. split; congruence.
Qed.

(** the object a completed run on a 4D volume returns *)
Lemma run_4D_state (self : med2image) (vol4 : ndarray) (T : nat) (fv v : Z) :
  _b_4D self = true ->
  _Vnp_4DVol self = Some vol4 ->
  nth_error (shape vol4) 3 = Some T ->
  selector_value (_b_convertMiddleFrame self) (_frameToConvert self) (Z.of_nat T) = Some fv ->
  selector_value (_b_convertMiddleSlice self) (_sliceToConvert self)
    (Z.of_nat (nth 2 (shape vol4) 0%nat)) = Some v ->
  Forall (fun f => valid_index f T) (selected fv (Z.of_nat T)) ->
  (selected fv (Z.of_nat T) = []
   \/ Forall (fun i => valid_index i (nth 2 (shape vol4) 0%nat))
             (selected v (Z.of_nat (nth 2 (shape vol4) 0%nat)))) ->
  exists self',
    med2image_nii_run self
    = (flat_map (frame_events self vol4 v) (selected fv (Z.of_nat T)), inr self')
    /\ frame_inv self vol4 v self'
    /\ _frameToConvert self' = PyInt fv
    /\ _b_convertMiddleFrame self' = _b_convertMiddleFrame self.
Proof.
  intros H4 Hv HT Hf Hs Hfs Hall.
  rewrite (run_frames self _ fv (frames_of_4D self vol4 T H4 Hv HT) Hf).
  destruct (frame_loop_keeps self vol4 T v _ HT Hall Hfs
              (set_frameToConvert (PyInt fv) self) (0, 0))
    as [self' [bounds' [E [Hinv [Hk1 Hk2]]]]].
  - unfold frame_inv. simpl. repeat split; auto.
  - reflexivity.
  - rewrite E, bind_ok. simpl. rewrite app_nil_r. exists self'.
    split; [reflexivity|]. split; [|split; assumption].
    destruct Hinv as [I1 [I2 [I3 [I4 I5]]]]. unfold frame_inv. auto.
Qed.

Lemma frame_events_inv (self0 self : med2image) (vol4 : ndarray) (v f : Z) :
  frame_inv self0 vol4 v self ->
  frame_events self vol4 v f = frame_events self0 vol4 v f.
Proof.
  intros [_ [_ [_ [Hd Ho]]]]. unfold frame_events. rewrite Hd. f_equal.
  apply map_ext. intros i. rewrite Ho. reflexivity.
Qed.

(** [run] can be repeated: on the object a completed run returns, with the
    selectors it has resolved and the last image it has kept, a second run
    completes too and sends out the same calls as the first, in the same
    order. *)
Theorem run_again (kw : kwargs) (self self' : med2image) (vol : ndarray)
        (tr : list event) :
  med2image_nii_init kw = inr self ->
  nib_load_data (_str_inputFile self) = inr vol ->
  ndim vol = 3%nat \/ ndim vol = 4%nat ->
  med2image_nii_run self = (tr, inr self') ->
  exists self'', med2image_nii_run self' = (tr, inr self'').
Proof.
  intros Hinit Hload Hdim Hrun. unfold ndim in Hdim.
  destruct (shape vol) as [|X [|Y [|Zn [|T [|T' rest]]]]] eqn:Hshape;
    simpl in Hdim; try (destruct Hdim; discriminate).
  - destruct (constructed_3D kw self vol X Y Zn Hinit Hload Hshape) as [H4 [Hv [Hf Hs]]].
    assert (Hn : nth_error (shape vol) 2 = Some Zn) by (rewrite Hshape; reflexivity).
    destruct (selector_value_typed _ _ 1 Hf) as [fv Hfv].
    destruct (selector_value_typed _ _ (Z.of_nat Zn) Hs) as [sv Hsv].
    destruct (selected_valid_or_not sv Zn) as [Hall|[Hne Hbad]].
    + destruct (run_3D_state self vol Zn fv sv H4 Hv Hn Hfv Hsv Hall) as [o E].
      rewrite E in Hrun. inversion Hrun; subst tr self'. clear Hrun.
      destruct (run_3D_state
                  (with_2Dslice o
                     (set_sliceToConvert (PyInt sv) (set_frameToConvert (PyInt fv) self)))
                  vol Zn fv sv H4 Hv Hn
                  (selector_value_resolved _ _ _ _ Hfv)
                  (selector_value_resolved _ _ _ _ Hsv) Hall) as [o' E'].
      eexists. exact E'.
    + rewrite (run_3D_invalid self vol Zn fv sv H4 Hv Hn Hfv Hsv Hne Hbad) in Hrun.
      discriminate.
  - destruct (constructed_4D kw self vol X Y Zn T Hinit Hload Hshape) as [H4 [Hv [Hf Hs]]].
    assert (HT : nth_error (shape vol) 3 = Some T) by (rewrite Hshape; reflexivity).
    destruct (selector_value_typed _ _ (Z.of_nat T) Hf) as [fv Hfv].
    destruct (selector_value_typed _ _ (Z.of_nat (nth 2 (shape vol) 0%nat)) Hs) as [sv Hsv].
    destruct (run_4D_total self vol T fv sv H4 Hv HT Hfv Hsv)
      as [[Hfs [Hdisj _]]|[tr' [E _]]]; [|rewrite E in Hrun; discriminate].
    destruct (run_4D_state self vol T fv sv H4 Hv HT Hfv Hsv Hfs Hdisj)
      as [s1 [E [Hinv [Hk1 Hk2]]]].
    rewrite E in Hrun. inversion Hrun; subst tr self'. clear Hrun.
    pose proof Hinv as [H4' [Hv' [Hs' _]]].
    assert (Hfv' : selector_value (_b_convertMiddleFrame s1) (_frameToConvert s1)
                     (Z.of_nat T) = Some fv)
      by (rewrite Hk1, Hk2; exact (selector_value_resolved _ _ _ _ Hfv)).
    destruct (run_4D_state s1 vol T fv sv H4' Hv' HT Hfv' Hs' Hfs Hdisj)
      as [s2 [E2 _]].
    exists s2. rewrite E2. f_equal. apply flat_map_ext. intros f.
    apply frame_events_inv. exact Hinv.
Qed.

(** * Beyond the selection: from the command line *)




End Med2Image.

Arguments mk_ndarray {voxel} shape data.
Arguments shape {voxel} n.
Arguments data {voxel} n.
Arguments well_formed {voxel} a.
Arguments take_axis {voxel} v0 k j a.
Arguments rot90_array {voxel} v0 m.
Arguments np_rot90 {voxel} v0 m.
Arguments rot90_times {voxel} v0 k m.
Arguments get2 {voxel} v0 m i j.
Arguments Mkdir {voxel} dir.
Arguments Imsave {voxel} path img.
Arguments jobs_of {voxel} t.
Arguments outcome {voxel A} m.
Arguments _str_inputFile {voxel} m.
Arguments _str_outputFileStem {voxel} m.
Arguments _str_outputFileType {voxel} m.
Arguments _str_outputDir {voxel} m.
Arguments _sliceToConvert {voxel} m.
Arguments _frameToConvert {voxel} m.
Arguments _b_convertMiddleSlice {voxel} m.
Arguments _b_convertMiddleFrame {voxel} m.
Arguments med2image_init {voxel} kw.
Arguments med2image_nii_init {voxel} nib_load_data kw.
Arguments med2image_nii_run {voxel} v0 self.
Arguments main {voxel} v0 nib_load_data args.

Local Open Scope string_scope.

(** * Concrete runs *)

(** ** The builtins *)

Example lower_M : PyStr.lower "M" = "m"%string.
Proof. reflexivity. Qed.

Example to_int_minus_one : PyStr.to_int "-1" = inr (-1).
Proof. reflexivity. Qed.

Example to_int_padded : PyStr.to_int " 12 " = inr 12.
Proof. reflexivity. Qed.

Example to_int_junk : PyStr.to_int "1x" = inl ValueError.
Proof. reflexivity. Qed.

Example fmt_03d_7 : PyStr.fmt_03d 7 = "007"%string.
Proof. reflexivity. Qed.

Example fmt_03d_1234 : PyStr.fmt_03d 1234 = "1234"%string.
Proof. reflexivity. Qed.

Example fmt_03d_neg : PyStr.fmt_03d (-2) = "-02"%string.
Proof. reflexivity. Qed.

Example splitext_jpg : PyStr.splitext "out.jpg" = ("out", ".jpg")%string.
Proof. reflexivity. Qed.

Example splitext_none : PyStr.splitext "out" = ("out"%string, EmptyString).
Proof. reflexivity. Qed.

Example splitext_hidden : PyStr.splitext "dir.d/.rc" = ("dir.d/.rc"%string, EmptyString).
Proof. reflexivity. Qed.

Example splitext_gz : PyStr.splitext "scan.nii.gz" = ("scan.nii", ".gz")%string.
Proof. reflexivity. Qed.

Example rot90_2x3 :
  rot90_array 0%nat (mk_ndarray [2; 3]%nat [1; 2; 3; 4; 5; 6]%nat)
  = mk_ndarray [3; 2]%nat [3; 6; 2; 5; 1; 4]%nat.
Proof. reflexivity. Qed.

Example slice_of_2x2x3 :
  take_axis 0%nat 2 1 (mk_ndarray [2; 2; 3]%nat (seq 0 12))
  = mk_ndarray [2; 2]%nat [1; 4; 7; 10]%nat.
Proof. reflexivity. Qed.

(** The end-to-end example of the specification: a volume of shape (4, 4, 3)
    and the slice selector 1 give one file, "vol-slice001..png": the
    default type keeps its dot. *)
Example run_4x4x3_slice_1 :
  let vol := mk_ndarray [4; 4; 3]%nat (seq 0 48) in
  let kw := mk_kwargs (Some "in.nii") (Some "d") (Some "vol") None
                      (Some (PyStr "1")) (Some (PyStr "-1")) None in
  exists self,
    med2image_nii_init (fun _ => inr vol) kw = inr self
    /\ outcome (med2image_nii_run 0%nat self) = None
    /\ jobs_of (fst (med2image_nii_run 0%nat self))
       = [("d/vol-slice001..png"%string,
           rot90_array 0%nat (take_axis 0%nat 2 1 vol))].
Proof.
  intros vol kw. eexists. split; [reflexivity|]. split; reflexivity.
Qed.

(** ** The output type and the file names it gives *)

(** C6, at the inputs it names.  With the stem "out.jpg" and no explicit
    type the constructor resolves the type to ".jpg", dot included, and the
    file of slice 0 is "out.jpg-slice000..jpg"; with the explicit type "png"
    the type is "png" and the file is "out.jpg-slice000.png": the stem keeps
    its extension.  With neither, the type is ".png" and the file is
    "out-slice000..png". *)
Theorem outputFileType_at_out_jpg :
  let vol := mk_ndarray [1; 1; 1]%nat [7%nat] in
  let kw stem type :=
    mk_kwargs (Some "in.nii") (Some "d") (Some stem) type
              (Some (PyStr "-1")) (Some (PyStr "-1")) None in
  (exists self,
      med2image_nii_init (fun _ => inr vol) (kw "out.jpg" None) = inr self
      /\ _str_outputFileType self = ".jpg"
      /\ map fst (jobs_of (fst (med2image_nii_run 0%nat self)))
         = ["d/out.jpg-slice000..jpg"])
  /\ (exists self,
         med2image_nii_init (fun _ => inr vol) (kw "out.jpg" (Some "png")) = inr self
         /\ _str_outputFileType self = "png"
         /\ map fst (jobs_of (fst (med2image_nii_run 0%nat self)))
            = ["d/out.jpg-slice000.png"])
  /\ (exists self,
         med2image_nii_init (fun _ => inr vol) (kw "out" None) = inr self
         /\ _str_outputFileType self = ".png"
         /\ map fst (jobs_of (fst (med2image_nii_run 0%nat self)))
            = ["d/out-slice000..png"]).
Proof.
  intros vol kw. repeat split; eexists; (split; [reflexivity|]); split; reflexivity.
Qed.

(** From the command line the output type is never empty: the default of
    [--outputFileType] is the string "none", which the constructor keeps, so
    the extension of the stem is not looked at. *)
Example main_default_type :
  let vol := mk_ndarray [1; 1; 1]%nat [7%nat] in
  map fst (jobs_of (fst (main 0%nat (fun _ => inr vol)
                           {| inputFile := "in.nii";
                              outputFileStem := "out.jpg";
                              outputDir := "./";
                              outputFileType := "none";
                              sliceToConvert := "-1";
                              frameToConvert := "-1";
                              printElapsedTime := false;
                              showSlices := false;
                              man := false;
                              synopsis := false |})))
  = [".//out.jpg-slice000.none"].
Proof. reflexivity. Qed.

(** ** An input that is not NIfTI *)

(** C7, at a DICOM file.  The generic class is built without a frame
    selector, so its constructor calls [lower] on the [int] default and
    raises [AttributeError]; [run] is never reached. *)
Theorem main_on_dicom_file :
  forall (nib_load_data : string -> pyexn + ndarray nat),
    main 0%nat nib_load_data
         {| inputFile := "scan.dcm";
            outputFileStem := "out";
            outputDir := "./";
            outputFileType := "none";
            sliceToConvert := "-1";
            frameToConvert := "-1";
            printElapsedTime := false;
            showSlices := false;
            man := false;
            synopsis := false |}
    = ([], inl AttributeError).
Proof. intros nib_load_data. reflexivity. Qed.

(** ** Instances of the theorems *)

Lemma run_3D_all_slices_witness :
  let vol := mk_ndarray [2; 2; 3]%nat (seq 0 12) in
  let kw := mk_kwargs (Some "in.nii") (Some "d") (Some "vol") (Some "png")
                      (Some (PyStr "-1")) (Some (PyStr "m")) None in
  exists self,
    med2image_nii_init (fun _ => inr vol) kw = inr self
    /\ exists tr self',
        med2image_nii_run 0%nat self = (tr, inr self')
        /\ map fst (jobs_of tr)
           = ["d/vol-slice000.png"; "d/vol-slice001.png"; "d/vol-slice002.png"]
        /\ List.length (jobs_of tr) = 3%nat.
Proof.
  intros vol kw. eexists. split; [reflexivity|].
  destruct (run_3D_all_slices nat 0%nat (fun _ => inr vol) kw _ vol 2 2 3
              eq_refl eq_refl eq_refl eq_refl) as [tr [self' [Hrun [Hjobs Hlen]]]].
  exists tr, self'. split; [exact Hrun|]. split; [|exact Hlen].
  rewrite Hjobs. reflexivity.
Defined.

Lemma run_4D_all_frames_all_slices_witness :
  let vol := mk_ndarray [2; 2; 3; 2]%nat (seq 0 24) in
  let kw := mk_kwargs (Some "in.nii") (Some "d") (Some "vol") (Some "png")
                      (Some (PyStr "-1")) (Some (PyStr "-1")) None in
  exists self,
    med2image_nii_init (fun _ => inr vol) kw = inr self
    /\ exists tr self',
        med2image_nii_run 0%nat self = (tr, inr self')
        /\ map fst (jobs_of tr)
           = ["d/vol-frame000-slice000.png"; "d/vol-frame000-slice001.png";
              "d/vol-frame000-slice002.png"; "d/vol-frame001-slice000.png";
              "d/vol-frame001-slice001.png"; "d/vol-frame001-slice002.png"]
        /\ List.length (jobs_of tr) = 6%nat.
Proof.
  intros vol kw. eexists. split; [reflexivity|].
  destruct (run_4D_all_frames_all_slices nat 0%nat (fun _ => inr vol) kw _ vol 2 2 3 2
              eq_refl eq_refl eq_refl eq_refl eq_refl)
    as [tr [self' [Hrun [Hjobs Hlen]]]].
  exists tr, self'. split; [exact Hrun|]. split; [|exact Hlen].
  rewrite Hjobs. reflexivity.
Defined.


Lemma run_3D_negative_slice_witness :
  let vol := mk_ndarray [2; 2; 3]%nat (seq 0 12) in
  let kw := mk_kwargs (Some "in.nii") (Some "d") (Some "vol") (Some "png")
                      (Some (PyStr "-2")) (Some (PyStr "-1")) None in
  exists self,
    med2image_nii_init (fun _ => inr vol) kw = inr self
    /\ - 3 <= -2 <= -2
    /\ exists self',
        med2image_nii_run 0%nat self
        = ([Mkdir "d";
            Imsave "d/vol-slice-02.png" (mk_ndarray [2; 2]%nat [4; 10; 1; 7]%nat)],
           inr self')
        /\ PyStr.fmt_03d (-2) = "-02"
        /\ @get3 nat 0%nat vol 0 1 1 = 4%nat /\ @get3 nat 0%nat vol 1 1 1 = 10%nat
        /\ @get3 nat 0%nat vol 0 0 1 = 1%nat /\ @get3 nat 0%nat vol 1 0 1 = 7%nat.
Proof.
  intros vol kw. eexists. split; [reflexivity|].
  assert (Hi : - Z.of_nat 3 <= -2 <= -2) by (simpl; lia).
  split; [lia|].
  destruct (run_3D_negative_slice nat 0%nat (fun _ => inr vol) kw _ vol 2 2 3 (-2)
              eq_refl eq_refl eq_refl eq_refl Hi)
    as [self' [img [Hrun [Hfmt [Himg _]]]]].
  exists self'. split; [|split; [exact Hfmt|repeat split]].
  refine (eq_trans Hrun _). rewrite Himg. reflexivity.
Defined.

Lemma rot90_quarter_turn_witness :
  let m := mk_ndarray [2; 3]%nat [1; 2; 3; 4; 5; 6]%nat in
  well_formed m
  /\ exists m1,
      np_rot90 0%nat m = inr m1
      /\ shape m1 = [3; 2]%nat
      /\ well_formed m1
      /\ (forall i j, (i < 3)%nat -> (j < 2)%nat ->
                      get2 0%nat m1 i j = get2 0%nat m j (3 - 1 - i))
      /\ rot90_times 0%nat 4 m = inr m.
Proof.
  intros m. split; [reflexivity|].
  exact (rot90_quarter_turn nat 0%nat m 2 3 eq_refl eq_refl).
Defined.

Lemma explicit_index_out_of_range_witness :
  let vol := mk_ndarray [2; 2; 3]%nat (seq 0 12) in
  let kw := mk_kwargs (Some "in.nii") (Some "d") (Some "vol") (Some "png")
                      (Some (PyStr "3")) (Some (PyStr "-1")) None in
  exists self,
    med2image_nii_init (fun _ => inr vol) kw = inr self
    /\ _sliceToConvert self = PyInt 3
    /\ outcome (med2image_nii_run 0%nat self) = Some IndexError
    /\ jobs_of (fst (med2image_nii_run 0%nat self)) = [].
Proof.
  intros vol kw. eexists. split; [reflexivity|]. split; [reflexivity|].
  assert (Hne : 3 <> -1) by lia.
  assert (Hout : 3 < - Z.of_nat 3 \/ Z.of_nat 3 <= 3) by (right; simpl; lia).
  exact (explicit_index_out_of_range nat 0%nat (fun _ => inr vol) kw _ vol 2 2 3 [] 3
           eq_refl eq_refl eq_refl (or_introl eq_refl) Hne
           (or_introl (conj eq_refl Hout))).
Defined.

Lemma job_count_of_run_witness :
  let vol := mk_ndarray [2; 2; 3; 2]%nat (seq 0 24) in
  let kw := mk_kwargs (Some "in.nii") (Some "d") (Some "vol") (Some "png")
                      (Some (PyStr "-1")) (Some (PyStr "m")) None in
  exists self,
    med2image_nii_init (fun _ => inr vol) kw = inr self
    /\ outcome (med2image_nii_run 0%nat self) = None
    /\ List.length (jobs_of (fst (med2image_nii_run 0%nat self)))
       = (List.length (selected 1 2) * List.length (selected (-1) 3))%nat.
Proof.
  intros vol kw. eexists. split; [reflexivity|]. split; [reflexivity|].
  assert (Hrest : (List.length [2%nat] <= 1)%nat) by (simpl; lia).
  destruct (job_count_of_run nat 0%nat (fun _ => inr vol) kw _ vol 2 2 3 [2%nat]
              eq_refl eq_refl eq_refl Hrest)
    as [fv [sv [Hfv [Hsv [Hcount _]]]]].
  injection Hfv as Hfv. injection Hsv as Hsv. subst fv sv.
  exact (Hcount eq_refl).
Defined.

Lemma frame_selector_ignored_3D_witness :
  let vol := mk_ndarray [2; 2; 3]%nat (seq 0 12) in
  let kw := mk_kwargs (Some "in.nii") (Some "d") (Some "vol") (Some "png")
                      (Some (PyStr "-1")) None None in
  exists self1 self2,
    med2image_nii_init (fun _ => inr vol)
      (with_frameToConvert (Some (PyStr "m")) kw) = inr self1
    /\ med2image_nii_init (fun _ => inr vol)
         (with_frameToConvert (Some (PyStr "7")) kw) = inr self2
    /\ fst (med2image_nii_run 0%nat self1) = fst (med2image_nii_run 0%nat self2)
    /\ outcome (med2image_nii_run 0%nat self1) = outcome (med2image_nii_run 0%nat self2).
Proof.
  intros vol kw. eexists. eexists. split; [reflexivity|]. split; [reflexivity|].
  exact (frame_selector_ignored_3D nat 0%nat (fun _ => inr vol) kw
           (Some (PyStr "m")) (Some (PyStr "7")) _ _ vol 2 2 3
           eq_refl eq_refl eq_refl eq_refl).
Defined.

(** ** Where the specification and the code part *)

(** C4 as stated fails: the slice index -2 is outside [0, 3), yet the run on
    a volume with three slices completes and writes the slice at index 1. *)
Lemma negative_slice_index_is_accepted :
  let vol := mk_ndarray [2; 2; 3]%nat (seq 0 12) in
  let kw := mk_kwargs (Some "in.nii") (Some "d") (Some "vol") (Some "png")
                      (Some (PyStr "-2")) (Some (PyStr "-1")) None in
  exists self,
    med2image_nii_init (fun _ => inr vol) kw = inr self
    /\ _sliceToConvert self = PyInt (-2)
    /\ ~ (0 <= -2 < 3)
    /\ outcome (med2image_nii_run 0%nat self) = None
    /\ jobs_of (fst (med2image_nii_run 0%nat self))
       = [("d/vol-slice-02.png", rot90_array 0%nat (take_axis 0%nat 2 1 vol))].
Proof.
  intros vol kw. eexists. split; [reflexivity|]. split; [reflexivity|].
  split; [lia|]. split; reflexivity.
Qed.

(** C5 as stated fails: with the slice index 5 on three slices the frame
    range and the slice range have one element each, and the run stops on
    [IndexError] with no file written. *)
Lemma failed_run_writes_fewer_files :
  let vol := mk_ndarray [2; 2; 3]%nat (seq 0 12) in
  let kw := mk_kwargs (Some "in.nii") (Some "d") (Some "vol") (Some "png")
                      (Some (PyStr "5")) (Some (PyStr "-1")) None in
  exists self,
    med2image_nii_init (fun _ => inr vol) kw = inr self
    /\ selector_value (_b_convertMiddleFrame self) (_frameToConvert self) 1 = Some (-1)
    /\ selector_value (_b_convertMiddleSlice self) (_sliceToConvert self) 3 = Some 5
    /\ (List.length (selected (-1) 1) * List.length (selected 5 3))%nat = 1%nat
    /\ List.length (jobs_of (fst (med2image_nii_run 0%nat self))) = 0%nat
    /\ outcome (med2image_nii_run 0%nat self) = Some IndexError.
Proof.
  intros vol kw. eexists. split; [reflexivity|]. repeat split; reflexivity.
Qed.

Arguments ndim {voxel} a.
Arguments writes_after_mkdir {voxel} dir made t.
Arguments get3 {voxel} v0 vol x y z.
Arguments get4 {voxel} v0 vol x y z f.

(** ** Instances of the further theorems *)


Lemma run_unsupported_ndim_witness :
  let vol := mk_ndarray [2; 3]%nat [1; 2; 3; 4; 5; 6]%nat in
  let kw := mk_kwargs (Some "in.nii") (Some "d") (Some "vol") (Some "png")
                      (Some (PyStr "-1")) (Some (PyStr "-1")) None in
  exists self,
    med2image_nii_init (fun _ => inr vol) kw = inr self
    /\ _b_3D nat self = false
    /\ _b_4D nat self = false
    /\ med2image_nii_run 0%nat self = ([], inl AttributeError).
Proof.
  intros vol kw. eexists. split; [reflexivity|].
  assert (H3 : ndim vol <> 3%nat) by discriminate.
  assert (H4 : ndim vol <> 4%nat) by discriminate.
  exact (run_unsupported_ndim nat 0%nat (fun _ => inr vol) kw _ vol
           eq_refl eq_refl H3 H4).
Defined.

Lemma run_3D_selected_witness :
  let vol := mk_ndarray [2; 2; 3]%nat (seq 0 12) in
  let kw := mk_kwargs (Some "in.nii") (Some "d") (Some "vol") (Some "png")
                      (Some (PyStr "2")) (Some (PyStr "-1")) None in
  exists self,
    med2image_nii_init (fun _ => inr vol) kw = inr self
    /\ exists tr self',
        med2image_nii_run 0%nat self = (tr, inr self')
        /\ jobs_of tr
           = [("d/vol-slice002.png", rot90_array 0%nat (take_axis 0%nat 2 2 vol))].
Proof.
  intros vol kw. eexists. split; [reflexivity|].
  assert (Hall : Forall (fun i => valid_index i 3) (selected 2 (Z.of_nat 3))).
  { constructor; [unfold valid_index; simpl; lia|constructor]. }
  exact (run_3D_selected nat 0%nat (fun _ => inr vol) kw _ vol 2 2 3 2
           eq_refl eq_refl eq_refl eq_refl Hall).
Defined.

Lemma run_4D_selected_witness :
  let vol := mk_ndarray [1; 2; 3; 2]%nat (seq 0 12) in
  let kw := mk_kwargs (Some "in.nii") (Some "d") (Some "vol") (Some "png")
                      (Some (PyStr "m")) (Some (PyStr "-2")) None in
  exists self,
    med2image_nii_init (fun _ => inr vol) kw = inr self
    /\ exists tr self',
        med2image_nii_run 0%nat self = (tr, inr self')
        /\ jobs_of tr
           = [("d/vol-frame-02-slice001.png",
               rot90_array 0%nat (take_axis 0%nat 2 1 (take_axis 0%nat 3 0 vol)))].
Proof.
  intros vol kw. eexists. split; [reflexivity|].
  assert (Hfs : Forall (fun f => valid_index f 2) (selected (-2) (Z.of_nat 2))).
  { constructor; [unfold valid_index; simpl; lia|constructor]. }
  assert (Hall : Forall (fun i => valid_index i 3) (selected 1 (Z.of_nat 3))).
  { constructor; [unfold valid_index; simpl; lia|constructor]. }
  exact (run_4D_selected nat 0%nat (fun _ => inr vol) kw _ vol 1 2 3 2 (-2) 1
           eq_refl eq_refl eq_refl eq_refl eq_refl Hfs Hall).
Defined.

Lemma run_makes_directory_first_witness :
  let vol := mk_ndarray [1; 2; 3; 2]%nat (seq 0 12) in
  let kw := mk_kwargs (Some "in.nii") (Some "d") (Some "vol") (Some "png")
                      (Some (PyStr "-1")) (Some (PyStr "-1")) None in
  exists self,
    med2image_nii_init (fun _ => inr vol) kw = inr self
    /\ writes_after_mkdir (_str_outputDir self) false
         (fst (med2image_nii_run 0%nat self)).
Proof.
  intros vol kw. eexists. split; [reflexivity|].
  exact (run_makes_directory_first nat 0%nat (fun _ => inr vol) kw _ vol
           eq_refl eq_refl (or_intror eq_refl)).
Defined.

Lemma run_raises_only_IndexError_witness :
  let vol := mk_ndarray [2; 2; 3]%nat (seq 0 12) in
  let kw := mk_kwargs (Some "in.nii") (Some "d") (Some "vol") (Some "png")
                      (Some (PyStr "7")) (Some (PyStr "-1")) None in
  exists self,
    med2image_nii_init (fun _ => inr vol) kw = inr self
    /\ (outcome (med2image_nii_run 0%nat self) = None
        \/ outcome (med2image_nii_run 0%nat self) = Some IndexError).
Proof.
  intros vol kw. eexists. split; [reflexivity|].
  exact (run_raises_only_IndexError nat 0%nat (fun _ => inr vol) kw _ vol
           eq_refl eq_refl (or_introl eq_refl)).
Defined.

Lemma run_file_names_distinct_witness :
  let vol := mk_ndarray [1; 2; 3; 2]%nat (seq 0 12) in
  let kw := mk_kwargs (Some "in.nii") (Some "d") (Some "vol") (Some "png")
                      (Some (PyStr "-1")) (Some (PyStr "-1")) None in
  exists self,
    med2image_nii_init (fun _ => inr vol) kw = inr self
    /\ NoDup (map fst (jobs_of (fst (med2image_nii_run 0%nat self)))).
Proof.
  intros vol kw. eexists. split; [reflexivity|].
  exact (run_file_names_distinct nat 0%nat (fun _ => inr vol) kw _ vol
           eq_refl eq_refl (or_intror eq_refl)).
Defined.

Lemma written_image_3D_witness :
  let vol := mk_ndarray [2; 2; 3]%nat (seq 0 12) in
  shape (rot90_array 0%nat (take_axis 0%nat 2 1 vol)) = [2; 2]%nat
  /\ well_formed (rot90_array 0%nat (take_axis 0%nat 2 1 vol))
  /\ forall i j, (i < 2)%nat -> (j < 2)%nat ->
       get2 0%nat (rot90_array 0%nat (take_axis 0%nat 2 1 vol)) i j
       = get3 0%nat vol j (2 - 1 - i) 1.
Proof.
  intros vol. exact (written_image_3D nat 0%nat vol 2 2 3 1 eq_refl).
Defined.

Lemma written_image_4D_witness :
  let vol := mk_ndarray [1; 2; 3; 2]%nat (seq 0 12) in
  shape (rot90_array 0%nat (take_axis 0%nat 2 2 (take_axis 0%nat 3 1 vol))) = [2; 1]%nat
  /\ well_formed (rot90_array 0%nat (take_axis 0%nat 2 2 (take_axis 0%nat 3 1 vol)))
  /\ forall i j, (i < 2)%nat -> (j < 1)%nat ->
       get2 0%nat (rot90_array 0%nat (take_axis 0%nat 2 2 (take_axis 0%nat 3 1 vol))) i j
       = get4 0%nat vol j (2 - 1 - i) 2 1.
Proof.
  intros vol.
  exact (written_image_4D nat 0%nat vol 1 2 3 2 1 2 eq_refl (Nat.lt_succ_diag_r 2)).
Defined.

Lemma run_again_witness :
  let vol := mk_ndarray [1; 2; 3; 2]%nat (seq 0 12) in
  let kw := mk_kwargs (Some "in.nii") (Some "d") (Some "vol") (Some "png")
                      (Some (PyStr "m")) (Some (PyStr "m")) None in
  exists self tr self',
    med2image_nii_init (fun _ => inr vol) kw = inr self
    /\ med2image_nii_run 0%nat self = (tr, inr self')
    /\ exists self'', med2image_nii_run 0%nat self' = (tr, inr self'').
Proof.
  intros vol kw. eexists. eexists. eexists. split; [reflexivity|].
  split; [vm_compute; reflexivity|].
  eapply (run_again nat 0%nat (fun _ => inr vol) kw) with (vol := vol);
    [reflexivity|reflexivity|right; reflexivity|vm_compute; reflexivity].
Defined.


Lemma main_generic_path_witness :
  main 0%nat (fun _ : string => @inr pyexn (ndarray nat) (mk_ndarray []%list []%list))
       {| inputFile := "IM-0001.dcm";
          outputFileStem := "out";
          outputDir := "./";
          outputFileType := "png";
          sliceToConvert := "m";
          frameToConvert := "m";
          printElapsedTime := false;
          showSlices := false;
          man := false;
          synopsis := false |}
  = ([], inl AttributeError).
Proof.
  apply main_generic_path; [reflexivity|reflexivity|discriminate|discriminate].
Defined.

Lemma med2image_init_reads_selectors_witness :
  let kw := mk_kwargs (Some "in.nii") (Some "d") (Some "vol") (Some "png")
                      (Some (PyStr "  -007 ")) (Some (PyStr "M")) None in
  selector_denotes "M" true (PyStr "M")
  /\ selector_denotes "  -007 " false (PyInt (-7))
  /\ exists self : med2image nat,
      med2image_init kw = inr self
      /\ _b_convertMiddleFrame self = true /\ _frameToConvert self = PyStr "M"
      /\ _b_convertMiddleSlice self = false /\ _sliceToConvert self = PyInt (-7).
Proof.
  intros kw.
  assert (Df : selector_denotes "M" true (PyStr "M")).
  { left. split; [right; reflexivity|split; reflexivity]. }
  assert (Ds : selector_denotes "  -007 " false (PyInt (-7))).
  { right. exists (-7). split; [|split; reflexivity].
    exists "  ", MinusSign, "007", " ".
    split; [reflexivity|]. split; [reflexivity|]. split; [reflexivity|].
    split; [discriminate|]. split; reflexivity. }
  split; [exact Df|]. split; [exact Ds|].
  exact (proj1 (med2image_init_reads_selectors nat kw)
           "M" "  -007 " true false (PyStr "M") (PyInt (-7)) eq_refl eq_refl Df Ds).
Defined.
